(** * Policy suggester backend: the reliability layer of [backend/main.py]

    A shallow embedding of the deterministic code around the generative
    backend: the ordered model fallback, the JSON salvage ladder of the two
    endpoints, the fuzzy reference matcher, the recomputation of ages, sums
    insured, tenure and product score, and the ranking of recommendations.

    Conventions.
    - A Python [str] is a [string]; a character is a code point below 256.
    - A Python exception that reaches the endpoint's outer handler becomes
      [Http500]; exceptions caught on the way are handled where the source
      handles them.
    - Library code ([json.loads], [csv.DictReader], [difflib], [float],
      [str] of a float, a list or a dict) is a section variable; a reference
      implementation of the strict JSON parser is given for the examples.
    - The product score and the similarity scores of the matcher are
      binary64 floats, computed and compared with the primitive floats. The
      ratios of the ranking are finite floats that are only compared; they
      are taken as the rationals they denote.
    - [strptime] reads the month abbreviations of the C locale.
    - The limits of the interpreter (recursion depth, the length of an
      integer's decimal string) are not modelled. *)

From Stdlib Require Import ZArith List String Ascii Bool Lia QArith.
From Stdlib Require Import Permutation Sorted.
From Stdlib Require Import DecimalString DecimalZ.
From Stdlib Require Import Floats.
Import ListNotations.

Set Warnings "-register-all".

Open Scope string_scope.
Open Scope list_scope.
Open Scope Z_scope.

(** ** Python string operations *)

Module PyStr.

(** The double quote. *)
Definition dquote : ascii := "034"%char.

(** A text written with apostrophes where it has double quotes. *)
Fixpoint with_quotes (s : string) : string :=
  match s with
  | EmptyString => EmptyString
  | String c s' =>
      String (if Ascii.eqb c "'" then dquote else c) (with_quotes s')
  end.

(** [str.isspace] on one code point below 256. *)
Definition isspace (c : ascii) : bool :=
  let n := nat_of_ascii c in
  ((9 <=? n) && (n <=? 13) || (28 <=? n) && (n <=? 32)
   || (n =? 133) || (n =? 160))%nat.

(** Decimal digits accepted by [int]. *)
Definition is_decimal (c : ascii) : bool :=
  let n := nat_of_ascii c in ((48 <=? n) && (n <=? 57))%nat.

(** [str.isdigit]: the decimal digits and the superscripts 1, 2, 3. *)
Definition isdigit (c : ascii) : bool :=
  let n := nat_of_ascii c in
  (is_decimal c || (n =? 178) || (n =? 179) || (n =? 185))%nat.

Definition lower_char (c : ascii) : ascii :=
  let n := nat_of_ascii c in
  if ((65 <=? n) && (n <=? 90)
      || (192 <=? n) && (n <=? 222) && negb (n =? 215))%nat
  then ascii_of_nat (n + 32) else c.

Fixpoint lower (s : string) : string :=
  match s with
  | EmptyString => EmptyString
  | String c s' => String (lower_char c) (lower s')
  end.

Fixpoint lstrip (s : string) : string :=
  match s with
  | EmptyString => EmptyString
  | String c s' => if isspace c then lstrip s' else s
  end.

Definition is_empty (s : string) : bool :=
  match s with EmptyString => true | _ => false end.

Fixpoint rstrip (s : string) : string :=
  match s with
  | EmptyString => EmptyString
  | String c s' =>
      let r := rstrip s' in
      if is_empty r && isspace c then EmptyString else String c r
  end.

Definition strip (s : string) : string := rstrip (lstrip s).

Definition len (s : string) : Z := Z.of_nat (String.length s).

(** [s.startswith(p)]. *)
Fixpoint startswith (p s : string) : bool :=
  match p, s with
  | EmptyString, _ => true
  | String a p', String b s' => Ascii.eqb a b && startswith p' s'
  | String _ _, EmptyString => false
  end.

(** [s.find(sub)], counting from [i]: the lowest index, or -1. *)
Fixpoint find_from (sub s : string) (i : Z) : Z :=
  if startswith sub s then i
  else match s with
       | EmptyString => -1
       | String _ s' => find_from sub s' (i + 1)
       end.

Definition find (sub s : string) : Z := find_from sub s 0.

(** [s.rfind(sub)], counting from [i]: the highest index, or -1. *)
Fixpoint rfind_from (sub s : string) (i : Z) : Z :=
  match s with
  | EmptyString => if startswith sub s then i else -1
  | String _ s' =>
      let r := rfind_from sub s' (i + 1) in
      if r =? -1 then (if startswith sub s then i else -1) else r
  end.

Definition rfind (sub s : string) : Z := rfind_from sub s 0.

(** [sub in s]. *)
Fixpoint contains (sub s : string) : bool :=
  startswith sub s ||
  match s with
  | EmptyString => false
  | String _ s' => contains sub s'
  end.

Fixpoint drop (n : nat) (s : string) : string :=
  match n, s with
  | O, _ => s
  | S n', String _ s' => drop n' s'
  | S _, EmptyString => EmptyString
  end.

Fixpoint take (n : nat) (s : string) : string :=
  match n, s with
  | S n', String c s' => String c (take n' s')
  | _, _ => EmptyString
  end.

(** A slice bound as Python normalises it: a negative index counts from the
    end, and the result is clamped to [0, len]. *)
Definition clamp (n : Z) (i : Z) : Z :=
  let j := if i <? 0 then i + n else i in Z.max 0 (Z.min n j).

(** [s[i:j]]. *)
Definition slice (s : string) (i j : Z) : string :=
  let a := clamp (len s) i in
  let b := clamp (len s) j in
  take (Z.to_nat (b - a)) (drop (Z.to_nat a) s).

(** [s.split(sep)] for a non-empty [sep]; [skip] counts the characters of a
    matched separator still to be passed over. *)
Fixpoint split_aux (sep s : string) (skip : nat) : list string :=
  match s with
  | EmptyString => [EmptyString]
  | String c s' =>
      match skip with
      | S k => split_aux sep s' k
      | O =>
          if startswith sep s
          then EmptyString :: split_aux sep s' (String.length sep - 1)
          else match split_aux sep s' 0 with
               | h :: t => String c h :: t
               | [] => [String c EmptyString]
               end
      end
  end.

Definition split (sep s : string) : list string := split_aux sep s 0.

(** [s.replace(old, new)] for a non-empty [old]: the occurrences are taken
    from the left and do not overlap. *)
Fixpoint replace_aux (old new s : string) (skip : nat) : string :=
  match s with
  | EmptyString => EmptyString
  | String c s' =>
      match skip with
      | S k => replace_aux old new s' k
      | O =>
          if startswith old s
          then (new ++ replace_aux old new s' (String.length old - 1))%string
          else String c (replace_aux old new s' 0)
      end
  end.

Definition replace (old new s : string) : string := replace_aux old new s 0.

(** [sep.join(parts)]. *)
Fixpoint join (sep : string) (parts : list string) : string :=
  match parts with
  | [] => EmptyString
  | [p] => p
  | p :: rest => (p ++ sep ++ join sep rest)%string
  end.

Fixpoint filter_chars (f : ascii -> bool) (s : string) : string :=
  match s with
  | EmptyString => EmptyString
  | String c s' =>
      if f c then String c (filter_chars f s') else filter_chars f s'
  end.

Fixpoint forall_chars (f : ascii -> bool) (s : string) : bool :=
  match s with
  | EmptyString => true
  | String c s' => f c && forall_chars f s'
  end.

(** [str(n)] for an integer. *)
Definition str_of_Z (n : Z) : string := NilZero.string_of_int (Z.to_int n).

(** [int(s)] on a string of decimal digits. *)
Fixpoint int_of_digits (s : string) (acc : Z) : Z :=
  match s with
  | EmptyString => acc
  | String c s' => int_of_digits s' (10 * acc + (Z.of_nat (nat_of_ascii c) - 48))
  end.

End PyStr.

(** Facts about the string operations. *)

Module PyStrFacts.

Import PyStr.

Lemma rstrip_spec (s : string) :
  exists w, s = (rstrip s ++ w)%string /\ forall_chars isspace w = true.
Proof.
  induction s as [|c s (w & Hs & Hw)]; simpl.
  - exists EmptyString. split; reflexivity.
  - destruct (rstrip s) as [|c' r] eqn:Hr; simpl.
    + destruct (isspace c) eqn:Hc.
      * exists (String c w). simpl. rewrite Hc, Hw. split; [|reflexivity].
        now rewrite Hs at 1.
      * exists w. split; [|exact Hw]. now rewrite Hs at 1.
    + exists w. split; [|exact Hw]. now rewrite Hs at 1.
Qed.

Lemma startswith_trans (p q s : string) :
  startswith p q = true -> startswith q s = true -> startswith p s = true.
Proof.
  revert q s. induction p as [|a p IH]; intros q s Hpq Hqs; [reflexivity|].
  destruct q as [|b q]; [discriminate|]. destruct s as [|c s]; [discriminate|].
  simpl in *.
  apply andb_prop in Hpq as [Hab Hpq]. apply andb_prop in Hqs as [Hbc Hqs].
  apply Ascii.eqb_eq in Hab, Hbc. subst.
  rewrite Ascii.eqb_refl. simpl. eauto.
Qed.

Lemma startswith_app (p s w : string) :
  startswith p s = true -> startswith p (s ++ w)%string = true.
Proof.
  revert s. induction p as [|a p IH]; intros s H; [reflexivity|].
  destruct s as [|c s]; [discriminate|]. simpl in *.
  apply andb_prop in H as [-> H]. simpl. auto.
Qed.

(** An occurrence of a marker is an occurrence of each of its prefixes. *)
Lemma contains_prefix (p q s : string) :
  startswith p q = true -> contains q s = true -> contains p s = true.
Proof.
  intros Hpq. induction s as [|c s IH]; cbn [contains]; intros H.
  - rewrite orb_false_r in *. now apply startswith_trans with q.
  - apply orb_true_iff in H as [H|H].
    + rewrite (startswith_trans p q (String c s) Hpq H). reflexivity.
    + rewrite (IH H). apply orb_true_r.
Qed.

Lemma contains_app (sub s w : string) :
  contains sub s = true -> contains sub (s ++ w)%string = true.
Proof.
  induction s as [|c s IH]; cbn [contains]; intros H.
  - rewrite orb_false_r in H. destruct sub; [|discriminate].
    destruct w; reflexivity.
  - apply orb_true_iff in H as [H|H].
    + apply (startswith_app _ _ w) in H. cbn [append] in *.
      cbn [contains]. now rewrite H.
    + cbn [append contains]. rewrite (IH H). apply orb_true_r.
Qed.

Lemma contains_lstrip (sub s : string) :
  contains sub (lstrip s) = true -> contains sub s = true.
Proof.
  induction s as [|c s IH]; [easy|].
  cbn [lstrip]. destruct (isspace c); [|easy].
  intros H. cbn [contains]. rewrite (IH H). apply orb_true_r.
Qed.

Lemma contains_rstrip (sub s : string) :
  contains sub (rstrip s) = true -> contains sub s = true.
Proof.
  destruct (rstrip_spec s) as (w & Hs & _). intros H.
  rewrite Hs. now apply contains_app.
Qed.

(** A marker absent from a text is absent from the stripped text. *)
Lemma contains_strip_false (sub s : string) :
  contains sub s = false -> contains sub (strip s) = false.
Proof.
  intros H. destruct (contains sub (strip s)) eqn:E; [|reflexivity].
  apply contains_rstrip, contains_lstrip in E. congruence.
Qed.

Lemma split_aux_not_nil (sep s : string) (skip : nat) : split_aux sep s skip <> [].
Proof.
  revert skip. induction s as [|c s IH]; intros skip; cbn [split_aux]; [discriminate|].
  destruct skip; [|apply IH].
  destruct (startswith sep (String c s)); [discriminate|].
  destruct (split_aux sep s 0); discriminate.
Qed.

(** Where the separator occurs, [split] has the piece of index 1 that
    [clean_text] reads. *)
Lemma split_has_second (sep s : string) :
  sep <> EmptyString -> contains sep s = true ->
  exists a b rest, split sep s = a :: b :: rest.
Proof.
  intros Hsep. unfold split. induction s as [|c s IH]; cbn [contains split_aux].
  - destruct sep; [contradiction | discriminate].
  - destruct (startswith sep (String c s)) eqn:E; cbn [orb].
    + intros _.
      destruct (split_aux sep s (String.length sep - 1)) as [|b rest] eqn:Hs.
      * now apply split_aux_not_nil in Hs.
      * now exists EmptyString, b, rest.
    + intros H. destruct (IH H) as (a & b & rest & ->).
      now exists (String c a), b, rest.
Qed.

(** Slices that cut a suffix off, as [format_indian_currency] takes them. *)

Lemma length_app (a b : string) :
  String.length (a ++ b)%string = (String.length a + String.length b)%nat.
Proof.
  induction a as [|c a IH]; simpl; [reflexivity | now rewrite IH].
Qed.

Lemma take_app (a b : string) : take (String.length a) (a ++ b)%string = a.
Proof.
  induction a as [|c a IH]; simpl.
  - now destruct b.
  - now rewrite IH.
Qed.

Lemma drop_app (a b : string) : drop (String.length a) (a ++ b)%string = b.
Proof.
  induction a as [|c a IH]; simpl; [reflexivity | exact IH].
Qed.

Lemma take_all (b : string) : take (String.length b) b = b.
Proof.
  induction b as [|c b IH]; simpl; [reflexivity | now rewrite IH].
Qed.

Lemma take_drop (n : nat) (s : string) : s = (take n s ++ drop n s)%string.
Proof.
  revert s. induction n as [|n IH]; intros s.
  - now destruct s.
  - destruct s as [|c s]; [reflexivity|]. simpl. now rewrite <- IH.
Qed.

Lemma length_drop (n : nat) (s : string) :
  String.length (drop n s) = (String.length s - n)%nat.
Proof.
  revert s. induction n as [|n IH]; intros s.
  - simpl. lia.
  - destruct s as [|c s]; [reflexivity|]. simpl. apply IH.
Qed.

(** A string with at least [k] characters ends in a suffix of [k]. *)
Lemma split_suffix (k : nat) (s : string) :
  (k <= String.length s)%nat ->
  exists a b, s = (a ++ b)%string /\ String.length b = k.
Proof.
  intros Hk. exists (take (String.length s - k) s), (drop (String.length s - k) s).
  split; [apply take_drop|]. rewrite length_drop. lia.
Qed.

Lemma slice_without_suffix (a b : string) :
  b <> EmptyString -> slice (a ++ b)%string 0 (- len b) = a.
Proof.
  intros Hb. unfold slice, clamp, len. rewrite length_app.
  assert (0 < String.length b)%nat by (destruct b; [contradiction | simpl; lia]).
  replace (0 <? 0) with false by reflexivity.
  replace (- Z.of_nat (String.length b) <? 0) with true
    by (symmetry; apply Z.ltb_lt; lia).
  replace (Z.max 0 (Z.min (Z.of_nat (String.length a + String.length b)) 0))
    with 0 by lia.
  replace (Z.max 0 (Z.min (Z.of_nat (String.length a + String.length b))
                      (- Z.of_nat (String.length b)
                       + Z.of_nat (String.length a + String.length b))))
    with (Z.of_nat (String.length a)) by lia.
  rewrite Z.sub_0_r, Nat2Z.id. cbn [Z.to_nat drop]. apply take_app.
Qed.

Lemma slice_suffix (a b : string) :
  b <> EmptyString ->
  slice (a ++ b)%string (- len b) (len (a ++ b)%string) = b.
Proof.
  intros Hb. unfold slice, clamp, len. rewrite length_app.
  assert (0 < String.length b)%nat by (destruct b; [contradiction | simpl; lia]).
  replace (- Z.of_nat (String.length b) <? 0) with true
    by (symmetry; apply Z.ltb_lt; lia).
  replace (Z.of_nat (String.length a + String.length b) <? 0) with false
    by (symmetry; apply Z.ltb_ge; lia).
  replace (Z.max 0 (Z.min (Z.of_nat (String.length a + String.length b))
                      (- Z.of_nat (String.length b)
                       + Z.of_nat (String.length a + String.length b))))
    with (Z.of_nat (String.length a)) by lia.
  replace (Z.max 0 (Z.min (Z.of_nat (String.length a + String.length b))
                      (Z.of_nat (String.length a + String.length b))))
    with (Z.of_nat (String.length a + String.length b)) by lia.
  replace (Z.of_nat (String.length a + String.length b) - Z.of_nat (String.length a))
    with (Z.of_nat (String.length b)) by lia.
  rewrite !Nat2Z.id, drop_app. apply take_all.
Qed.

Lemma list_of_app (a b : string) :
  list_ascii_of_string (a ++ b)%string
  = list_ascii_of_string a ++ list_ascii_of_string b.
Proof.
  induction a as [|c a IH]; simpl; [reflexivity | now rewrite IH].
Qed.

Lemma length_list_of (s : string) :
  List.length (list_ascii_of_string s) = String.length s.
Proof.
  induction s as [|c s IH]; simpl; [reflexivity | now rewrite IH].
Qed.

Lemma append_assoc (a b c : string) :
  ((a ++ b) ++ c = a ++ (b ++ c))%string.
Proof.
  induction a as [|x a IH]; simpl; [reflexivity | now rewrite IH].
Qed.

Lemma append_nil_r (a : string) : (a ++ EmptyString)%string = a.
Proof.
  induction a as [|x a IH]; simpl; [reflexivity | now rewrite IH].
Qed.

Lemma join_snoc (sep : string) (parts : list string) (last : string) :
  parts <> [] ->
  join sep (parts ++ [last]) = (join sep parts ++ sep ++ last)%string.
Proof.
  induction parts as [|p parts IH]; intros Hne; [contradiction|].
  destruct parts as [|q parts].
  - reflexivity.
  - change (join sep ((p :: q :: parts) ++ [last]))
      with (p ++ sep ++ join sep ((q :: parts) ++ [last]))%string.
    rewrite IH by discriminate.
    change (join sep (p :: q :: parts)) with (p ++ sep ++ join sep (q :: parts))%string.
    now rewrite !append_assoc.
Qed.

(** Decimal numerals: [int(str(n)) = n]. *)

Lemma digits_decimal (d : Decimal.uint) :
  forall_chars is_decimal (NilEmpty.string_of_uint d) = true.
Proof.
  induction d; cbn [NilEmpty.string_of_uint forall_chars]; try exact IHd; reflexivity.
Qed.

Lemma int_of_digits_acc (d : Decimal.uint) :
  forall acc : positive,
    int_of_digits (NilEmpty.string_of_uint d) (Z.pos acc)
    = Z.pos (Pos.of_uint_acc d acc).
Proof.
  induction d; intros acc;
    cbn [NilEmpty.string_of_uint int_of_digits Pos.of_uint_acc];
    try reflexivity;
    match goal with
    | |- int_of_digits _ ?a = Z.pos (Pos.of_uint_acc _ ?b) =>
        replace a with (Z.pos b) by (vm_compute nat_of_ascii; lia)
    end; apply IHd.
Qed.

Lemma int_of_digits_uint (d : Decimal.uint) :
  int_of_digits (NilEmpty.string_of_uint d) 0 = Z.of_uint d.
Proof.
  unfold Z.of_uint.
  induction d; cbn [NilEmpty.string_of_uint int_of_digits Pos.of_uint];
    try reflexivity; try exact IHd;
    match goal with
    | |- int_of_digits _ ?a = Z.of_N (N.pos (Pos.of_uint_acc _ ?b)) =>
        replace a with (Z.pos b) by (vm_compute; reflexivity)
    end; apply int_of_digits_acc.
Qed.

Lemma str_of_Z_decimal (n : Z) :
  0 <= n ->
  forall_chars is_decimal (str_of_Z n) = true
  /\ int_of_digits (str_of_Z n) 0 = n
  /\ str_of_Z n <> EmptyString.
Proof.
  intros Hn. unfold str_of_Z.
  pose proof (DecimalZ.of_to n) as Hof.
  destruct (Z.to_int n) as [d|d] eqn:Hd.
  - cbn [NilZero.string_of_int Z.of_int] in *.
    destruct d; cbn [NilZero.string_of_uint];
      try (split; [apply digits_decimal|];
           split; [now rewrite int_of_digits_uint | discriminate]).
    split; [reflexivity|]. split; [|discriminate].
    rewrite <- Hof. reflexivity.
  - destruct n; try discriminate Hd. lia.
Qed.

(** Characters kept or dropped one by one. *)

Lemma replace_char (c : ascii) (s : string) :
  replace (String c EmptyString) EmptyString s
  = filter_chars (fun x => negb (Ascii.eqb c x)) s.
Proof.
  unfold replace. induction s as [|x s IH]; [reflexivity|].
  cbn [replace_aux startswith filter_chars String.length Nat.sub].
  destruct (Ascii.eqb c x); cbn [andb negb append]; now rewrite IH.
Qed.

Lemma filter_chars_app (f : ascii -> bool) (a b : string) :
  filter_chars f (a ++ b)%string = (filter_chars f a ++ filter_chars f b)%string.
Proof.
  induction a as [|x a IH]; [reflexivity|].
  cbn [append filter_chars]. destruct (f x); cbn [append]; now rewrite IH.
Qed.

Lemma filter_chars_all (f : ascii -> bool) (s : string) :
  forall_chars f s = true -> filter_chars f s = s.
Proof.
  induction s as [|x s IH]; [reflexivity|].
  cbn [forall_chars filter_chars]. intros H. apply andb_prop in H as [-> H].
  now rewrite IH.
Qed.

Lemma forall_chars_impl (f g : ascii -> bool) (s : string) :
  (forall c, f c = true -> g c = true) ->
  forall_chars f s = true -> forall_chars g s = true.
Proof.
  intros Hfg. induction s as [|x s IH]; [reflexivity|].
  cbn [forall_chars]. intros H. apply andb_prop in H as [Hx H].
  now rewrite (Hfg x Hx), IH.
Qed.

Lemma forall_chars_filter (f g : ascii -> bool) (s : string) :
  forall_chars (fun c => f c || negb (g c)) s
  = forall_chars f (filter_chars g s).
Proof.
  induction s as [|x s IH]; [reflexivity|].
  cbn [forall_chars filter_chars]. rewrite IH.
  destruct (g x); cbn [negb forall_chars]; [now rewrite orb_false_r|].
  now rewrite orb_true_r.
Qed.

Lemma lstrip_no_space (s : string) :
  forall_chars (fun c => negb (isspace c)) s = true -> lstrip s = s.
Proof.
  destruct s as [|x s]; [reflexivity|]. cbn [forall_chars lstrip].
  intros H. apply andb_prop in H as [Hx _].
  apply negb_true_iff in Hx. now rewrite Hx.
Qed.

Lemma rstrip_no_space (s : string) :
  forall_chars (fun c => negb (isspace c)) s = true -> rstrip s = s.
Proof.
  induction s as [|x s IH]; [reflexivity|]. cbn [forall_chars rstrip].
  intros H. apply andb_prop in H as [Hx H].
  apply negb_true_iff in Hx. rewrite Hx, andb_false_r. now rewrite IH.
Qed.

Lemma strip_no_space (s : string) :
  forall_chars (fun c => negb (isspace c)) s = true -> strip s = s.
Proof.
  intros H. unfold strip. rewrite (lstrip_no_space _ H). now apply rstrip_no_space.
Qed.

Lemma contains_char_false (c : ascii) (s : string) :
  forall_chars (fun x => negb (Ascii.eqb c x)) s = true ->
  contains (String c EmptyString) s = false.
Proof.
  induction s as [|x s IH]; [reflexivity|].
  cbn [forall_chars contains startswith]. intros H. apply andb_prop in H as [Hx H].
  apply negb_true_iff in Hx. rewrite Hx, (IH H). reflexivity.
Qed.

Lemma int_of_digits_lower_bound (s : string) :
  forall acc,
    forall_chars is_decimal s = true -> 0 <= acc -> acc <= int_of_digits s acc.
Proof.
  induction s as [|x s IH]; intros acc Hs Hacc; cbn [int_of_digits].
  - lia.
  - cbn [forall_chars] in Hs. apply andb_prop in Hs as [Hx Hs].
    assert (0 <= Z.of_nat (nat_of_ascii x) - 48).
    { unfold is_decimal in Hx. apply andb_prop in Hx as [Hlo _].
      apply Nat.leb_le in Hlo. lia. }
    specialize (IH (10 * acc + (Z.of_nat (nat_of_ascii x) - 48)) Hs). lia.
Qed.

(** Stripping, splitting and searching texts given in pieces. *)

(** No character of [s] is [c]. *)
Definition without (c : ascii) (s : string) : bool :=
  forall_chars (fun x => negb (Ascii.eqb c x)) s.

Lemma lstrip_app (a : string) (c : ascii) (b : string) :
  isspace c = false ->
  lstrip (a ++ String c b)%string = (lstrip a ++ String c b)%string.
Proof.
  intros Hc. induction a as [|x a IH]; cbn [append lstrip].
  - now rewrite Hc.
  - destruct (isspace x); [exact IH | reflexivity].
Qed.

Lemma rstrip_cons (c : ascii) (b : string) :
  isspace c = false -> rstrip (String c b) = String c (rstrip b).
Proof.
  intros Hc. cbn [rstrip]. now rewrite Hc, andb_false_r.
Qed.

Lemma rstrip_app (a : string) (c : ascii) (b : string) :
  isspace c = false ->
  rstrip (a ++ String c b)%string = (a ++ String c (rstrip b))%string.
Proof.
  intros Hc. induction a as [|x a IH]; cbn [append].
  - now apply rstrip_cons.
  - cbn [rstrip]. rewrite IH.
    destruct a; cbn [append is_empty andb]; reflexivity.
Qed.

Lemma without_lstrip (c : ascii) (s : string) :
  without c s = true -> without c (lstrip s) = true.
Proof.
  unfold without. induction s as [|x s IH]; [easy|].
  cbn [lstrip forall_chars]. intros H.
  destruct (isspace x); [|exact H].
  apply andb_prop in H as [_ H]. now apply IH.
Qed.

Lemma startswith_self (p s : string) : startswith p (p ++ s)%string = true.
Proof.
  induction p as [|x p IH]; [reflexivity|].
  cbn [append startswith]. now rewrite Ascii.eqb_refl.
Qed.

Lemma split_aux_skip (sep p rest : string) :
  split_aux sep (p ++ rest)%string (String.length p) = split_aux sep rest 0.
Proof.
  induction p as [|x p IH]; [reflexivity|]. exact IH.
Qed.

Lemma split_aux_step (sep : string) (c : ascii) (s : string) :
  split_aux sep (String c s) 0
  = if startswith sep (String c s)
    then EmptyString :: split_aux sep s (String.length sep - 1)
    else match split_aux sep s 0 with
         | h :: t => String c h :: t
         | [] => [String c EmptyString]
         end.
Proof. reflexivity. Qed.

(** A text that begins with the separator: an empty piece, then the rest. *)
Lemma split_at_separator (c : ascii) (sep' rest : string) :
  split (String c sep') (String c sep' ++ rest)%string
  = EmptyString :: split (String c sep') rest.
Proof.
  unfold split.
  change (String c sep' ++ rest)%string with (String c (sep' ++ rest)%string).
  cbn [split_aux].
  change (String c (sep' ++ rest)%string) with (String c sep' ++ rest)%string.
  rewrite startswith_self. cbn [String.length Nat.sub].
  rewrite Nat.sub_0_r. now rewrite split_aux_skip.
Qed.

(** A piece without the first character of the separator is passed over. *)
Lemma split_after_prefix (c : ascii) (sep' pre rest : string) :
  without c pre = true ->
  split (String c sep') (pre ++ rest)%string
  = match split (String c sep') rest with
    | h :: t => (pre ++ h)%string :: t
    | [] => [pre]
    end.
Proof.
  unfold split, without. induction pre as [|x pre IH]; intros Hpre.
  - cbn [append]. destruct (split_aux (String c sep') rest 0) eqn:E; [|reflexivity].
    now apply split_aux_not_nil in E.
  - cbn [forall_chars] in Hpre. apply andb_prop in Hpre as [Hx Hpre].
    apply negb_true_iff in Hx.
    cbn [append split_aux startswith]. rewrite Hx. cbn [andb].
    rewrite (IH Hpre).
    destruct (split_aux (String c sep') rest 0); reflexivity.
Qed.

Lemma split_without (c : ascii) (sep' s : string) :
  without c s = true -> split (String c sep') s = [s].
Proof.
  intros H. rewrite <- (append_nil_r s) at 1.
  rewrite (split_after_prefix c sep' s EmptyString H).
  unfold split. cbn [split_aux]. now rewrite append_nil_r.
Qed.

Lemma contains_at (sub a b : string) :
  contains sub (a ++ sub ++ b)%string = true.
Proof.
  induction a as [|x a IH]; cbn [append].
  - destruct (sub ++ b)%string eqn:E; cbn [contains].
    + destruct sub; [reflexivity | discriminate].
    + rewrite <- E, startswith_self. reflexivity.
  - cbn [contains]. rewrite IH. apply orb_true_r.
Qed.

Lemma find_after_prefix (c : ascii) (pre rest : string) :
  without c pre = true ->
  forall i,
    find_from (String c EmptyString) (pre ++ String c rest)%string i
    = i + len pre.
Proof.
  unfold without, len. induction pre as [|x pre IH]; intros Hpre i.
  - cbn [append find_from startswith String.length]. rewrite Ascii.eqb_refl.
    cbn. lia.
  - cbn [forall_chars] in Hpre. apply andb_prop in Hpre as [Hx Hpre].
    apply negb_true_iff in Hx.
    cbn [append find_from startswith String.length]. rewrite Hx. cbn [andb].
    rewrite (IH Hpre). lia.
Qed.

Lemma rfind_without (c : ascii) (s : string) :
  without c s = true ->
  forall i, rfind_from (String c EmptyString) s i = -1.
Proof.
  unfold without. induction s as [|x s IH]; intros Hs i; [reflexivity|].
  cbn [forall_chars] in Hs. apply andb_prop in Hs as [Hx Hs].
  apply negb_true_iff in Hx.
  cbn [rfind_from startswith]. rewrite (IH Hs), Hx. reflexivity.
Qed.

Lemma rfind_before_suffix (c : ascii) (a post : string) :
  without c post = true ->
  forall i,
    0 <= i ->
    rfind_from (String c EmptyString) (a ++ String c post)%string i
    = i + len a.
Proof.
  intros Hpost. unfold len. induction a as [|x a IH]; intros i Hi.
  - cbn [append rfind_from startswith String.length].
    rewrite (rfind_without c post Hpost), Ascii.eqb_refl. cbn. lia.
  - cbn [append rfind_from String.length]. rewrite IH by lia.
    replace (i + 1 + Z.of_nat (String.length a) =? -1) with false
      by (symmetry; apply Z.eqb_neq; lia).
    lia.
Qed.

Lemma slice_middle (a b c : string) :
  slice (a ++ b ++ c)%string (len a) (len a + len b) = b.
Proof.
  unfold slice, clamp, len. rewrite !length_app.
  replace (Z.of_nat (String.length a) <? 0) with false
    by (symmetry; apply Z.ltb_ge; lia).
  replace (Z.of_nat (String.length a) + Z.of_nat (String.length b) <? 0) with false
    by (symmetry; apply Z.ltb_ge; lia).
  replace (Z.max 0 (Z.min (Z.of_nat (String.length a + (String.length b + String.length c)))
                      (Z.of_nat (String.length a))))
    with (Z.of_nat (String.length a)) by lia.
  replace (Z.max 0 (Z.min (Z.of_nat (String.length a + (String.length b + String.length c)))
                      (Z.of_nat (String.length a) + Z.of_nat (String.length b))))
    with (Z.of_nat (String.length a) + Z.of_nat (String.length b)) by lia.
  replace (Z.of_nat (String.length a) + Z.of_nat (String.length b)
           - Z.of_nat (String.length a))
    with (Z.of_nat (String.length b)) by lia.
  rewrite !Nat2Z.id, drop_app. apply take_app.
Qed.

Lemma strip_between (a : string) (c1 : ascii) (m : string) (c2 : ascii)
    (b : string) :
  isspace c1 = false -> isspace c2 = false ->
  strip (a ++ String c1 (m ++ String c2 b))%string
  = (lstrip a ++ String c1 (m ++ String c2 (rstrip b)))%string.
Proof.
  intros H1 H2. unfold strip. rewrite (lstrip_app a c1 _ H1).
  change (String c1 (m ++ String c2 b)%string)
    with (String c1 m ++ String c2 b)%string.
  rewrite <- append_assoc, (rstrip_app _ c2 b H2), append_assoc.
  reflexivity.
Qed.

Lemma without_rstrip (c : ascii) (s : string) :
  without c s = true -> without c (rstrip s) = true.
Proof.
  unfold without. induction s as [|x s IH]; [easy|].
  cbn [rstrip forall_chars]. intros H.
  apply andb_prop in H as [Hx H].
  destruct (is_empty (rstrip s) && isspace x); [reflexivity|].
  cbn [forall_chars]. now rewrite Hx, (IH H).
Qed.

(** The first character of a right-stripped text is the text's own. *)
Lemma startswith_rstrip (p s : string) :
  startswith p (rstrip s) = true -> startswith p s = true.
Proof.
  revert p. induction s as [|x s IH]; intros p; [easy|].
  cbn [rstrip]. destruct (is_empty (rstrip s) && isspace x).
  - destruct p; [reflexivity | discriminate].
  - destruct p as [|a p]; [reflexivity|]. cbn [startswith].
    intros H. apply andb_prop in H as [Ha H].
    now rewrite Ha, (IH p H).
Qed.

Lemma rstrip_keeps_first (c : ascii) (s : string) :
  startswith (String c EmptyString) s = false ->
  startswith (String c EmptyString) (rstrip s) = false.
Proof.
  intros H. destruct (startswith (String c EmptyString) (rstrip s)) eqn:E;
    [|reflexivity].
  apply startswith_rstrip in E. congruence.
Qed.

(** [rfind] answers -1 or an index. *)
Lemma rfind_from_range (sub s : string) (i : Z) :
  0 <= i -> -1 <= rfind_from sub s i.
Proof.
  revert i. induction s as [|x s IH]; intros i Hi; cbn [rfind_from].
  - destruct (startswith sub EmptyString); lia.
  - specialize (IH (i + 1) ltac:(lia)).
    destruct (rfind_from sub s (i + 1) =? -1); [|exact IH].
    destruct (startswith sub (String x s)); lia.
Qed.

(** [s[i:0]] is empty. *)
Lemma slice_to_zero (s : string) (i : Z) : slice s i 0 = EmptyString.
Proof.
  unfold slice.
  assert (Hb : clamp (len s) 0 = 0) by (unfold clamp, len; cbn [Z.ltb Z.compare]; lia).
  assert (Ha : 0 <= clamp (len s) i) by (unfold clamp; lia).
  rewrite Hb. replace (Z.to_nat (0 - clamp (len s) i)) with 0%nat by lia.
  reflexivity.
Qed.

Lemma contains_empty (s : string) : contains EmptyString s = true.
Proof. destruct s; reflexivity. Qed.

(** Lower-casing a lower-cased text changes nothing. *)
Lemma lower_char_idem (c : ascii) : lower_char (lower_char c) = lower_char c.
Proof. destruct c as [[] [] [] [] [] [] [] []]; reflexivity. Qed.

Lemma lower_idem (s : string) : lower (lower s) = lower s.
Proof.
  induction s as [|c s IH]; [reflexivity|].
  cbn [lower]. now rewrite lower_char_idem, IH.
Qed.

Lemma is_empty_lower (s : string) : is_empty (lower s) = is_empty s.
Proof. destruct s; reflexivity. Qed.

End PyStrFacts.

(** ** Parsed JSON values and the Python operations the endpoints apply *)

(** What [json.loads] returns: [None], [bool], [int], [float], [str], [list]
    and [dict]. A [dict] keeps its keys in insertion order. *)
Inductive json : Type :=
| JNull
| JBool (b : bool)
| JInt (n : Z)
| JFloat (f : float)
| JStr (s : string)
| JArr (items : list json)
| JObj (fields : list (string * json)).

(** The outcome of endpoint code: a value, or an exception that the outer
    handler turns into an HTTP 500 response. *)
Inductive result (A : Type) : Type :=
| Ok (a : A)
| Http500.

Arguments Ok {A} a.
Arguments Http500 {A}.

Definition bind {A B : Type} (r : result A) (k : A -> result B) : result B :=
  match r with
  | Ok a => k a
  | Http500 => Http500
  end.

Notation "x <- r ;; k" := (bind r (fun x => k))
  (at level 61, r at next level, right associativity).

Fixpoint mapM {A B : Type} (f : A -> result B) (l : list A) : result (list B) :=
  match l with
  | [] => Ok []
  | a :: l' => b <- f a ;; bs <- mapM f l' ;; Ok (b :: bs)
  end.

Module Py.

Definition dict : Type := list (string * json).

(** [d.get(k)] on the items of a dict. *)
Fixpoint lookup {V : Type} (k : string) (d : list (string * V)) : option V :=
  match d with
  | [] => None
  | (k', v) :: d' => if String.eqb k k' then Some v else lookup k d'
  end.

(** [d[k] = v]: a present key keeps its place, a new key goes last. *)
Fixpoint store {V : Type} (k : string) (v : V) (d : list (string * V))
    : list (string * V) :=
  match d with
  | [] => [(k, v)]
  | (k', v') :: d' =>
      if String.eqb k k' then (k, v) :: d' else (k', v') :: store k v d'
  end.

(** [bool(v)]. *)
Definition truthy (v : json) : bool :=
  match v with
  | JNull => false
  | JBool b => b
  | JInt n => negb (n =? 0)
  | JFloat f => negb (PrimFloat.eqb f 0%float)
  | JStr s => negb (PyStr.is_empty s)
  | JArr l => match l with [] => false | _ => true end
  | JObj d => match d with [] => false | _ => true end
  end.

(** [v == s] for a string [s]. *)
Definition eq_str (v : json) (s : string) : bool :=
  match v with
  | JStr t => String.eqb t s
  | _ => false
  end.

(** [v.get(k, default)]: only a dict has [get]. *)
Definition get (v : json) (k : string) (default : json) : result json :=
  match v with
  | JObj d => Ok (match lookup k d with Some x => x | None => default end)
  | _ => Http500
  end.

(** [k in v] for a string [k]: a key of a dict, a substring of a string, an
    element of a list; a [TypeError] otherwise. *)
Definition contains (k : string) (v : json) : result bool :=
  match v with
  | JObj d => Ok (match lookup k d with Some _ => true | None => false end)
  | JStr s => Ok (PyStr.contains k s)
  | JArr l => Ok (existsb (fun x => eq_str x k) l)
  | _ => Http500
  end.

(** [v[k]] for a string [k]: a [KeyError] on a dict without the key, a
    [TypeError] on every other value. *)
Definition getitem (v : json) (k : string) : result json :=
  match v with
  | JObj d => match lookup k d with Some x => Ok x | None => Http500 end
  | _ => Http500
  end.

(** [v[0]]: the first element of a list, the first character of a string;
    an [IndexError] on an empty one, a [KeyError] on a dict, whose keys are
    strings, and a [TypeError] on every other value. *)
Definition getitem0 (v : json) : result json :=
  match v with
  | JArr (x :: _) => Ok x
  | JStr (String c _) => Ok (JStr (String c EmptyString))
  | _ => Http500
  end.

(** [v[k] = x] for a string [k]. *)
Definition setitem (v : json) (k : string) (x : json) : result json :=
  match v with
  | JObj d => Ok (JObj (store k x d))
  | _ => Http500
  end.

(** The elements a [for] loop over [v] visits. *)
Definition iter (v : json) : result (list json) :=
  match v with
  | JArr l => Ok l
  | JObj d => Ok (map (fun kv => JStr (fst kv)) d)
  | JStr s =>
      Ok (map (fun c => JStr (String c EmptyString)) (list_ascii_of_string s))
  | _ => Http500
  end.

(** [len(v)]. *)
Definition length (v : json) : result Z :=
  match v with
  | JArr l => Ok (Z.of_nat (List.length l))
  | JObj d => Ok (Z.of_nat (List.length d))
  | JStr s => Ok (PyStr.len s)
  | _ => Http500
  end.

(** [v[:n]] for [n >= 0]. A dict cannot be sliced. *)
Definition slice_to (v : json) (n : nat) : result json :=
  match v with
  | JArr l => Ok (JArr (firstn n l))
  | JStr s => Ok (JStr (PyStr.take n s))
  | _ => Http500
  end.

Definition is_list (v : json) : bool :=
  match v with JArr _ => true | _ => false end.

(** The value under a key of a dict, when the value is a dict with it. *)
Definition field (v : json) (k : string) : option json :=
  match v with
  | JObj d => lookup k d
  | _ => None
  end.

Definition sub_field (v : json) (k1 k2 : string) : option json :=
  match field v k1 with
  | Some x => field x k2
  | None => None
  end.

End Py.

(** Facts about dicts. *)

Module PyFacts.

Import Py.

Lemma lookup_store_same {V : Type} (k : string) (x : V) (d : list (string * V)) :
  lookup k (store k x d) = Some x.
Proof.
  induction d as [|[k0 v0] d IH]; simpl.
  - now rewrite String.eqb_refl.
  - destruct (String.eqb k k0) eqn:E; simpl.
    + now rewrite String.eqb_refl.
    + now rewrite E.
Qed.

Lemma lookup_store_other {V : Type} (k k' : string) (x : V) (d : list (string * V)) :
  String.eqb k k' = false -> lookup k (store k' x d) = lookup k d.
Proof.
  intros Hk. induction d as [|[k0 v0] d IH]; simpl.
  - now rewrite Hk.
  - destruct (String.eqb k' k0) eqn:E0; simpl.
    + apply String.eqb_eq in E0. subst k0. now rewrite Hk.
    + now rewrite IH.
Qed.

Lemma store_same {V : Type} (k : string) (x : V) (d : list (string * V)) :
  lookup k d = Some x -> store k x d = d.
Proof.
  induction d as [|[k0 v0] d IH]; simpl; [discriminate|].
  destruct (String.eqb k k0) eqn:E.
  - apply String.eqb_eq in E. now intros [= ->]; subst.
  - intros H. now rewrite IH.
Qed.

(** Storing under a present key keeps the keys and their order. *)
Lemma store_keeps_keys {V : Type} (k : string) (x y : V) (d : list (string * V)) :
  lookup k d = Some y -> map fst (store k x d) = map fst d.
Proof.
  induction d as [|[k0 v0] d IH]; cbn [lookup store]; [discriminate|].
  destruct (String.eqb k k0) eqn:E.
  - apply String.eqb_eq in E. now subst.
  - intros H. cbn [map fst]. now rewrite (IH H).
Qed.

End PyFacts.

(** ** The ordered model fallback ([generate_content_with_fallback]) *)

Module Fallback.

Definition MODEL_CANDIDATES : list string :=
  [ "gemini-2.0-flash-exp"; "gemini-1.5-pro"; "gemini-1.5-flash";
    "gemini-2.5-flash"; "gemini-2.5-pro"; "gemini-3.0-flash";
    "gemini-2.5-flash-lite" ].

Section Invoker.

(** The request contents, the values of the keyword arguments, the response
    object and the exceptions of the client library. *)
Variables (Contents Value Response Exn : Type).

(** The value ["application/json"] of the [response_mime_type] option. *)
Variable application_json : Value.

(** One call of [client.models.generate_content] with the configuration built
    from the options: a response, or the exception it raised. *)
Variable generate_content :
  string -> Contents -> list (string * Value) -> Response + Exn.

Definition options : Type := list (string * Value).

Fixpoint has_option (k : string) (o : options) : bool :=
  match o with
  | [] => false
  | (k', _) :: o' => String.eqb k k' || has_option k o'
  end.

Fixpoint set_option (k : string) (v : Value) (o : options) : options :=
  match o with
  | [] => [(k, v)]
  | (k', v') :: o' =>
      if String.eqb k k' then (k, v) :: o' else (k', v') :: set_option k v o'
  end.

Fixpoint pop_option (k : string) (o : options) : options :=
  match o with
  | [] => []
  | (k', v') :: o' =>
      if String.eqb k k' then o' else (k', v') :: pop_option k o'
  end.

(** [config_params]: the JSON mime type, then the keyword arguments on top of
    it, then the mime type dropped when tools are requested. *)
Definition config_params (kwargs : options) : options :=
  let base := [("response_mime_type", application_json)] in
  let merged := fold_left (fun o kv => set_option (fst kv) (snd kv) o) kwargs base in
  if has_option "tools" merged then pop_option "response_mime_type" merged
  else merged.

(** How the call ends: the response of a model, the re-raised exception of
    the last failed model, or the generic "All models failed" exception. *)
Inductive outcome : Type :=
| Returned (r : Response)
| Raised (e : Exn)
| RaisedAllFailed.

(** The loop over the candidates. [last_exception] is the variable of the
    source; [attempted] records, in order, the models a call was issued to. *)
Fixpoint attempt_all (contents : Contents) (kwargs : options)
    (models : list string) (last_exception : option Exn)
    (attempted : list string) : outcome * list string :=
  match models with
  | [] =>
      (match last_exception with
       | Some e => Raised e
       | None => RaisedAllFailed
       end, attempted)
  | model :: rest =>
      match generate_content model contents (config_params kwargs) with
      | inl response => (Returned response, attempted ++ [model])
      | inr e => attempt_all contents kwargs rest (Some e) (attempted ++ [model])
      end
  end.

Definition invoke (models : list string) (contents : Contents)
    (kwargs : options) : outcome * list string :=
  attempt_all contents kwargs models None [].

Definition generate_content_with_fallback :=
  invoke MODEL_CANDIDATES.

(** A model fails on the request when its call raises. *)
Definition fails (contents : Contents) (kwargs : options) (model : string) : Prop :=
  exists e, generate_content model contents (config_params kwargs) = inr e.

Lemma attempt_all_failures (contents : Contents) (kwargs : options) :
  forall pre rest last attempted,
    Forall (fails contents kwargs) pre ->
    pre <> [] ->
    exists e,
      attempt_all contents kwargs (pre ++ rest) last attempted =
      attempt_all contents kwargs rest (Some e) (attempted ++ pre).
Proof.
  induction pre as [|m pre IH]; intros rest last attempted Hall Hne.
  - contradiction.
  - inversion Hall as [|? ? [e He] Hpre]; subst.
    simpl. rewrite He.
    destruct pre as [|m' pre'].
    + exists e. reflexivity.
    + destruct (IH rest (Some e) (attempted ++ [m]) Hpre) as [e' He'].
      { discriminate. }
      exists e'. rewrite He'. now rewrite <- app_assoc.
Qed.

Lemma attempt_all_skips_failures (contents : Contents) (kwargs : options) :
  forall pre rest last attempted,
    Forall (fails contents kwargs) pre ->
    exists last',
      attempt_all contents kwargs (pre ++ rest) last attempted =
      attempt_all contents kwargs rest last' (attempted ++ pre).
Proof.
  intros pre rest last attempted Hall.
  destruct pre as [|m pre].
  - exists last. simpl. now rewrite app_nil_r.
  - destruct (attempt_all_failures contents kwargs (m :: pre) rest last attempted Hall)
      as [e He]; [discriminate|].
    exists (Some e). exact He.
Qed.

(** C2. When the candidates before [k] fail and [k] succeeds, the invoker
    returns the response of [k] and the calls it issued are exactly those to
    the candidates up to [k], none after it; when every candidate of a list
    ending in [m] fails, it raises the exception the call to [m] raised. *)
Theorem invoke_first_success_or_last_cause
    (contents : Contents) (kwargs : options) :
  (forall pre k post r,
      Forall (fails contents kwargs) pre ->
      generate_content k contents (config_params kwargs) = inl r ->
      invoke (pre ++ k :: post) contents kwargs = (Returned r, pre ++ [k]))
  /\
  (forall pre m e,
      Forall (fails contents kwargs) pre ->
      generate_content m contents (config_params kwargs) = inr e ->
      invoke (pre ++ [m]) contents kwargs = (Raised e, pre ++ [m])).
Proof.
  split.
  - intros pre k post r Hpre Hk. unfold invoke.
    destruct (attempt_all_skips_failures contents kwargs pre (k :: post) None [] Hpre)
      as [last' ->].
    simpl. now rewrite Hk.
  - intros pre m e Hpre Hm. unfold invoke.
    destruct (attempt_all_skips_failures contents kwargs pre [m] None [] Hpre)
      as [last' ->].
    simpl. now rewrite Hm.
Qed.

(** *** The calls issued and the configuration passed *)

Lemma attempt_all_shape (contents : Contents) (kwargs : options) :
  forall models last attempted,
    exists tried rest,
      snd (attempt_all contents kwargs models last attempted) = attempted ++ tried
      /\ models = tried ++ rest
      /\ match fst (attempt_all contents kwargs models last attempted) with
         | Returned r =>
             exists pre k,
               tried = pre ++ [k]
               /\ Forall (fails contents kwargs) pre
               /\ generate_content k contents (config_params kwargs) = inl r
         | Raised e =>
             rest = [] /\ Forall (fails contents kwargs) tried
             /\ (tried = [] /\ last = Some e
                 \/ exists pre m,
                      tried = pre ++ [m]
                      /\ generate_content m contents (config_params kwargs) = inr e)
         | RaisedAllFailed => tried = [] /\ rest = [] /\ last = None
         end.
Proof.
  induction models as [|m models IH]; intros last attempted.
  - exists [], []. cbn [attempt_all fst snd]. rewrite app_nil_r.
    split; [reflexivity|]. split; [reflexivity|].
    destruct last as [e|]; repeat split; auto.
  - cbn [attempt_all].
    destruct (generate_content m contents (config_params kwargs)) as [r|e] eqn:Hm.
    + exists [m], models. cbn [fst snd]. repeat split.
      exists [], m. repeat split; [constructor | exact Hm].
    + destruct (IH (Some e) (attempted ++ [m])) as (tried & rest & Hsnd & Hmodels & Hfst).
      exists (m :: tried), rest. split; [|split].
      * rewrite Hsnd, <- app_assoc. reflexivity.
      * now rewrite Hmodels.
      * assert (Hfail : fails contents kwargs m) by (exists e; exact Hm).
        destruct (fst (attempt_all contents kwargs models (Some e) (attempted ++ [m])))
          as [r|e'|].
        -- destruct Hfst as (pre & k & -> & Hpre & Hk).
           exists (m :: pre), k. repeat split; [now constructor | exact Hk].
        -- destruct Hfst as (-> & Htried & Hlast). repeat split; [now constructor|].
           right. destruct Hlast as [[-> [= <-]] | (pre & m' & -> & Hm')].
           ++ exists [], m. split; [reflexivity | exact Hm].
           ++ exists (m :: pre), m'. split; [reflexivity | exact Hm'].
        -- destruct Hfst as (_ & _ & Hnone). discriminate.
Qed.

(** X1. The calls go to the candidates in their order, each at most once,
    and stop at the first success: the models called are a prefix of the
    candidate list, so there are at most as many calls as candidates. A
    response comes from the last model called, all models called before it
    having failed; an exception of a model is re-raised only after every
    candidate was called and failed; and the generic "All models failed"
    exception is raised for an empty candidate list only, hence never for
    the seven built-in candidates. *)
Theorem invoke_calls_prefix (models : list string) (contents : Contents)
    (kwargs : options) :
  (exists rest, models = snd (invoke models contents kwargs) ++ rest)
  /\ (List.length (snd (invoke models contents kwargs)) <= List.length models)%nat
  /\ (forall r,
        fst (invoke models contents kwargs) = Returned r ->
        exists pre k,
          snd (invoke models contents kwargs) = pre ++ [k]
          /\ Forall (fails contents kwargs) pre
          /\ generate_content k contents (config_params kwargs) = inl r)
  /\ (forall e,
        fst (invoke models contents kwargs) = Raised e ->
        snd (invoke models contents kwargs) = models
        /\ Forall (fails contents kwargs) models
        /\ exists pre m,
             models = pre ++ [m]
             /\ generate_content m contents (config_params kwargs) = inr e)
  /\ (fst (invoke models contents kwargs) = RaisedAllFailed <-> models = [])
  /\ fst (generate_content_with_fallback contents kwargs) <> RaisedAllFailed.
Proof.
  assert (Hshape := attempt_all_shape contents kwargs).
  assert (Hempty : forall ms,
             fst (invoke ms contents kwargs) = RaisedAllFailed <-> ms = []).
  { intros ms. unfold invoke.
    destruct (Hshape ms None []) as (tried & rest & _ & Hms & Hfst).
    split.
    - intros H. rewrite H in Hfst. destruct Hfst as (-> & -> & _). exact Hms.
    - intros ->. reflexivity. }
  unfold invoke in *.
  destruct (Hshape models None []) as (tried & rest & Hsnd & Hmodels & Hfst).
  cbn [app] in Hsnd.
  split; [exists rest; now rewrite Hsnd|].
  split; [rewrite Hsnd, Hmodels, length_app; lia|].
  split; [|split; [|split]].
  - intros r Hr. rewrite Hr in Hfst. now rewrite Hsnd.
  - intros e He. rewrite He in Hfst.
    destruct Hfst as (Hrest & Hfails & Hlast).
    rewrite Hrest, app_nil_r in Hmodels. rewrite Hsnd, <- Hmodels in *.
    repeat split; [exact Hfails|].
    destruct Hlast as [[_ Hlast] | Hlast]; [discriminate | exact Hlast].
  - apply Hempty.
  - unfold generate_content_with_fallback. intros H.
    apply Hempty in H. discriminate H.
Qed.

Fixpoint get_option (k : string) (o : options) : option Value :=
  match o with
  | [] => None
  | (k', v) :: o' => if String.eqb k k' then Some v else get_option k o'
  end.

Lemma has_set_option (k k' : string) (v : Value) (o : options) :
  has_option k (set_option k' v o) = String.eqb k k' || has_option k o.
Proof.
  induction o as [|[k0 v0] o IH]; cbn [set_option has_option].
  - now rewrite orb_false_r.
  - destruct (String.eqb k' k0) eqn:E; cbn [has_option].
    + apply String.eqb_eq in E. subst k0.
      now destruct (String.eqb k k').
    + rewrite IH. destruct (String.eqb k k'), (String.eqb k k0); reflexivity.
Qed.

Lemma has_merged (k : string) (kwargs : options) :
  forall base,
    has_option k (fold_left (fun o kv => set_option (fst kv) (snd kv) o) kwargs base)
    = has_option k kwargs || has_option k base.
Proof.
  induction kwargs as [|[k0 v0] kwargs IH]; intros base; cbn [fold_left has_option].
  - reflexivity.
  - rewrite IH, has_set_option. cbn [fst].
    destruct (String.eqb k k0), (has_option k kwargs), (has_option k base); reflexivity.
Qed.

Lemma has_option_in (k : string) (o : options) :
  has_option k o = true <-> In k (map fst o).
Proof.
  induction o as [|[k0 v0] o IH]; cbn [has_option map fst In].
  - split; [discriminate | contradiction].
  - rewrite orb_true_iff, IH, String.eqb_eq. intuition congruence.
Qed.

Lemma set_option_keys (k : string) (v : Value) (o : options) :
  NoDup (map fst o) -> NoDup (map fst (set_option k v o)).
Proof.
  induction o as [|[k0 v0] o IH]; cbn [set_option map fst]; intros Hnd.
  - constructor; [easy | constructor].
  - inversion Hnd as [|? ? Hnotin Hrest]; subst.
    destruct (String.eqb k k0) eqn:E; cbn [map fst].
    + apply String.eqb_eq in E. subst k0. now constructor.
    + constructor; [|now apply IH].
      intros Hin. apply has_option_in in Hin. rewrite has_set_option in Hin.
      rewrite String.eqb_sym, E in Hin. cbn [orb] in Hin.
      now apply has_option_in in Hin.
Qed.

Lemma merged_keys (kwargs : options) :
  forall base,
    NoDup (map fst base) ->
    NoDup (map fst (fold_left (fun o kv => set_option (fst kv) (snd kv) o) kwargs base)).
Proof.
  induction kwargs as [|kv kwargs IH]; intros base Hbase; cbn [fold_left].
  - exact Hbase.
  - apply IH. now apply set_option_keys.
Qed.

Lemma has_not_in (k : string) (o : options) :
  ~ In k (map fst o) -> has_option k o = false.
Proof.
  intros Hnot. destruct (has_option k o) eqn:E; [|reflexivity].
  now apply has_option_in in E.
Qed.

Lemma has_pop_same (k : string) (o : options) :
  NoDup (map fst o) -> has_option k (pop_option k o) = false.
Proof.
  induction o as [|[k0 v0] o IH]; cbn [pop_option map fst]; intros Hnd.
  - reflexivity.
  - inversion Hnd as [|? ? Hnotin Hrest]; subst.
    destruct (String.eqb k k0) eqn:E.
    + apply String.eqb_eq in E. subst k0. now apply has_not_in.
    + cbn [has_option]. rewrite E. now apply IH.
Qed.

Lemma has_pop_other (k k' : string) (o : options) :
  String.eqb k k' = false -> has_option k (pop_option k' o) = has_option k o.
Proof.
  intros Hk. induction o as [|[k0 v0] o IH]; cbn [pop_option has_option].
  - reflexivity.
  - destruct (String.eqb k' k0) eqn:E; cbn [has_option].
    + apply String.eqb_eq in E. subst k0. now rewrite Hk.
    + now rewrite IH.
Qed.

Lemma pop_option_keys (k : string) (o : options) :
  NoDup (map fst o) -> NoDup (map fst (pop_option k o)).
Proof.
  induction o as [|[k0 v0] o IH]; cbn [pop_option map fst]; intros Hnd.
  - constructor.
  - inversion Hnd as [|? ? Hnotin Hrest]; subst.
    destruct (String.eqb k k0) eqn:E; [exact Hrest|]. cbn [map fst].
    constructor; [|now apply IH].
    intros Hin. apply Hnotin. apply has_option_in in Hin. apply has_option_in.
    destruct (String.eqb k0 k) eqn:E'.
    + rewrite String.eqb_sym in E'. congruence.
    + now rewrite has_pop_other in Hin.
Qed.

(** X2. The configuration of a call names each option once. It carries the
    JSON mime type exactly when no tools are requested: with [tools] among
    the keyword arguments [response_mime_type] is dropped, also when the
    caller passed one, and without [tools] it is present. Every other
    keyword argument is passed on, and nothing else is added. *)
Theorem config_params_mime_or_tools (kwargs : options) :
  NoDup (map fst (config_params kwargs))
  /\ has_option "response_mime_type" (config_params kwargs)
     = negb (has_option "tools" kwargs)
  /\ (forall k,
        String.eqb k "response_mime_type" = false ->
        has_option k (config_params kwargs) = has_option k kwargs).
Proof.
  unfold config_params.
  set (base := [("response_mime_type", application_json)]).
  set (merged := fold_left (fun o kv => set_option (fst kv) (snd kv) o) kwargs base).
  assert (Hkeys : NoDup (map fst merged)).
  { apply merged_keys. cbn. constructor; [easy | constructor]. }
  assert (Hhas : forall k, has_option k merged = has_option k kwargs || has_option k base)
    by (intros k; apply has_merged).
  assert (Htools : has_option "tools" merged = has_option "tools" kwargs).
  { rewrite Hhas. cbn. now rewrite orb_false_r. }
  rewrite Htools.
  destruct (has_option "tools" kwargs) eqn:Ht; cbn [negb].
  - split; [now apply pop_option_keys|]. split; [now apply has_pop_same|].
    intros k Hk. rewrite has_pop_other by exact Hk. rewrite Hhas.
    cbn [base has_option]. rewrite Hk. now rewrite !orb_false_r.
  - split; [exact Hkeys|]. split.
    + rewrite Hhas. cbn. apply orb_true_r.
    + intros k Hk. rewrite Hhas. cbn [base has_option]. rewrite Hk.
      now rewrite !orb_false_r.
Qed.

End Invoker.

(** *** An example: a backend on which only one model answers *)

Definition only_flash (model : string) (contents : string)
    (config : list (string * string)) : string + string :=
  if String.eqb model "gemini-1.5-flash" then inl ("answer to " ++ contents)%string
  else inr ("unavailable: " ++ model)%string.

Lemma invoke_example :
  invoke string string string string "application/json" only_flash
    (["gemini-2.0-flash-exp"; "gemini-1.5-pro"]
     ++ "gemini-1.5-flash" :: ["gemini-2.5-flash"; "gemini-2.5-pro"])
    "prompt" [("temperature", "0.0")]
  = (Returned string string "answer to prompt",
     ["gemini-2.0-flash-exp"; "gemini-1.5-pro"] ++ ["gemini-1.5-flash"])
  /\ invoke string string string string "application/json" only_flash
       (["gemini-2.0-flash-exp"; "gemini-1.5-pro"] ++ ["gemini-2.5-pro"])
       "prompt" [("temperature", "0.0")]
     = (Raised string string "unavailable: gemini-2.5-pro",
        ["gemini-2.0-flash-exp"; "gemini-1.5-pro"] ++ ["gemini-2.5-pro"]).
Proof.
  destruct (invoke_first_success_or_last_cause string string string string
              "application/json" only_flash "prompt" [("temperature", "0.0")])
    as [Hfirst Hlast].
  split.
  - apply Hfirst; [|reflexivity].
    repeat constructor; eexists; reflexivity.
  - apply Hlast; [|reflexivity].
    repeat constructor; eexists; reflexivity.
Defined.

End Fallback.

(** ** Dates: [datetime.strptime] on the five formats of [parse_date] *)

Module Dates.

(** A [datetime] at midnight; only the calendar date is used. *)
Record datetime : Type := mkDate { year : Z; month : Z; day : Z }.

(** A regular-expression fragment: every way it matches a prefix of the
    input, in the order the backtracking engine tries them, each with the
    value read and the rest of the input. *)
Definition matcher (A : Type) : Type := string -> list (A * string).

Definition digit_of (c : ascii) : Z := Z.of_nat (nat_of_ascii c) - 48.

Definition in_range (lo hi : Z) (c : ascii) : bool :=
  PyStr.is_decimal c && (lo <=? digit_of c) && (digit_of c <=? hi).

Definition is_char (a c : ascii) : bool := Ascii.eqb a c.

(** [%d]: [3[0-1]|[1-2]\d|0[1-9]|[1-9]| [1-9]]. *)
Definition re_d : matcher Z := fun s =>
  match s with
  | EmptyString => []
  | String c1 r1 =>
      (match r1 with
       | EmptyString => []
       | String c2 r2 =>
           (if is_char "3" c1 && in_range 0 1 c2 then [(30 + digit_of c2, r2)] else [])
           ++ (if in_range 1 2 c1 && in_range 0 9 c2
               then [(10 * digit_of c1 + digit_of c2, r2)] else [])
           ++ (if is_char "0" c1 && in_range 1 9 c2 then [(digit_of c2, r2)] else [])
       end)
      ++ (if in_range 1 9 c1 then [(digit_of c1, r1)] else [])
      ++ (match r1 with
          | EmptyString => []
          | String c2 r2 =>
              if is_char " " c1 && in_range 1 9 c2 then [(digit_of c2, r2)] else []
          end)
  end.

(** [%m]: [1[0-2]|0[1-9]|[1-9]]. *)
Definition re_m : matcher Z := fun s =>
  match s with
  | EmptyString => []
  | String c1 r1 =>
      (match r1 with
       | EmptyString => []
       | String c2 r2 =>
           (if is_char "1" c1 && in_range 0 2 c2 then [(10 + digit_of c2, r2)] else [])
           ++ (if is_char "0" c1 && in_range 1 9 c2 then [(digit_of c2, r2)] else [])
       end)
      ++ (if in_range 1 9 c1 then [(digit_of c1, r1)] else [])
  end.

(** [%Y]: four decimal digits. *)
Definition re_Y : matcher Z := fun s =>
  match s with
  | String c1 (String c2 (String c3 (String c4 r))) =>
      if PyStr.is_decimal c1 && PyStr.is_decimal c2
         && PyStr.is_decimal c3 && PyStr.is_decimal c4
      then [(1000 * digit_of c1 + 100 * digit_of c2 + 10 * digit_of c3 + digit_of c4, r)]
      else []
  | _ => []
  end.

Definition month_abbr : list string :=
  ["jan"; "feb"; "mar"; "apr"; "may"; "jun";
   "jul"; "aug"; "sep"; "oct"; "nov"; "dec"].

Fixpoint index_of (x : string) (l : list string) (i : Z) : option Z :=
  match l with
  | [] => None
  | y :: l' => if String.eqb x y then Some i else index_of x l' (i + 1)
  end.

(** [%b]: an abbreviated month name in any letter case. *)
Definition re_b : matcher Z := fun s =>
  match s with
  | String c1 (String c2 (String c3 r)) =>
      let name := PyStr.lower (String c1 (String c2 (String c3 EmptyString))) in
      match index_of name month_abbr 1 with
      | Some m => [(m, r)]
      | None => []
      end
  | _ => []
  end.

(** A literal character of the format. *)
Definition re_lit (a : ascii) : matcher unit := fun s =>
  match s with
  | String c r => if is_char a c then [(tt, r)] else []
  | EmptyString => []
  end.

(** The rests after a run of white space, the longest run first: a space in
    the format stands for [\s+]. *)
Fixpoint ws_rests (s : string) : list string :=
  match s with
  | String c r => if PyStr.isspace c then ws_rests r ++ [r] else []
  | EmptyString => []
  end.

Definition re_ws : matcher unit := fun s => map (fun r => (tt, r)) (ws_rests s).

Definition seq {A B : Type} (p : matcher A) (k : A -> matcher B) : matcher B :=
  fun s => flat_map (fun ar => k (fst ar) (snd ar)) (p s).

Definition ret {A : Type} (a : A) : matcher A := fun s => [(a, s)].

(** The five formats; each yields year, month and day. *)
Inductive format : Type :=
| DMY_slash   (* "%d/%m/%Y" *)
| DMY_dash    (* "%d-%m-%Y" *)
| YMD_dash    (* "%Y-%m-%d" *)
| DbY_dash    (* "%d-%b-%Y" *)
| DbY_space.  (* "%d %b %Y" *)

Definition formats : list format :=
  [DMY_slash; DMY_dash; YMD_dash; DbY_dash; DbY_space].

Definition regex_of (f : format) : matcher (Z * Z * Z) :=
  match f with
  | DMY_slash =>
      seq re_d (fun d => seq (re_lit "/") (fun _ => seq re_m (fun m =>
      seq (re_lit "/") (fun _ => seq re_Y (fun y => ret (y, m, d))))))
  | DMY_dash =>
      seq re_d (fun d => seq (re_lit "-") (fun _ => seq re_m (fun m =>
      seq (re_lit "-") (fun _ => seq re_Y (fun y => ret (y, m, d))))))
  | YMD_dash =>
      seq re_Y (fun y => seq (re_lit "-") (fun _ => seq re_m (fun m =>
      seq (re_lit "-") (fun _ => seq re_d (fun d => ret (y, m, d))))))
  | DbY_dash =>
      seq re_d (fun d => seq (re_lit "-") (fun _ => seq re_b (fun m =>
      seq (re_lit "-") (fun _ => seq re_Y (fun y => ret (y, m, d))))))
  | DbY_space =>
      seq re_d (fun d => seq re_ws (fun _ => seq re_b (fun m =>
      seq re_ws (fun _ => seq re_Y (fun y => ret (y, m, d))))))
  end.

Definition is_leap (y : Z) : bool :=
  (y mod 4 =? 0) && (negb (y mod 100 =? 0) || (y mod 400 =? 0)).

Definition days_in_month (y m : Z) : Z :=
  if m =? 2 then (if is_leap y then 29 else 28)
  else if (m =? 4) || (m =? 6) || (m =? 9) || (m =? 11) then 30
  else 31.

(** [datetime.strptime(s, f)]: the first match of the format's expression
    must end at the end of [s] and name a date of the calendar, with a year
    from 1 on; [None] stands for the [ValueError]. *)
Definition strptime (s : string) (f : format) : option datetime :=
  match regex_of f s with
  | (y, m, d, rest) :: _ =>
      if PyStr.is_empty rest && (1 <=? y) && (d <=? days_in_month y m)
      then Some (mkDate y m d)
      else None
  | [] => None
  end.

Fixpoint first_format (s : string) (fs : list format) : option datetime :=
  match fs with
  | [] => None
  | f :: fs' =>
      match strptime s f with
      | Some d => Some d
      | None => first_format s fs'
      end
  end.

(** [parse_date]. *)
Definition parse_date (date_str : string) : option datetime :=
  first_format (PyStr.strip date_str) formats.

(** [(a.month, a.day) < (b.month, b.day)] on tuples. *)
Definition month_day_lt (a b : datetime) : bool :=
  (month a <? month b) || ((month a =? month b) && (day a <? day b)).

(** *** The dates [strptime] returns *)

Lemma decimal_digit (c : ascii) :
  PyStr.is_decimal c = true -> 0 <= digit_of c <= 9.
Proof.
  assert (H : implb (PyStr.is_decimal c)
                ((0 <=? digit_of c) && (digit_of c <=? 9)) = true)
    by (destruct c as [[] [] [] [] [] [] [] []]; reflexivity).
  intros Hc. rewrite Hc in H. cbn [implb] in H.
  apply andb_prop in H as [H1 H2]. lia.
Qed.

Lemma in_range_spec (lo hi : Z) (c : ascii) :
  in_range lo hi c = true -> lo <= digit_of c <= hi.
Proof.
  unfold in_range. intros H.
  apply andb_prop in H as [H Hhi]. apply andb_prop in H as [_ Hlo]. lia.
Qed.

Ltac split_matches :=
  repeat match goal with
    | H : In _ (_ ++ _) |- _ => apply in_app_or in H as [H|H]
    | H : In _ [] |- _ => contradiction H
    | H : In _ [_] |- _ =>
        destruct H as [H|[]]; apply pair_equal_spec in H as [<- <-]
    | H : In _ (if ?b then _ else _) |- _ => destruct b eqn:?
    | H : In _ (match ?r with EmptyString => _ | String _ _ => _ end) |- _ =>
        destruct r
    | H : _ && _ = true |- _ => apply andb_prop in H as [? ?]
    | H : in_range _ _ _ = true |- _ => apply in_range_spec in H
    | H : PyStr.is_decimal _ = true |- _ => apply decimal_digit in H
    end.

Lemma re_d_range (s : string) (v : Z) (r : string) :
  In (v, r) (re_d s) -> 1 <= v <= 31.
Proof.
  unfold re_d. intros H. destruct s as [|c1 r1]; [contradiction|].
  split_matches; lia.
Qed.

Lemma re_m_range (s : string) (v : Z) (r : string) :
  In (v, r) (re_m s) -> 1 <= v <= 12.
Proof.
  unfold re_m. intros H. destruct s as [|c1 r1]; [contradiction|].
  split_matches; lia.
Qed.

Lemma re_Y_range (s : string) (v : Z) (r : string) :
  In (v, r) (re_Y s) -> 0 <= v <= 9999.
Proof.
  unfold re_Y. intros H.
  destruct s as [|c1 [|c2 [|c3 [|c4 r4]]]]; try contradiction.
  split_matches; lia.
Qed.

Lemma index_of_range (x : string) (l : list string) :
  forall i m, index_of x l i = Some m -> i <= m < i + Z.of_nat (List.length l).
Proof.
  induction l as [|y l IH]; intros i m; cbn [index_of List.length]; [discriminate|].
  destruct (String.eqb x y).
  - intros [= <-]. lia.
  - intros H. apply IH in H. lia.
Qed.

Lemma re_b_range (s : string) (v : Z) (r : string) :
  In (v, r) (re_b s) -> 1 <= v <= 12.
Proof.
  unfold re_b. intros H.
  destruct s as [|c1 [|c2 [|c3 r3]]]; try contradiction.
  cbv zeta in H.
  destruct (index_of _ month_abbr 1) as [m|] eqn:E; [|contradiction].
  destruct H as [H|[]]. apply pair_equal_spec in H as [<- <-].
  apply index_of_range in E. cbn [month_abbr List.length] in E. lia.
Qed.

Lemma regex_of_range (f : format) (s : string) (y m d : Z) (rest : string) :
  In (y, m, d, rest) (regex_of f s) ->
  0 <= y <= 9999 /\ 1 <= m <= 12 /\ 1 <= d <= 31.
Proof.
  intros H. destruct f; unfold regex_of, seq, ret in H;
    repeat match goal with
      | H : In _ (flat_map _ _) |- _ =>
          let v := fresh "v" in let r := fresh "r" in let Hin := fresh "Hin" in
          apply in_flat_map in H as ([v r] & Hin & H); cbn [fst snd] in H
      end;
    destruct H as [H|[]]; injection H as <- <- <- <-;
    repeat match goal with
      | H : In _ (re_d _) |- _ => apply re_d_range in H
      | H : In _ (re_m _) |- _ => apply re_m_range in H
      | H : In _ (re_b _) |- _ => apply re_b_range in H
      | H : In _ (re_Y _) |- _ => apply re_Y_range in H
      end;
    lia.
Qed.

Lemma strptime_calendar (s : string) (f : format) (date : datetime) :
  strptime s f = Some date ->
  1 <= year date <= 9999
  /\ 1 <= month date <= 12
  /\ 1 <= day date <= days_in_month (year date) (month date).
Proof.
  unfold strptime.
  destruct (regex_of f s) as [|[[[y m] d] rest] l] eqn:E; [discriminate|].
  assert (Hin : In (y, m, d, rest) (regex_of f s)) by (rewrite E; now left).
  apply regex_of_range in Hin.
  destruct (PyStr.is_empty rest && (1 <=? y) && (d <=? days_in_month y m)) eqn:C;
    [|discriminate].
  intros [= <-]. cbn [year month day].
  apply andb_prop in C as [C Hd]. apply andb_prop in C as [_ Hy]. lia.
Qed.

(** A date [parse_date] returns is a date of the calendar. *)
Lemma parse_date_calendar (date_str : string) (date : datetime) :
  parse_date date_str = Some date ->
  1 <= year date <= 9999
  /\ 1 <= month date <= 12
  /\ 1 <= day date <= days_in_month (year date) (month date).
Proof.
  unfold parse_date. generalize (PyStr.strip date_str) as s. intros s.
  induction formats as [|f fs IH]; cbn [first_format]; [discriminate|].
  destruct (strptime s f) as [d0|] eqn:E; [|exact IH].
  intros [= <-]. now apply strptime_calendar in E.
Qed.

End Dates.

(** ** Python floats *)

Module PyFloat.

(** The double nearest to [n / d] for [n >= 0] and [d > 0], ties to even,
    with the sign [neg]. The quotient is taken on enough bits and with a
    sticky last bit before it is rounded to the format. *)
Definition nearest (neg : bool) (n d : Z) : float :=
  let sf :=
    if n =? 0 then SpecFloat.S754_zero neg
    else
      let k := Z.max 0 (Z.log2 d - Z.log2 n + 64) in
      let m := n * 2 ^ k in
      let q := m / d in
      let sticky := if m mod d =? 0 then 0 else 1 in
      SpecFloat.binary_normalize prec emax
        ((if neg then -1 else 1) * (2 * q + sticky)) (- k - 1) false
  in SF2Prim sf.

(** [a / b] on integers [a >= 0] and [b > 0]. *)
Definition true_div (a b : Z) : float := nearest false a b.

(** [n / d] rounded to an integer, a tie going to the even one. *)
Definition round_half_even (n d : Z) : Z :=
  let q := n / d in
  let r := n mod d in
  if 2 * r <? d then q
  else if d <? 2 * r then q + 1
  else if Z.even q then q else q + 1.

(** [round(x, 1)]: the exact value of [x] in tenths, rounded half to even,
    and the double nearest to that decimal. *)
Definition round1 (x : float) : float :=
  match Prim2SF x with
  | SpecFloat.S754_finite s m e =>
      let tenths :=
        if 0 <=? e then 10 * Zpos m * 2 ^ e
        else round_half_even (10 * Zpos m) (2 ^ (- e)) in
      nearest s tenths 10
  | _ => x
  end.

(** The float is not a NaN. *)
Definition is_number (x : float) : bool :=
  match Prim2SF x with
  | SpecFloat.S754_nan => false
  | _ => true
  end.

End PyFloat.

(** The order of the floats, as [<] computes it. *)

Module PyFloatFacts.

Import SpecFloat.

(** The place of a float that is not a NaN in the order of the floats: its
    class (the infinities, the negative and the positive finite floats, the
    two zeros between them), then exponent and mantissa, negated for a
    negative float. *)
Definition rank (f : spec_float) : Z * Z * Z :=
  match f with
  | S754_infinity true => (-2, 0, 0)
  | S754_finite true m e => (-1, - e, - Zpos m)
  | S754_zero _ => (0, 0, 0)
  | S754_nan => (0, 0, 0)
  | S754_finite false m e => (1, e, Zpos m)
  | S754_infinity false => (2, 0, 0)
  end.

Definition lex_lt (a b : Z * Z * Z) : Prop :=
  fst (fst a) < fst (fst b)
  \/ (fst (fst a) = fst (fst b)
      /\ (snd (fst a) < snd (fst b)
          \/ (snd (fst a) = snd (fst b) /\ snd a < snd b))).

Definition sf_number (f : spec_float) : bool :=
  match f with S754_nan => false | _ => true end.

Lemma SFltb_rank (f1 f2 : spec_float) :
  SFltb f1 f2 = true
  <-> sf_number f1 = true /\ sf_number f2 = true /\ lex_lt (rank f1) (rank f2).
Proof.
  unfold SFltb, SFcompare, lex_lt.
  destruct f1 as [s1|s1| |s1 m1 e1], f2 as [s2|s2| |s2 m2 e2];
    try destruct s1; try destruct s2; cbn [rank sf_number fst snd];
    try (split; [intros H; try discriminate H; repeat split; lia
                | intros (H1 & H2 & H3); try discriminate; try reflexivity; lia]).
  - change (PosDef.Pos.compare_cont Eq m1 m2) with (Pos.compare m1 m2).
    destruct (Z.compare_spec e1 e2) as [He|He|He];
      [destruct (Pos.compare_spec m1 m2) as [Hm|Hm|Hm]; cbn [CompOpp]|..];
      (split; [intros H; try discriminate H; repeat split; lia
              | intros (H1 & H2 & H3); try reflexivity; lia]).
  - change (PosDef.Pos.compare_cont Eq m1 m2) with (Pos.compare m1 m2).
    destruct (Z.compare_spec e1 e2) as [He|He|He];
      [destruct (Pos.compare_spec m1 m2) as [Hm|Hm|Hm]|..];
      (split; [intros H; try discriminate H; repeat split; lia
              | intros (H1 & H2 & H3); try reflexivity; lia]).
Qed.

Lemma ltb_rank (x y : float) :
  PrimFloat.ltb x y = true
  <-> PyFloat.is_number x = true /\ PyFloat.is_number y = true
      /\ lex_lt (rank (Prim2SF x)) (rank (Prim2SF y)).
Proof.
  rewrite ltb_spec, SFltb_rank. unfold PyFloat.is_number, sf_number. tauto.
Qed.

Lemma ltb_irrefl (x : float) : PrimFloat.ltb x x = false.
Proof.
  destruct (PrimFloat.ltb x x) eqn:E; [|reflexivity].
  apply ltb_rank in E as (_ & _ & H). unfold lex_lt in H. lia.
Qed.

Lemma ltb_trans (x y z : float) :
  PrimFloat.ltb x y = true -> PrimFloat.ltb y z = true ->
  PrimFloat.ltb x z = true.
Proof.
  intros Hxy Hyz. apply ltb_rank in Hxy as (Hx & _ & Hxy).
  apply ltb_rank in Hyz as (_ & Hz & Hyz).
  apply ltb_rank. repeat split; try assumption.
  unfold lex_lt in *. lia.
Qed.

(** A number that does not exceed [h] is below whatever exceeds [h]. *)
Lemma not_above_below (h s s' : float) :
  PyFloat.is_number s' = true ->
  PrimFloat.ltb h s' = false -> PrimFloat.ltb h s = true ->
  PrimFloat.ltb s' s = true.
Proof.
  intros Hs' Hno Hhs. apply ltb_rank in Hhs as (Hh & Hs & Hhs).
  apply ltb_rank. repeat split; try assumption.
  assert (Hn : ~ lex_lt (rank (Prim2SF h)) (rank (Prim2SF s'))).
  { intros H. assert (E : PrimFloat.ltb h s' = true) by (apply ltb_rank; tauto).
    congruence. }
  unfold lex_lt in *. lia.
Qed.

End PyFloatFacts.

(** ** A reference strict JSON parser

    [json.loads] is library code; the endpoints are modelled over an arbitrary
    strict parser. This module gives one for the examples: a lexer run as a
    state machine over the characters, then a parser over the tokens. It
    accepts what [json.loads] accepts (the JSON grammar with [NaN],
    [Infinity] and [-Infinity]); a [\u] escape above 255 is outside the
    model of characters and is refused. *)

Module JsonText.

Inductive token : Type :=
| TLBrace | TRBrace | TLBracket | TRBracket | TColon | TComma
| TString (s : string)
| TAtom (text : string).

Inductive mode : Type :=
| Idle
| InAtom (acc : string)
| InString (acc : string)
| InEscape (acc : string)
| InUnicode (acc : string) (hex : list Z).

Definition is_ws (c : ascii) : bool :=
  let n := nat_of_ascii c in ((n =? 32) || (n =? 9) || (n =? 10) || (n =? 13))%nat.

(** The characters of numbers and literals. *)
Definition is_atom_char (c : ascii) : bool :=
  let n := nat_of_ascii c in
  ((48 <=? n) && (n <=? 57) || (65 <=? n) && (n <=? 90)
   || (97 <=? n) && (n <=? 122) || (n =? 43) || (n =? 45) || (n =? 46))%nat.

Definition structural (c : ascii) : option token :=
  if Ascii.eqb c "{" then Some TLBrace
  else if Ascii.eqb c "}" then Some TRBrace
  else if Ascii.eqb c "[" then Some TLBracket
  else if Ascii.eqb c "]" then Some TRBracket
  else if Ascii.eqb c ":" then Some TColon
  else if Ascii.eqb c "," then Some TComma
  else None.

Definition snoc (s : string) (c : ascii) : string :=
  (s ++ String c EmptyString)%string.

Definition unescape (c : ascii) : option ascii :=
  if Ascii.eqb c PyStr.dquote then Some PyStr.dquote
  else if Ascii.eqb c "\" then Some "\"%char
  else if Ascii.eqb c "/" then Some "/"%char
  else if Ascii.eqb c "b" then Some (ascii_of_nat 8)
  else if Ascii.eqb c "f" then Some (ascii_of_nat 12)
  else if Ascii.eqb c "n" then Some (ascii_of_nat 10)
  else if Ascii.eqb c "r" then Some (ascii_of_nat 13)
  else if Ascii.eqb c "t" then Some (ascii_of_nat 9)
  else None.

Definition hex_val (c : ascii) : option Z :=
  let n := Z.of_nat (nat_of_ascii c) in
  if (48 <=? n) && (n <=? 57) then Some (n - 48)
  else if (65 <=? n) && (n <=? 70) then Some (n - 55)
  else if (97 <=? n) && (n <=? 102) then Some (n - 87)
  else None.

Definition lex_state : Type := (list token * mode)%type.

Definition idle_step (toks : list token) (c : ascii) : option lex_state :=
  if is_ws c then Some (toks, Idle)
  else match structural c with
       | Some t => Some (toks ++ [t], Idle)
       | None =>
           if Ascii.eqb c PyStr.dquote then Some (toks, InString EmptyString)
           else if is_atom_char c then Some (toks, InAtom (String c EmptyString))
           else None
       end.

Definition step (st : lex_state) (c : ascii) : option lex_state :=
  let (toks, m) := st in
  match m with
  | Idle => idle_step toks c
  | InAtom acc =>
      if is_atom_char c then Some (toks, InAtom (snoc acc c))
      else idle_step (toks ++ [TAtom acc]) c
  | InString acc =>
      if Ascii.eqb c PyStr.dquote then Some (toks ++ [TString acc], Idle)
      else if Ascii.eqb c "\" then Some (toks, InEscape acc)
      else if (nat_of_ascii c <? 32)%nat then None
      else Some (toks, InString (snoc acc c))
  | InEscape acc =>
      match unescape c with
      | Some x => Some (toks, InString (snoc acc x))
      | None => if Ascii.eqb c "u" then Some (toks, InUnicode acc []) else None
      end
  | InUnicode acc hex =>
      match hex_val c with
      | None => None
      | Some h =>
          match hex with
          | [h1; h2; h3] =>
              let code := 4096 * h1 + 256 * h2 + 16 * h3 + h in
              if code <? 256
              then Some (toks, InString (snoc acc (ascii_of_nat (Z.to_nat code))))
              else None
          | _ => Some (toks, InUnicode acc (hex ++ [h]))
          end
      end
  end.

Fixpoint run (st : lex_state) (s : string) : option lex_state :=
  match s with
  | EmptyString => Some st
  | String c s' =>
      match step st c with
      | Some st' => run st' s'
      | None => None
      end
  end.

Definition finish (st : lex_state) : option (list token) :=
  match snd st with
  | Idle => Some (fst st)
  | InAtom acc => Some (fst st ++ [TAtom acc])
  | _ => None
  end.

Definition lex (s : string) : option (list token) :=
  match run ([], Idle) s with
  | Some st => finish st
  | None => None
  end.

(** *** Numbers and literals *)

Fixpoint span_digits (s : string) : string * string :=
  match s with
  | String c r =>
      if PyStr.is_decimal c
      then let (d, r') := span_digits r in (String c d, r')
      else (EmptyString, s)
  | EmptyString => (EmptyString, EmptyString)
  end.

(** The double nearest to [m * 10^e] for [m >= 0], with the sign [neg]:
    what [float] makes of a decimal literal. *)
Definition float_of_decimal (neg : bool) (m e : Z) : float :=
  if 0 <=? e then PyFloat.nearest neg (m * 10 ^ e) 1
  else PyFloat.nearest neg m (10 ^ (- e)).

Definition valid_int_part (ip : string) : bool :=
  match ip with
  | EmptyString => false
  | String c r => negb (Ascii.eqb c "0") || PyStr.is_empty r
  end.

(** The number grammar on a whole atom: an optional minus sign, an integer
    part without a leading zero, an optional fraction of a point and digits,
    an optional exponent of [e] or [E], a sign and digits. The value is an
    [int] without fraction and exponent, a [float] otherwise. *)
Definition number_of (a : string) : option json :=
  let (neg, a1) :=
    match a with
    | String c r => if Ascii.eqb c "-" then (true, r) else (false, a)
    | EmptyString => (false, a)
    end in
  let (ip, a2) := span_digits a1 in
  if negb (valid_int_part ip) then None
  else
    let frac :=
      match a2 with
      | String c r =>
          if Ascii.eqb c "."
          then let (fd, r') := span_digits r in
               if PyStr.is_empty fd then None else Some (Some fd, r')
          else Some (None, a2)
      | EmptyString => Some (None, a2)
      end in
    match frac with
    | None => None
    | Some (fd, a3) =>
        let expo :=
          match a3 with
          | EmptyString => Some None
          | String c r =>
              if Ascii.eqb c "e" || Ascii.eqb c "E"
              then
                let (eneg, r1) :=
                  match r with
                  | String c' r' =>
                      if Ascii.eqb c' "-" then (true, r')
                      else if Ascii.eqb c' "+" then (false, r')
                      else (false, r)
                  | EmptyString => (false, r)
                  end in
                let (ed, r2) := span_digits r1 in
                if PyStr.is_empty ed || negb (PyStr.is_empty r2) then None
                else Some (Some ((if eneg then -1 else 1) * PyStr.int_of_digits ed 0))
              else None
          end in
        match expo, fd with
        | None, _ => None
        | Some None, None =>
            Some (JInt ((if neg then -1 else 1) * PyStr.int_of_digits ip 0))
        | Some ex, _ =>
            let fds := match fd with Some d => d | None => EmptyString end in
            let e10 := match ex with Some x => x | None => 0 end in
            Some (JFloat (float_of_decimal neg
                            (PyStr.int_of_digits (ip ++ fds)%string 0)
                            (e10 - PyStr.len fds)))
        end
    end.

Definition atom_value (a : string) : option json :=
  if String.eqb a "null" then Some JNull
  else if String.eqb a "true" then Some (JBool true)
  else if String.eqb a "false" then Some (JBool false)
  else if String.eqb a "NaN" then Some (JFloat nan)
  else if String.eqb a "Infinity" then Some (JFloat infinity)
  else if String.eqb a "-Infinity" then Some (JFloat neg_infinity)
  else number_of a.

(** *** The parser over tokens *)

(** [dict(pairs)]: a repeated key keeps its first place and its last value. *)
Definition dict_of (pairs : list (string * json)) : list (string * json) :=
  fold_left (fun d kv => Py.store (fst kv) (snd kv) d) pairs [].

Fixpoint parse_value (fuel : nat) (ts : list token) : option (json * list token) :=
  match fuel with
  | O => None
  | S f =>
      match ts with
      | TString s :: r => Some (JStr s, r)
      | TAtom a :: r =>
          match atom_value a with
          | Some v => Some (v, r)
          | None => None
          end
      | TLBracket :: TRBracket :: r => Some (JArr [], r)
      | TLBracket :: r =>
          match parse_elements f r with
          | Some (vs, r') => Some (JArr vs, r')
          | None => None
          end
      | TLBrace :: TRBrace :: r => Some (JObj [], r)
      | TLBrace :: r =>
          match parse_members f r with
          | Some (kvs, r') => Some (JObj (dict_of kvs), r')
          | None => None
          end
      | _ => None
      end
  end
with parse_elements (fuel : nat) (ts : list token) : option (list json * list token) :=
  match fuel with
  | O => None
  | S f =>
      match parse_value f ts with
      | Some (v, TComma :: r) =>
          match parse_elements f r with
          | Some (vs, r') => Some (v :: vs, r')
          | None => None
          end
      | Some (v, TRBracket :: r) => Some ([v], r)
      | _ => None
      end
  end
with parse_members (fuel : nat) (ts : list token)
    : option (list (string * json) * list token) :=
  match fuel with
  | O => None
  | S f =>
      match ts with
      | TString k :: TColon :: r =>
          match parse_value f r with
          | Some (v, TComma :: r') =>
              match parse_members f r' with
              | Some (kvs, r'') => Some ((k, v) :: kvs, r'')
              | None => None
              end
          | Some (v, TRBrace :: r') => Some ([(k, v)], r')
          | _ => None
          end
      | _ => None
      end
  end.

Definition parse (ts : list token) : option json :=
  match parse_value (2 * List.length ts + 2) ts with
  | Some (v, []) => Some v
  | _ => None
  end.

(** The reference [json.loads]: [None] stands for [JSONDecodeError]. *)
Definition json_loads (s : string) : option json :=
  match lex s with
  | Some ts => parse ts
  | None => None
  end.

(** *** The parser ignores the white space around the text *)

Lemma space_class (c : ascii) :
  PyStr.isspace c = true ->
  is_atom_char c = false /\ structural c = None /\
  Ascii.eqb c PyStr.dquote = false /\ Ascii.eqb c "\" = false /\
  unescape c = None /\ Ascii.eqb c "u" = false /\ hex_val c = None.
Proof.
  destruct c as [b0 b1 b2 b3 b4 b5 b6 b7].
  destruct b0, b1, b2, b3, b4, b5, b6, b7; vm_compute; intro H;
    try discriminate H; repeat split; reflexivity.
Qed.

Lemma idle_step_space (toks : list token) (c : ascii) (st : lex_state) :
  PyStr.isspace c = true -> idle_step toks c = Some st -> st = (toks, Idle).
Proof.
  intros Hc. destruct (space_class c Hc) as (Ha & Hs & Hq & _).
  unfold idle_step. rewrite Hs, Hq, Ha.
  destruct (is_ws c); congruence.
Qed.

Lemma step_space (st st' : lex_state) (c : ascii) :
  PyStr.isspace c = true -> step st c = Some st' -> finish st' = finish st.
Proof.
  intros Hc. destruct (space_class c Hc) as (Ha & Hs & Hq & Hb & He & Hu & Hh).
  destruct st as [toks m]. destruct m as [|acc|acc|acc|acc hex]; simpl.
  - intros H. now rewrite (idle_step_space _ _ _ Hc H).
  - rewrite Ha. intros H. now rewrite (idle_step_space _ _ _ Hc H).
  - rewrite Hq, Hb. destruct (nat_of_ascii c <? 32)%nat; [discriminate|].
    intros H. injection H as <-. reflexivity.
  - rewrite He, Hu. discriminate.
  - rewrite Hh. discriminate.
Qed.

Lemma run_app (s1 s2 : string) :
  forall st,
    run st (s1 ++ s2)%string =
    match run st s1 with
    | Some st' => run st' s2
    | None => None
    end.
Proof.
  induction s1 as [|c s1 IH]; intros st; simpl.
  - reflexivity.
  - destruct (step st c); [apply IH | reflexivity].
Qed.

Lemma run_spaces (w : string) :
  forall st st',
    PyStr.forall_chars PyStr.isspace w = true ->
    run st w = Some st' -> finish st' = finish st.
Proof.
  induction w as [|c w IH]; intros st st' Hw Hrun; simpl in *.
  - now injection Hrun as <-.
  - apply andb_prop in Hw as [Hc Hw].
    destruct (step st c) as [st1|] eqn:Hstep; [|discriminate].
    rewrite (IH st1 st' Hw Hrun). exact (step_space _ _ _ Hc Hstep).
Qed.

Lemma lex_rstrip (s : string) (toks : list token) :
  lex s = Some toks -> lex (PyStr.rstrip s) = Some toks.
Proof.
  destruct (PyStrFacts.rstrip_spec s) as (w & Hs & Hw).
  unfold lex. rewrite Hs at 1. rewrite run_app.
  destruct (run ([], Idle) (PyStr.rstrip s)) as [st|]; [|discriminate].
  destruct (run st w) as [st'|] eqn:Hrun; [|discriminate].
  now rewrite (run_spaces w st st' Hw Hrun).
Qed.

Lemma lex_lstrip (s : string) (toks : list token) :
  lex s = Some toks -> lex (PyStr.lstrip s) = Some toks.
Proof.
  induction s as [|c s IH]; simpl; [easy|].
  destruct (PyStr.isspace c) eqn:Hc; [|easy].
  unfold lex. simpl.
  destruct (idle_step [] c) as [st|] eqn:Hstep; [|discriminate].
  rewrite (idle_step_space _ _ _ Hc Hstep). exact IH.
Qed.

(** A text the reference parser accepts parses to the same value once the
    white space around it is stripped. *)
Lemma json_loads_strip (s : string) (v : json) :
  json_loads s = Some v -> json_loads (PyStr.strip s) = Some v.
Proof.
  unfold json_loads, PyStr.strip.
  destruct (lex s) as [toks|] eqn:Hlex; [|discriminate].
  now rewrite (lex_rstrip _ _ (lex_lstrip _ _ Hlex)).
Qed.

End JsonText.

(** ** The extraction endpoint ([extract_policy], from the response text on) *)

Module Extract.

Import Dates.

(** The safe default of the salvage ladder. *)
Definition default_document : json :=
  JObj
    [ ("company", JStr "Unknown");
      ("plan", JStr "Unknown");
      ("premium", JStr "0");
      ("coverage", JStr "0");
      ("policy_details",
        JObj [("start_date", JStr ""); ("vintage", JStr "Unknown")]);
      ("sum_insured", JObj [("total", JStr "0"); ("components", JArr [])]);
      ("policy_holders", JArr []);
      ("features_found", JObj []);
      ("comprehensive_findings", JStr "Could not extract data.") ].

(** [format_indian_currency]: the loop that moves the last two characters of
    [dic] to the front of [groups] while [dic] has more than two. *)
Fixpoint group_pairs (fuel : nat) (dic : string) (groups : list string)
    : list string :=
  match fuel with
  | O => dic :: groups
  | S f =>
      if 2 <? PyStr.len dic
      then group_pairs f (PyStr.slice dic 0 (-2))
             (PyStr.slice dic (-2) (PyStr.len dic) :: groups)
      else dic :: groups
  end.

Definition format_indian_currency (n : Z) : string :=
  let s := PyStr.str_of_Z n in
  if PyStr.len s <=? 3 then s
  else
    let dic := PyStr.slice s 0 (-3) in
    let last_3 := PyStr.slice s (-3) (PyStr.len s) in
    (PyStr.join "," (group_pairs (String.length dic) dic []) ++ "," ++ last_3)%string.

(** The label test of the component loop, on the lower-cased label. *)
Definition percent_label (label : string) : bool :=
  PyStr.contains "%" label || PyStr.contains "percent" label.

Section Endpoint.

(** [json.loads]: the parsed value, or [None] for [JSONDecodeError]. *)
Variable loads : string -> option json.

(** [str(v)] for a float, a list or a dict [v]. *)
Variable repr_of : json -> string.

(** [str(v)]. *)
Definition str_of (v : json) : string :=
  match v with
  | JStr s => s
  | JInt n => PyStr.str_of_Z n
  | JBool true => "True"
  | JBool false => "False"
  | JNull => "None"
  | _ => repr_of v
  end.

(** The text handed to the parser: stripped, and reduced to the inside of
    the first code fence when it has one. Where the marker occurs the piece
    of index 1 exists ([PyStrFacts.split_has_second]), so the default of
    [nth] is never returned. *)
Definition clean_text (response_text : string) : string :=
  let text := PyStr.strip response_text in
  if PyStr.contains "```json" text
  then PyStr.strip
         (hd EmptyString (PyStr.split "```" (nth 1 (PyStr.split "```json" text) EmptyString)))
  else if PyStr.contains "```" text
  then PyStr.strip
         (hd EmptyString (PyStr.split "```" (nth 1 (PyStr.split "```" text) EmptyString)))
  else text.

(** The two parsing steps and the default. *)
Definition salvage (text : string) : json :=
  match loads text with
  | Some data => data
  | None =>
      let start := PyStr.find "{" text in
      let end_ := PyStr.rfind "}" text + 1 in
      if negb (start =? -1) && negb (end_ =? -1)
      then match loads (PyStr.slice text start end_) with
           | Some data => data
           | None => default_document
           end
      else default_document
  end.

(** The body of the loop over [policy_holders]. *)
Definition recompute_age (today : datetime) (person : json) : result json :=
  dob_str <- Py.get person "dob" (JStr "") ;;
  if Py.truthy dob_str
  then match dob_str with
       | JStr s =>
           match parse_date s with
           | Some dob =>
               let age := year today - year dob
                          - (if month_day_lt today dob then 1 else 0) in
               Py.setitem person "age" (JStr (PyStr.str_of_Z age))
           | None => Ok person
           end
       | _ => Http500
       end
  else Ok person.

Definition recompute_ages (today : datetime) (data : json) : result json :=
  present <- Py.contains "policy_holders" data ;;
  if present
  then
    holders <- Py.getitem data "policy_holders" ;;
    match holders with
    | JArr persons =>
        persons' <- mapM (recompute_age today) persons ;;
        Py.setitem data "policy_holders" (JArr persons')
    | _ => Ok data
    end
  else Ok data.

(** [extract_number]; [int] refuses a superscript digit that [isdigit] let
    through. *)
Definition extract_number (val_str : json) : result Z :=
  if negb (Py.truthy val_str) then Ok 0
  else
    let s := PyStr.replace "," "" (PyStr.strip (str_of val_str)) in
    let s := if PyStr.contains "." s then hd EmptyString (PyStr.split "." s) else s in
    let clean := PyStr.filter_chars PyStr.isdigit s in
    if PyStr.is_empty clean then Ok 0
    else if PyStr.forall_chars PyStr.is_decimal clean
    then Ok (PyStr.int_of_digits clean 0)
    else Http500.

(** The loop over the components, with its running [total_val] and
    [valid_components]. *)
Fixpoint sum_components (components : list json) (total_val : Z)
    (valid_components : list json) : result (Z * list json) :=
  match components with
  | [] => Ok (total_val, valid_components)
  | comp :: rest =>
      v <- Py.get comp "value" (JStr "0") ;;
      val <- extract_number v ;;
      l <- Py.get comp "label" (JStr "") ;;
      match l with
      | JStr raw_label =>
          let label := PyStr.lower raw_label in
          if 0 <? val
          then
            if percent_label label
            then sum_components rest total_val valid_components
            else
              let total_val' :=
                if PyStr.contains "deductible" label
                then total_val - val else total_val + val in
              comp' <- Py.setitem comp "value" (JStr (format_indian_currency val)) ;;
              sum_components rest total_val' (valid_components ++ [comp'])
          else sum_components rest total_val valid_components
      | _ => Http500
      end
  end.

Definition recompute_sum_insured (data : json) : result json :=
  present <- Py.contains "sum_insured" data ;;
  if present
  then
    sum_insured <- Py.getitem data "sum_insured" ;;
    has_components <- Py.contains "components" sum_insured ;;
    if has_components
    then
      components <- Py.getitem sum_insured "components" ;;
      comps <- Py.iter components ;;
      tv <- sum_components comps 0 [] ;;
      si1 <- Py.setitem sum_insured "components" (JArr (snd tv)) ;;
      si2 <- Py.setitem si1 "total" (JStr (format_indian_currency (fst tv))) ;;
      Py.setitem data "sum_insured" si2
    else Ok data
  else Ok data.

(** The endpoint from [response.text] on; [today] is [datetime.now()]. *)
(** The salvage parser: fence removal, the two parsing steps, the default. *)
Definition parse_payload (response_text : string) : json :=
  salvage (clean_text response_text).

(** The endpoint from [response.text] on; [today] is [datetime.now()]. *)
Definition extract_policy (today : datetime) (response_text : string)
    : result json :=
  data1 <- recompute_ages today (parse_payload response_text) ;;
  recompute_sum_insured data1.

(** *** The default of the salvage ladder *)

(** Both parsing steps fail on [text]. *)
Definition ladder_fails (text : string) : Prop :=
  loads text = None /\
  (PyStr.find "{" text = -1 \/
   loads (PyStr.slice text (PyStr.find "{" text) (PyStr.rfind "}" text + 1)) = None).

(** The default as the source writes it: every top-level field present and
    none null, placeholders in the text fields, ["0"] for the amounts. *)
Definition placeholder_shape (d : json) : Prop :=
  Py.field d "company" = Some (JStr "Unknown") /\
  Py.field d "plan" = Some (JStr "Unknown") /\
  Py.field d "premium" = Some (JStr "0") /\
  Py.field d "coverage" = Some (JStr "0") /\
  Py.sub_field d "policy_details" "start_date" = Some (JStr "") /\
  Py.sub_field d "policy_details" "vintage" = Some (JStr "Unknown") /\
  Py.sub_field d "sum_insured" "total" = Some (JStr "0") /\
  Py.sub_field d "sum_insured" "components" = Some (JArr []) /\
  Py.field d "policy_holders" = Some (JArr []) /\
  Py.field d "features_found" = Some (JObj []) /\
  Py.field d "comprehensive_findings" = Some (JStr "Could not extract data.").

(** The default as the specification words it: the text fields empty
    strings, the amounts zero, the lists empty. *)
Definition zero_amount (v : option json) : Prop :=
  v = Some (JStr "0") \/ v = Some (JInt 0).

Definition typed_emptily (d : json) : Prop :=
  Py.field d "company" = Some (JStr "") /\
  Py.field d "plan" = Some (JStr "") /\
  zero_amount (Py.field d "premium") /\
  zero_amount (Py.field d "coverage") /\
  Py.sub_field d "policy_details" "start_date" = Some (JStr "") /\
  Py.sub_field d "policy_details" "vintage" = Some (JStr "") /\
  zero_amount (Py.sub_field d "sum_insured" "total") /\
  Py.sub_field d "sum_insured" "components" = Some (JArr []) /\
  Py.field d "policy_holders" = Some (JArr []) /\
  Py.field d "comprehensive_findings" = Some (JStr "").

Lemma salvage_default (text : string) :
  ladder_fails text -> salvage text = default_document.
Proof.
  intros [Hfirst Hsecond]. unfold salvage. rewrite Hfirst.
  destruct Hsecond as [Hstart | Hsub].
  - rewrite Hstart. reflexivity.
  - rewrite Hsub. now destruct (negb _ && negb _).
Qed.

Lemma default_survives_recompute (today : datetime) :
  (data1 <- recompute_ages today default_document ;; recompute_sum_insured data1)
  = Ok default_document.
Proof. reflexivity. Qed.

(** C1 (as the code has it). When both parsing steps fail on the cleaned
    response text, the endpoint returns the default document unchanged by the
    recomputation: every top-level field is present and none is null, the
    text fields hold the placeholders ["Unknown"] and ["Could not extract
    data."] (the start date is empty), the amounts are the string ["0"],
    the two lists are empty and [features_found] is an empty object. *)
Theorem default_on_total_failure (today : datetime) (response_text : string) :
  ladder_fails (clean_text response_text) ->
  extract_policy today response_text = Ok default_document
  /\ placeholder_shape default_document.
Proof.
  intros Hfail. split.
  - unfold extract_policy, parse_payload. rewrite (salvage_default _ Hfail).
    apply default_survives_recompute.
  - repeat split.
Qed.

(** *** The salvage parser on a plain JSON text *)

Section StrictParser.

(** The strict parser skips the white space around a text it accepts. *)
Hypothesis loads_strip :
  forall t v, loads t = Some v -> loads (PyStr.strip t) = Some v.

Lemma clean_text_without_fence (text : string) :
  PyStr.contains "```" text = false -> clean_text text = PyStr.strip text.
Proof.
  intros Hno. unfold clean_text.
  pose proof (PyStrFacts.contains_strip_false _ _ Hno) as Hs.
  destruct (PyStr.contains "```json" (PyStr.strip text)) eqn:Hj.
  - apply (PyStrFacts.contains_prefix "```" "```json") in Hj; [congruence | reflexivity].
  - now rewrite Hs.
Qed.

(** C9 (as the code has it). For a text the strict parser accepts and that
    holds no code-fence marker (three backquotes) anywhere, the salvage
    parser returns the value of the direct strict parse of that text. *)
Theorem payload_roundtrip_without_fence (text : string) (v : json) :
  loads text = Some v ->
  PyStr.contains "```" text = false ->
  parse_payload text = v.
Proof.
  intros Hparse Hno. unfold parse_payload, salvage.
  rewrite (clean_text_without_fence _ Hno).
  now rewrite (loads_strip _ _ Hparse).
Qed.

End StrictParser.

(** *** Ages *)

(** [(today.month, today.day)] comes before [(dob.month, dob.day)] in the
    lexicographic order of pairs. *)
Definition birthday_ahead (today dob : datetime) : Prop :=
  month today < month dob \/ (month today = month dob /\ day today < day dob).

Lemma month_day_lt_spec (today dob : datetime) :
  month_day_lt today dob = true <-> birthday_ahead today dob.
Proof.
  unfold month_day_lt, birthday_ahead.
  rewrite orb_true_iff, andb_true_iff, !Z.ltb_lt, Z.eqb_eq. tauto.
Qed.

Lemma parse_date_empty : parse_date EmptyString = None.
Proof. reflexivity. Qed.

(** *** The two stages on the document *)

Lemma mapM_pointwise {A B : Type} (f : A -> result B) (l : list A) :
  forall l', mapM f l = Ok l' -> Forall2 (fun a b => f a = Ok b) l l'.
Proof.
  induction l as [|a l IH]; intros l'; cbn [mapM].
  - intros [= <-]. constructor.
  - destruct (f a) as [b|] eqn:Ha; [|discriminate]. cbn [bind].
    destruct (mapM f l) as [bs|]; [|discriminate]. cbn [bind].
    intros [= <-]. constructor; [exact Ha | now apply IH].
Qed.

(** The loop over the persons replaces each person of the list by what the
    loop body makes of it, and leaves every other field alone. *)
Lemma recompute_ages_document (today : datetime) (d : Py.dict) (data1 : json) :
  recompute_ages today (JObj d) = Ok data1 ->
  exists d1,
    data1 = JObj d1
    /\ (forall k, String.eqb k "policy_holders" = false ->
          Py.lookup k d1 = Py.lookup k d)
    /\ (forall persons,
          Py.lookup "policy_holders" d = Some (JArr persons) ->
          exists persons',
            Py.lookup "policy_holders" d1 = Some (JArr persons')
            /\ Forall2 (fun person person' => recompute_age today person = Ok person')
                 persons persons').
Proof.
  unfold recompute_ages. cbn [Py.contains Py.getitem bind].
  destruct (Py.lookup "policy_holders" d) as [holders|] eqn:Hh; cbn [bind].
  - destruct holders as [| | | | |persons|];
      try (intros [= <-]; exists d; repeat split; try reflexivity; discriminate).
    destruct (mapM (recompute_age today) persons) as [persons'|] eqn:Hmap;
      [|discriminate].
    cbn [bind Py.setitem]. intros [= <-]. eexists. split; [reflexivity|].
    split; [intros k Hk; now apply PyFacts.lookup_store_other|].
    intros persons0 [= <-]. exists persons'.
    split; [apply PyFacts.lookup_store_same | now apply mapM_pointwise].
  - intros [= <-]. exists d. repeat split; try reflexivity. discriminate.
Qed.

(** The recomputation of the sum insured stores the filtered list and the
    total of the loop in the document, and leaves every other field
    alone. *)
Lemma recompute_sum_insured_document (d : Py.dict) (out : json) :
  recompute_sum_insured (JObj d) = Ok out ->
  exists d2,
    out = JObj d2
    /\ (forall k, String.eqb k "sum_insured" = false ->
          Py.lookup k d2 = Py.lookup k d)
    /\ (forall si comps,
          Py.lookup "sum_insured" d = Some (JObj si) ->
          Py.lookup "components" si = Some (JArr comps) ->
          exists total kept,
            sum_components comps 0 [] = Ok (total, kept)
            /\ Py.sub_field out "sum_insured" "total"
               = Some (JStr (format_indian_currency total))
            /\ Py.sub_field out "sum_insured" "components" = Some (JArr kept)).
Proof.
  unfold recompute_sum_insured. cbn [Py.contains Py.getitem bind].
  destruct (Py.lookup "sum_insured" d) as [si0|] eqn:Hsi; cbn [bind].
  2:{ intros [= <-]. exists d. repeat split; try reflexivity. discriminate. }
  destruct (Py.contains "components" si0) as [[|]|] eqn:Hhas; cbn [bind];
    [| |discriminate].
  2:{ intros [= <-]. exists d. split; [reflexivity|]. split; [reflexivity|].
      intros si comps [= ->] Hcomps. cbn [Py.contains] in Hhas.
      rewrite Hcomps in Hhas. discriminate. }
  destruct (Py.getitem si0 "components") as [components|] eqn:Hget; [|discriminate].
  cbn [bind].
  destruct (Py.iter components) as [comps0|] eqn:Hiter; [|discriminate]. cbn [bind].
  destruct (sum_components comps0 0 []) as [[total kept]|] eqn:Hsum; [|discriminate].
  cbn [bind fst snd].
  destruct (Py.setitem si0 "components" (JArr kept)) as [si1|] eqn:Hs1; [|discriminate].
  cbn [bind].
  destruct (Py.setitem si1 "total" (JStr (format_indian_currency total)))
    as [si2|] eqn:Hs2; [|discriminate].
  cbn [bind Py.setitem]. intros [= <-]. eexists. split; [reflexivity|].
  split; [intros k Hk; now apply PyFacts.lookup_store_other|].
  intros si comps [= ->] Hcomps.
  cbn [Py.getitem] in Hget. rewrite Hcomps in Hget. injection Hget as <-.
  cbn [Py.iter] in Hiter. injection Hiter as <-.
  cbn [Py.setitem] in Hs1, Hs2. injection Hs1 as <-. injection Hs2 as <-.
  exists total, kept. split; [exact Hsum|].
  unfold Py.sub_field. cbn [Py.field]. rewrite PyFacts.lookup_store_same.
  cbn [Py.field]. split.
  - apply PyFacts.lookup_store_same.
  - rewrite PyFacts.lookup_store_other by reflexivity.
    apply PyFacts.lookup_store_same.
Qed.

(** C4. A person whose [dob] string parses gets the age
    [today.year - dob.year], less one exactly when today's (month, day) pair
    comes before the birthday's; a person whose [dob] does not parse is left
    as reported. The endpoint does this to every person of the document:
    the [policy_holders] list it returns holds, place by place, what the
    loop body makes of the persons of the parsed payload. Born on
    15/06/1990, the age is 33 on 10-Jan-2024 and 34 on 20-Jul-2024. *)
Theorem age_recomputed_from_dob (today : datetime) :
  (forall (person : Py.dict) (s : string),
      Py.lookup "dob" person = Some (JStr s) ->
      (forall dob, parse_date s = Some dob ->
         exists age,
           recompute_age today (JObj person)
           = Ok (JObj (Py.store "age" (JStr (PyStr.str_of_Z age)) person))
           /\ (birthday_ahead today dob -> age = year today - year dob - 1)
           /\ (~ birthday_ahead today dob -> age = year today - year dob))
      /\ (parse_date s = None ->
          recompute_age today (JObj person) = Ok (JObj person)))
  /\ (forall response_text d persons out,
        parse_payload response_text = JObj d ->
        Py.lookup "policy_holders" d = Some (JArr persons) ->
        extract_policy today response_text = Ok out ->
        exists persons',
          Py.field out "policy_holders" = Some (JArr persons')
          /\ Forall2 (fun person person' => recompute_age today person = Ok person')
               persons persons')
  /\ parse_date "15/06/1990" = Some (mkDate 1990 6 15)
  /\ parse_date "10-Jan-2024" = Some (mkDate 2024 1 10)
  /\ parse_date "20-Jul-2024" = Some (mkDate 2024 7 20)
  /\ recompute_age (mkDate 2024 1 10) (JObj [("dob", JStr "15/06/1990")])
     = Ok (JObj [("dob", JStr "15/06/1990"); ("age", JStr "33")])
  /\ recompute_age (mkDate 2024 7 20) (JObj [("dob", JStr "15/06/1990")])
     = Ok (JObj [("dob", JStr "15/06/1990"); ("age", JStr "34")]).
Proof.
  split; [|split; [|repeat split; reflexivity]].
  - intros person s Hdob.
    assert (Hget : Py.get (JObj person) "dob" (JStr "") = Ok (JStr s))
      by (simpl; now rewrite Hdob).
    split.
    + intros dob Hparse.
      exists (year today - year dob - (if month_day_lt today dob then 1 else 0)).
      repeat split.
      * unfold recompute_age. rewrite Hget. simpl.
        destruct s as [|c s']; [rewrite parse_date_empty in Hparse; discriminate|].
        simpl. now rewrite Hparse.
      * intros Hahead. apply month_day_lt_spec in Hahead. now rewrite Hahead.
      * intros Hnot. destruct (month_day_lt today dob) eqn:E; [|lia].
        apply month_day_lt_spec in E. contradiction.
    + intros Hnone. unfold recompute_age. rewrite Hget. simpl.
      destruct s as [|c s']; [reflexivity|]. simpl. now rewrite Hnone.
  - intros response_text d persons out Hparsed Hpersons.
    unfold extract_policy. rewrite Hparsed.
    destruct (recompute_ages today (JObj d)) as [data1|] eqn:Hages; [|discriminate].
    cbn [bind]. intros Hsum.
    destruct (recompute_ages_document _ _ _ Hages) as (d1 & -> & _ & Hloop).
    destruct (Hloop persons Hpersons) as (persons' & Hstored & Hall).
    destruct (recompute_sum_insured_document _ _ Hsum) as (d2 & -> & Hrest & _).
    exists persons'. split; [|exact Hall].
    cbn [Py.field]. now rewrite Hrest.
Qed.

(** *** The sum insured *)

(** The component carries a label that the loop reads as a percentage. *)
Definition has_percent_label (comp : json) : bool :=
  match Py.field comp "label" with
  | Some (JStr l) => percent_label (PyStr.lower l)
  | _ => false
  end.

Lemma sum_components_skips_percent (c : json) (post : list json) :
  has_percent_label c = true ->
  forall pre total_val valid r,
    sum_components (pre ++ c :: post) total_val valid = Ok r ->
    sum_components (pre ++ post) total_val valid = Ok r.
Proof.
  intros Hc. induction pre as [|a pre IH]; intros total_val valid r.
  - cbn [app sum_components].
    unfold has_percent_label, Py.field in Hc.
    destruct c as [| | | | |items|d]; try discriminate. cbn [Py.get bind].
    destruct (extract_number _) as [val|]; [|discriminate]. cbn [bind].
    destruct (Py.lookup "label" d) as [[| | | |l| |]|]; try discriminate.
    rewrite Hc. now destruct (0 <? val).
  - cbn [app sum_components].
    destruct (Py.get a "value" (JStr "0")) as [v|]; [|discriminate]. cbn [bind].
    destruct (extract_number v) as [val|]; [|discriminate]. cbn [bind].
    destruct (Py.get a "label" (JStr "")) as [[| | | |l| |]|]; try discriminate.
    cbn [bind].
    destruct (0 <? val); [|apply IH].
    destruct (percent_label (PyStr.lower l)); [apply IH|].
    destruct (Py.setitem a "value" _) as [a'|]; [|discriminate]. cbn [bind].
    apply IH.
Qed.

Lemma sum_components_retains_no_percent (components : list json) :
  forall total_val valid r,
    Forall (fun c => has_percent_label c = false) valid ->
    sum_components components total_val valid = Ok r ->
    Forall (fun c => has_percent_label c = false) (snd r).
Proof.
  induction components as [|a rest IH]; intros total_val valid r Hvalid.
  - cbn [sum_components]. now intros [= <-].
  - cbn [sum_components].
    destruct a as [| | | | |items|d]; try discriminate. cbn [Py.get bind].
    destruct (extract_number _) as [val|]; [|discriminate]. cbn [bind].
    destruct (match Py.lookup "label" d with Some x => x | None => JStr "" end)
      as [| | | |l| |] eqn:Hl; try discriminate.
    destruct (0 <? val); [|now apply IH].
    destruct (percent_label (PyStr.lower l)) eqn:Hp; [now apply IH|].
    cbn [Py.setitem bind]. apply IH.
    apply Forall_app. split; [exact Hvalid|]. constructor; [|constructor].
    unfold has_percent_label, Py.field.
    rewrite PyFacts.lookup_store_other by reflexivity.
    destruct (Py.lookup "label" d) as [x|]; [|reflexivity].
    subst x. exact Hp.
Qed.

(** The grouping as the specification words it, on the characters read
    from the right: the ones past the last three go in pairs. *)
Fixpoint pairs_from_right (reversed : list ascii) : list string :=
  match reversed with
  | a :: b :: rest => pairs_from_right rest ++ [string_of_list_ascii [b; a]]
  | [a] => [string_of_list_ascii [a]]
  | [] => []
  end.

(** South-Asian grouping of a numeral: the last three characters form one
    group, the characters before them are grouped in pairs from the right,
    and the groups are joined by commas. *)
Definition south_asian_grouping (numeral : string) : string :=
  let reversed := rev (list_ascii_of_string numeral) in
  match skipn 3 reversed with
  | [] => numeral
  | before =>
      PyStr.join ","
        (pairs_from_right before
         ++ [string_of_list_ascii (rev (firstn 3 reversed))])
  end.

Lemma pairs_from_right_not_nil (reversed : list ascii) :
  reversed <> [] -> pairs_from_right reversed <> [].
Proof.
  destruct reversed as [|a [|b rest]]; cbn [pairs_from_right]; try easy.
  intros _ H. now apply app_eq_nil in H as [_ H].
Qed.

Lemma group_pairs_spec (fuel : nat) :
  forall dic groups,
    (String.length dic <= fuel)%nat -> dic <> EmptyString ->
    group_pairs fuel dic groups
    = pairs_from_right (rev (list_ascii_of_string dic)) ++ groups.
Proof.
  induction fuel as [|fuel IH]; intros dic groups Hfuel Hdic.
  - destruct dic; [contradiction | simpl in Hfuel; lia].
  - cbn [group_pairs]. unfold PyStr.len at 1.
    destruct (2 <? Z.of_nat (String.length dic)) eqn:Hlong.
    + apply Z.ltb_lt in Hlong.
      destruct (PyStrFacts.split_suffix 2 dic) as (a & b & -> & Hb); [lia|].
      assert (Hbne : b <> EmptyString) by (destruct b; [discriminate | easy]).
      replace (-2) with (- PyStr.len b) by (unfold PyStr.len; rewrite Hb; reflexivity).
      rewrite PyStrFacts.slice_without_suffix, PyStrFacts.slice_suffix by exact Hbne.
      rewrite PyStrFacts.length_app in Hfuel, Hlong.
      rewrite IH.
      * rewrite PyStrFacts.list_of_app, rev_app_distr.
        destruct b as [|x [|y [|z b]]]; try discriminate.
        cbn [list_ascii_of_string rev app pairs_from_right string_of_list_ascii].
        now rewrite <- app_assoc.
      * lia.
      * destruct a; [simpl in Hlong; lia | discriminate].
    + apply Z.ltb_ge in Hlong.
      destruct dic as [|x [|y [|z dic]]]; try reflexivity.
      * contradiction.
      * simpl in Hlong. lia.
Qed.

Lemma format_is_south_asian_grouping (n : Z) :
  format_indian_currency n = south_asian_grouping (PyStr.str_of_Z n).
Proof.
  unfold format_indian_currency, south_asian_grouping.
  generalize (PyStr.str_of_Z n). intros s. unfold PyStr.len at 1.
  destruct (Z.of_nat (String.length s) <=? 3) eqn:Hshort.
  - apply Z.leb_le in Hshort.
    rewrite skipn_all2; [reflexivity|].
    rewrite length_rev, PyStrFacts.length_list_of. lia.
  - apply Z.leb_gt in Hshort.
    destruct (PyStrFacts.split_suffix 3 s) as (a & b & -> & Hb); [lia|].
    assert (Hbne : b <> EmptyString) by (destruct b; [discriminate | easy]).
    assert (Hane : a <> EmptyString).
    { rewrite PyStrFacts.length_app in Hshort. destruct a; [simpl in Hshort; lia | easy]. }
    replace (-3) with (- PyStr.len b) by (unfold PyStr.len; rewrite Hb; reflexivity).
    rewrite PyStrFacts.slice_without_suffix, PyStrFacts.slice_suffix by exact Hbne.
    rewrite group_pairs_spec by (auto with arith).
    rewrite app_nil_r, PyStrFacts.list_of_app, rev_app_distr.
    assert (Hlen : List.length (rev (list_ascii_of_string b)) = 3%nat)
      by now rewrite length_rev, PyStrFacts.length_list_of.
    rewrite skipn_app, firstn_app, Hlen, Nat.sub_diag, skipn_O, firstn_O.
    rewrite skipn_all2, firstn_all2 by (rewrite Hlen; auto).
    cbn [app]. rewrite app_nil_r, rev_involutive, string_of_list_ascii_of_string.
    assert (Hrev : rev (list_ascii_of_string a) <> []).
    { destruct a; [contradiction|]. simpl. intros H.
      now apply app_eq_nil in H as [_ H]. }
    destruct (rev (list_ascii_of_string a)) as [|c r] eqn:Hr; [contradiction|].
    rewrite <- Hr in *.
    symmetry. apply PyStrFacts.join_snoc. now apply pairs_from_right_not_nil.
Qed.

(** C3. The value "10,00,000.50" is read as the amount 1000000 and shown as
    "10,00,000"; every amount is shown in the South-Asian grouping of its
    numeral, the last three digits one group and the digits before them in
    pairs from the right; beside a "Bonus %" component of value "10%" the
    component "Base Sum Insured" is the only one retained and the total is
    1000000; for every list of components, one whose label holds a percent
    indicator changes neither the total nor the retained list, and no
    retained component has such a label; and the endpoint stores the total
    of the loop, in that display, and the retained list of the loop under
    [sum_insured] of the document it returns. *)
Theorem monetary_normalization :
  extract_number (JStr "10,00,000.50") = Ok 1000000
  /\ format_indian_currency 1000000 = "10,00,000"
  /\ (forall n, format_indian_currency n = south_asian_grouping (PyStr.str_of_Z n))
  /\ sum_components
       [ JObj [("label", JStr "Base Sum Insured"); ("value", JStr "10,00,000.50")];
         JObj [("label", JStr "Bonus %"); ("value", JStr "10%")] ] 0 []
     = Ok (1000000,
           [JObj [("label", JStr "Base Sum Insured"); ("value", JStr "10,00,000")]])
  /\ (forall pre c post total_val r,
        has_percent_label c = true ->
        sum_components (pre ++ c :: post) total_val [] = Ok r ->
        sum_components (pre ++ post) total_val [] = Ok r
        /\ Forall (fun kept => has_percent_label kept = false) (snd r))
  /\ (forall today response_text d si comps out,
        parse_payload response_text = JObj d ->
        Py.lookup "sum_insured" d = Some (JObj si) ->
        Py.lookup "components" si = Some (JArr comps) ->
        extract_policy today response_text = Ok out ->
        exists total kept,
          sum_components comps 0 [] = Ok (total, kept)
          /\ Py.sub_field out "sum_insured" "total"
             = Some (JStr (format_indian_currency total))
          /\ Py.sub_field out "sum_insured" "components" = Some (JArr kept)
          /\ Forall (fun c => has_percent_label c = false) kept).
Proof.
  split; [reflexivity|]. split; [reflexivity|].
  split; [exact format_is_south_asian_grouping|]. split; [reflexivity|].
  split.
  - intros pre c post total_val r Hc Hsum. split.
    + now apply sum_components_skips_percent with c.
    + eapply sum_components_retains_no_percent; [constructor | eassumption].
  - intros today response_text d si comps out Hparsed Hsi Hcomps.
    unfold extract_policy. rewrite Hparsed.
    destruct (recompute_ages today (JObj d)) as [data1|] eqn:Hages; [|discriminate].
    cbn [bind]. intros Hsum.
    destruct (recompute_ages_document _ _ _ Hages) as (d1 & -> & Hrest & _).
    destruct (recompute_sum_insured_document _ _ Hsum) as (d2 & -> & _ & Hstored).
    rewrite <- (Hrest "sum_insured" eq_refl) in Hsi.
    destruct (Hstored si comps Hsi Hcomps) as (total & kept & Hloop & Htotal & Hkept).
    exists total, kept. repeat split; try assumption.
    change kept with (snd (total, kept)).
    eapply sum_components_retains_no_percent; [constructor | exact Hloop].
Qed.

(** *** Amounts read and shown *)

(** X3. Whatever the value of a component is, the amount read from it is
    never negative: a sign, a currency symbol or any other character that
    is not a digit is dropped, and a value without digits reads as 0. *)
Theorem extract_number_not_negative (val_str : json) (n : Z) :
  extract_number val_str = Ok n -> 0 <= n.
Proof.
  unfold extract_number.
  destruct (negb (Py.truthy val_str)); [intros [= <-]; lia|].
  set (s := if PyStr.contains "." _ then _ else _).
  destruct (PyStr.is_empty (PyStr.filter_chars PyStr.isdigit s)); [intros [= <-]; lia|].
  destruct (PyStr.forall_chars PyStr.is_decimal (PyStr.filter_chars PyStr.isdigit s))
    eqn:Hdec; [|discriminate].
  intros [= <-]. now apply PyStrFacts.int_of_digits_lower_bound.
Qed.

Definition uncomma (s : string) : string :=
  PyStr.filter_chars (fun x => negb (Ascii.eqb "," x)) s.

Definition uncomma_all (groups : list string) : string :=
  fold_right (fun g rest => (uncomma g ++ rest)%string) EmptyString groups.

Lemma uncomma_join (groups : list string) :
  uncomma (PyStr.join "," groups) = uncomma_all groups.
Proof.
  induction groups as [|p groups IH]; [reflexivity|].
  destruct groups as [|q groups].
  - cbn [PyStr.join uncomma_all fold_right].
    unfold uncomma. now rewrite PyStrFacts.append_nil_r.
  - change (PyStr.join "," (p :: q :: groups))
      with (p ++ "," ++ PyStr.join "," (q :: groups))%string.
    unfold uncomma in *. rewrite !PyStrFacts.filter_chars_app, IH. reflexivity.
Qed.

Lemma group_pairs_uncomma (fuel : nat) :
  forall dic groups,
    uncomma_all (group_pairs fuel dic groups)
    = (uncomma dic ++ uncomma_all groups)%string.
Proof.
  induction fuel as [|fuel IH]; intros dic groups; cbn [group_pairs]; [reflexivity|].
  unfold PyStr.len at 1.
  destruct (2 <? Z.of_nat (String.length dic)) eqn:Hlong; [|reflexivity].
  apply Z.ltb_lt in Hlong.
  destruct (PyStrFacts.split_suffix 2 dic) as (a & b & -> & Hb); [lia|].
  assert (Hbne : b <> EmptyString) by (destruct b; [discriminate | easy]).
  replace (-2) with (- PyStr.len b) by (unfold PyStr.len; rewrite Hb; reflexivity).
  rewrite PyStrFacts.slice_without_suffix, PyStrFacts.slice_suffix by exact Hbne.
  rewrite IH. cbn [uncomma_all fold_right]. unfold uncomma.
  now rewrite PyStrFacts.filter_chars_app, PyStrFacts.append_assoc.
Qed.

Lemma format_uncomma (n : Z) :
  uncomma (format_indian_currency n) = uncomma (PyStr.str_of_Z n).
Proof.
  unfold format_indian_currency. generalize (PyStr.str_of_Z n). intros s.
  unfold PyStr.len at 1.
  destruct (Z.of_nat (String.length s) <=? 3) eqn:Hshort; [reflexivity|].
  apply Z.leb_gt in Hshort.
  destruct (PyStrFacts.split_suffix 3 s) as (a & b & -> & Hb); [lia|].
  assert (Hbne : b <> EmptyString) by (destruct b; [discriminate | easy]).
  replace (-3) with (- PyStr.len b) by (unfold PyStr.len; rewrite Hb; reflexivity).
  rewrite PyStrFacts.slice_without_suffix, PyStrFacts.slice_suffix by exact Hbne.
  unfold uncomma at 1. rewrite !PyStrFacts.filter_chars_app.
  fold (uncomma (PyStr.join "," (group_pairs (String.length a) a []))).
  rewrite uncomma_join, group_pairs_uncomma. cbn [uncomma_all fold_right].
  unfold uncomma. rewrite PyStrFacts.filter_chars_app.
  now rewrite PyStrFacts.append_nil_r.
Qed.

Lemma decimal_or_comma_no_space (c : ascii) :
  PyStr.is_decimal c || negb (negb (Ascii.eqb "," c)) = true ->
  negb (PyStr.isspace c) = true.
Proof.
  destruct c as [b0 b1 b2 b3 b4 b5 b6 b7].
  destruct b0, b1, b2, b3, b4, b5, b6, b7; vm_compute; intro H;
    try discriminate H; reflexivity.
Qed.

Lemma decimal_is_digit (c : ascii) :
  PyStr.is_decimal c = true ->
  PyStr.isdigit c = true /\ negb (Ascii.eqb "," c) = true
  /\ negb (Ascii.eqb "." c) = true.
Proof.
  destruct c as [b0 b1 b2 b3 b4 b5 b6 b7].
  destruct b0, b1, b2, b3, b4, b5, b6, b7; vm_compute; intro H;
    try discriminate H; repeat split.
Qed.

Lemma extract_number_of_format (n : Z) :
  0 <= n -> extract_number (JStr (format_indian_currency n)) = Ok n.
Proof.
  intros Hn.
  destruct (PyStrFacts.str_of_Z_decimal n Hn) as (Hdec & Hint & Hne).
  assert (Hun : uncomma (format_indian_currency n) = PyStr.str_of_Z n).
  { rewrite format_uncomma. apply PyStrFacts.filter_chars_all.
    revert Hdec. apply PyStrFacts.forall_chars_impl.
    intros c Hc. now apply decimal_is_digit in Hc. }
  assert (Hchars : PyStr.forall_chars
                     (fun c => PyStr.is_decimal c || negb (negb (Ascii.eqb "," c)))
                     (format_indian_currency n) = true).
  { rewrite PyStrFacts.forall_chars_filter. fold (uncomma (format_indian_currency n)).
    now rewrite Hun. }
  assert (Hstrip : PyStr.strip (format_indian_currency n) = format_indian_currency n).
  { apply PyStrFacts.strip_no_space. revert Hchars.
    apply PyStrFacts.forall_chars_impl, decimal_or_comma_no_space. }
  assert (Hnonempty : PyStr.is_empty (format_indian_currency n) = false).
  { destruct (format_indian_currency n); [|reflexivity].
    cbn in Hun. now destruct Hne. }
  unfold extract_number. cbn [Py.truthy str_of]. rewrite Hnonempty. cbn [negb].
  rewrite Hstrip, (PyStrFacts.replace_char ","). fold (uncomma (format_indian_currency n)).
  rewrite Hun.
  rewrite PyStrFacts.contains_char_false
    by (revert Hdec; apply PyStrFacts.forall_chars_impl;
        intros c Hc; now apply decimal_is_digit in Hc).
  rewrite PyStrFacts.filter_chars_all
    by (revert Hdec; apply PyStrFacts.forall_chars_impl;
        intros c Hc; now apply decimal_is_digit in Hc).
  destruct (PyStr.str_of_Z n) as [|c d] eqn:Hd; [now destruct Hne|].
  cbn [PyStr.is_empty]. rewrite Hdec. now rewrite Hint.
Qed.

(** X4. An amount shown and read again is the same amount: for every
    amount that is not negative, the display [format_indian_currency] gives
    is read back by [extract_number] as that amount, and the display without
    its commas is the decimal numeral of the amount. *)
Theorem display_reads_back (n : Z) :
  0 <= n ->
  extract_number (JStr (format_indian_currency n)) = Ok n
  /\ PyStr.replace "," EmptyString (format_indian_currency n) = PyStr.str_of_Z n.
Proof.
  intros Hn. split; [now apply extract_number_of_format|].
  rewrite (PyStrFacts.replace_char ","). fold (uncomma (format_indian_currency n)).
  rewrite format_uncomma. apply PyStrFacts.filter_chars_all.
  destruct (PyStrFacts.str_of_Z_decimal n Hn) as (Hdec & _).
  revert Hdec. apply PyStrFacts.forall_chars_impl.
  intros c Hc. now apply decimal_is_digit in Hc.
Qed.

(** *** The total and the components returned *)

(** The amount a component shows. *)
Definition amount_of (comp : json) : Z :=
  match Py.get comp "value" (JStr "0") with
  | Ok v => match extract_number v with Ok n => n | Http500 => 0 end
  | Http500 => 0
  end.

(** The label the loop tests: lower-cased, empty when absent. *)
Definition label_of (comp : json) : string :=
  match Py.get comp "label" (JStr "") with
  | Ok (JStr l) => PyStr.lower l
  | _ => EmptyString
  end.

(** The amount with the sign of its label: a deductible reduces. *)
Definition signed_amount (comp : json) : Z :=
  if PyStr.contains "deductible" (label_of comp)
  then - amount_of comp else amount_of comp.

Definition signed_sum (comps : list json) : Z :=
  fold_right (fun c rest => signed_amount c + rest) 0 comps.

(** A component as the loop leaves it: a dict that shows a positive amount
    in the grouped display and has no percent label. *)
Definition settled (comp : json) : Prop :=
  exists d val,
    comp = JObj d
    /\ Py.lookup "value" d = Some (JStr (format_indian_currency val))
    /\ 0 < val
    /\ match Py.lookup "label" d with
       | Some (JStr _) | None => True
       | _ => False
       end
    /\ percent_label (label_of comp) = false.

Lemma settled_amount (comp : json) :
  settled comp -> 0 < amount_of comp
                  /\ Py.field comp "value"
                     = Some (JStr (format_indian_currency (amount_of comp))).
Proof.
  intros (d & val & -> & Hvalue & Hpos & _ & _).
  unfold amount_of. cbn [Py.get Py.field]. rewrite Hvalue.
  rewrite extract_number_of_format by lia. now split.
Qed.

Lemma signed_sum_snoc (comps : list json) (c : json) :
  signed_sum (comps ++ [c]) = signed_sum comps + signed_amount c.
Proof.
  induction comps as [|a comps IH]; cbn [app signed_sum fold_right].
  - lia.
  - fold (signed_sum (comps ++ [c])). fold (signed_sum comps). rewrite IH. lia.
Qed.

Lemma sum_components_accounts (components : list json) :
  forall total_val valid r,
    Forall settled valid ->
    sum_components components total_val valid = Ok r ->
    fst r - signed_sum (snd r) = total_val - signed_sum valid
    /\ Forall settled (snd r).
Proof.
  induction components as [|a rest IH]; intros total_val valid r Hvalid.
  - cbn [sum_components]. intros [= <-]. now split.
  - cbn [sum_components].
    destruct a as [| | | | |items|d]; try discriminate. cbn [Py.get bind].
    destruct (extract_number _) as [val|] eqn:Hval; [|discriminate]. cbn [bind].
    destruct (match Py.lookup "label" d with Some x => x | None => JStr "" end)
      as [| | | |l| |] eqn:Hl; try discriminate.
    destruct (0 <? val) eqn:Hpos; [|now apply IH].
    destruct (percent_label (PyStr.lower l)) eqn:Hp; [now apply IH|].
    cbn [Py.setitem bind]. intros Hsum.
    set (kept := JObj (Py.store "value" (JStr (format_indian_currency val)) d)) in *.
    apply Z.ltb_lt in Hpos.
    assert (Hlabel : label_of kept = PyStr.lower l).
    { unfold label_of, kept. cbn [Py.get].
      rewrite PyFacts.lookup_store_other by reflexivity. now rewrite Hl. }
    assert (Hkept : settled kept).
    { exists (Py.store "value" (JStr (format_indian_currency val)) d), val.
      split; [reflexivity|]. split; [apply PyFacts.lookup_store_same|].
      split; [exact Hpos|]. split.
      - rewrite PyFacts.lookup_store_other by reflexivity.
        destruct (Py.lookup "label" d) as [x|]; [now subst x | exact I].
      - now rewrite Hlabel. }
    assert (Hamount : amount_of kept = val).
    { unfold amount_of, kept. cbn [Py.get]. rewrite PyFacts.lookup_store_same.
      now rewrite extract_number_of_format by lia. }
    destruct (IH _ _ r (proj2 (Forall_app _ _ _) (conj Hvalid (Forall_cons _ Hkept (Forall_nil _)))) Hsum)
      as [Htotal Hall].
    split; [|exact Hall].
    rewrite Htotal, signed_sum_snoc. unfold signed_amount.
    rewrite Hlabel, Hamount.
    destruct (PyStr.contains "deductible" (PyStr.lower l)); lia.
Qed.

(** X5. The total returned agrees with the components returned: after the
    recomputation [sum_insured.total] is the display of the sum of the
    amounts the retained components show, deductibles counted as negative,
    and every retained component shows a positive amount in the grouped
    display. *)
Theorem total_matches_components (d : Py.dict) (sum_insured out : json) :
  Py.lookup "sum_insured" d = Some sum_insured ->
  Py.contains "components" sum_insured = Ok true ->
  recompute_sum_insured (JObj d) = Ok out ->
  exists kept,
    Py.sub_field out "sum_insured" "components" = Some (JArr kept)
    /\ Py.sub_field out "sum_insured" "total"
       = Some (JStr (format_indian_currency (signed_sum kept)))
    /\ Forall (fun c => 0 < amount_of c
                        /\ Py.field c "value"
                           = Some (JStr (format_indian_currency (amount_of c))))
         kept.
Proof.
  intros Hsi Hhas. unfold recompute_sum_insured. cbn [Py.contains Py.getitem bind].
  rewrite Hsi. cbn [bind]. rewrite Hhas. cbn [bind].
  destruct sum_insured as [| | | |s|l|sid]; try discriminate.
  cbn [Py.getitem].
  destruct (Py.lookup "components" sid) as [components|]; [|discriminate]. cbn [bind].
  destruct (Py.iter components) as [comps|]; [|discriminate]. cbn [bind].
  destruct (sum_components comps 0 []) as [[total kept]|] eqn:Hsum; [|discriminate].
  cbn [bind Py.setitem fst snd]. intros [= <-].
  destruct (sum_components_accounts comps 0 [] _ (Forall_nil _) Hsum) as [Htotal Hkept].
  cbn [fst snd signed_sum fold_right] in Htotal, Hkept.
  exists kept. unfold Py.sub_field. cbn [Py.field].
  rewrite PyFacts.lookup_store_same. cbn [Py.field].
  rewrite PyFacts.lookup_store_same.
  rewrite PyFacts.lookup_store_other by reflexivity.
  rewrite PyFacts.lookup_store_same.
  split; [reflexivity|]. split.
  - do 3 f_equal. fold (signed_sum kept) in Htotal. lia.
  - revert Hkept. apply Forall_impl. exact settled_amount.
Qed.

(** *** Recomputing twice *)

(** The recomputation stage of the endpoint. *)
Definition recompute (today : datetime) (data : json) : result json :=
  data1 <- recompute_ages today data ;; recompute_sum_insured data1.

Lemma extract_policy_recompute (today : datetime) (response_text : string) :
  extract_policy today response_text
  = recompute today (parse_payload response_text).
Proof. reflexivity. Qed.

Lemma recompute_age_settled (today : datetime) (person person' : json) :
  recompute_age today person = Ok person' ->
  recompute_age today person' = Ok person'.
Proof.
  unfold recompute_age at 1.
  destruct person as [| | | | | |pd]; try discriminate. cbn [Py.get bind].
  destruct (Py.truthy (match Py.lookup "dob" pd with Some x => x | None => JStr "" end))
    eqn:Htruthy.
  - destruct (match Py.lookup "dob" pd with Some x => x | None => JStr "" end)
      as [| | | |s| |] eqn:Hdob; try discriminate.
    destruct (parse_date s) as [dob|] eqn:Hparse.
    + cbn [Py.setitem]. intros [= <-].
      unfold recompute_age. cbn [Py.get bind].
      rewrite PyFacts.lookup_store_other by reflexivity.
      rewrite Hdob, Htruthy, Hparse. cbn [Py.setitem].
      now rewrite PyFacts.store_same by apply PyFacts.lookup_store_same.
    + intros [= <-]. unfold recompute_age. cbn [Py.get bind].
      now rewrite Hdob, Htruthy, Hparse.
  - intros [= <-]. unfold recompute_age. cbn [Py.get bind]. now rewrite Htruthy.
Qed.

Lemma mapM_settled {A : Type} (f : A -> result A) (l : list A) :
  (forall x x', f x = Ok x' -> f x' = Ok x') ->
  forall l', mapM f l = Ok l' -> mapM f l' = Ok l'.
Proof.
  intros Hf. induction l as [|a l IH]; intros l'; cbn [mapM].
  - now intros [= <-].
  - destruct (f a) as [b|] eqn:Ha; [|discriminate]. cbn [bind].
    destruct (mapM f l) as [bs|]; [|discriminate]. cbn [bind].
    intros [= <-]. cbn [mapM]. rewrite (Hf a b Ha). cbn [bind].
    now rewrite (IH bs eq_refl).
Qed.

(** The persons of the document are as the loop leaves them. *)
Definition ages_settled (today : datetime) (d : Py.dict) : Prop :=
  match Py.lookup "policy_holders" d with
  | Some (JArr persons) => mapM (recompute_age today) persons = Ok persons
  | _ => True
  end.

Lemma recompute_ages_of_settled (today : datetime) (d : Py.dict) :
  ages_settled today d -> recompute_ages today (JObj d) = Ok (JObj d).
Proof.
  unfold ages_settled, recompute_ages. cbn [Py.contains Py.getitem bind].
  destruct (Py.lookup "policy_holders" d) as [holders|] eqn:Hh; [|reflexivity].
  cbn [bind]. destruct holders; try reflexivity.
  intros ->. cbn [bind Py.setitem]. now rewrite PyFacts.store_same.
Qed.

Lemma recompute_ages_settles (today : datetime) (d : Py.dict) (out : json) :
  recompute_ages today (JObj d) = Ok out ->
  exists d1, out = JObj d1 /\ ages_settled today d1.
Proof.
  unfold recompute_ages. cbn [Py.contains Py.getitem bind].
  destruct (Py.lookup "policy_holders" d) as [holders|] eqn:Hh; cbn [bind].
  - destruct holders as [| | | | |persons|];
      try (intros [= <-]; exists d; split; [reflexivity|];
           unfold ages_settled; now rewrite Hh).
    destruct (mapM (recompute_age today) persons) as [persons'|] eqn:Hmap;
      [|discriminate].
    cbn [bind Py.setitem]. intros [= <-]. eexists. split; [reflexivity|].
    unfold ages_settled. rewrite PyFacts.lookup_store_same.
    apply (mapM_settled _ persons); [apply recompute_age_settled | exact Hmap].
  - intros [= <-]. exists d. split; [reflexivity|].
    unfold ages_settled. now rewrite Hh.
Qed.

Lemma sum_components_of_settled (components : list json) :
  Forall settled components ->
  forall total_val valid,
    sum_components components total_val valid
    = Ok (total_val + signed_sum components, valid ++ components).
Proof.
  induction 1 as [|c rest Hc Hrest IH]; intros total_val valid.
  - cbn [sum_components signed_sum fold_right]. now rewrite Z.add_0_r, app_nil_r.
  - destruct Hc as (d & val & -> & Hvalue & Hpos & Hlabel & Hpercent).
    cbn [sum_components Py.get bind]. rewrite Hvalue.
    rewrite extract_number_of_format by lia. cbn [bind].
    assert (Hl : exists l,
               match Py.lookup "label" d with Some x => x | None => JStr "" end
               = JStr l /\ label_of (JObj d) = PyStr.lower l).
    { unfold label_of. cbn [Py.get].
      destruct (Py.lookup "label" d) as [[| | | |l| |]|]; try contradiction; eauto. }
    destruct Hl as (l & Hl & Hlower). rewrite Hl.
    apply Z.ltb_lt in Hpos. rewrite Hpos.
    rewrite Hlower in Hpercent. rewrite Hpercent.
    cbn [Py.setitem bind]. rewrite (PyFacts.store_same _ _ _ Hvalue).
    rewrite IH, <- app_assoc. cbn [app signed_sum fold_right].
    fold (signed_sum rest). unfold signed_amount, amount_of. cbn [Py.get].
    rewrite Hvalue, Hlower.
    rewrite extract_number_of_format by (apply Z.ltb_lt in Hpos; lia).
    f_equal. f_equal. destruct (PyStr.contains "deductible" (PyStr.lower l)); lia.
Qed.

Lemma recompute_sum_insured_settles (d : Py.dict) (out : json) :
  recompute_sum_insured (JObj d) = Ok out ->
  exists d2,
    out = JObj d2
    /\ recompute_sum_insured (JObj d2) = Ok (JObj d2)
    /\ Py.lookup "policy_holders" d2 = Py.lookup "policy_holders" d.
Proof.
  unfold recompute_sum_insured at 1. cbn [Py.contains Py.getitem bind].
  destruct (Py.lookup "sum_insured" d) as [si|] eqn:Hsi; cbn [bind].
  2:{ intros [= <-]. exists d. split; [reflexivity|]. split; [|reflexivity].
      unfold recompute_sum_insured. cbn [Py.contains bind]. now rewrite Hsi. }
  destruct (Py.contains "components" si) as [[|]|] eqn:Hhas; cbn [bind];
    [| |discriminate].
  2:{ intros [= <-]. exists d. split; [reflexivity|]. split; [|reflexivity].
      unfold recompute_sum_insured. cbn [Py.contains Py.getitem bind].
      rewrite Hsi. cbn [bind]. now rewrite Hhas. }
  destruct si as [| | | |s|l|sid]; try discriminate. cbn [Py.getitem].
  destruct (Py.lookup "components" sid) as [components|]; [|discriminate]. cbn [bind].
  destruct (Py.iter components) as [comps|]; [|discriminate]. cbn [bind].
  destruct (sum_components comps 0 []) as [[total kept]|] eqn:Hsum; [|discriminate].
  cbn [bind Py.setitem fst snd]. intros [= <-].
  destruct (sum_components_accounts comps 0 [] _ (Forall_nil _) Hsum) as [Htotal Hkept].
  cbn [fst snd signed_sum fold_right] in Htotal, Hkept. fold (signed_sum kept) in Htotal.
  assert (Htot : total = signed_sum kept) by lia. subst total.
  set (sid2 := Py.store "total" (JStr (format_indian_currency (signed_sum kept)))
                 (Py.store "components" (JArr kept) sid)).
  assert (Hcomp2 : Py.lookup "components" sid2 = Some (JArr kept)).
  { unfold sid2. rewrite PyFacts.lookup_store_other by reflexivity.
    apply PyFacts.lookup_store_same. }
  assert (Htotal2 : Py.lookup "total" sid2
                    = Some (JStr (format_indian_currency (signed_sum kept))))
    by apply PyFacts.lookup_store_same.
  eexists. split; [reflexivity|]. split.
  - unfold recompute_sum_insured. cbn [Py.contains Py.getitem bind].
    rewrite PyFacts.lookup_store_same. cbn [Py.contains Py.getitem bind].
    rewrite Hcomp2. cbn [Py.iter bind].
    rewrite (sum_components_of_settled kept Hkept). cbn [bind fst snd Py.setitem app].
    rewrite Z.add_0_l.
    rewrite (PyFacts.store_same _ _ _ Hcomp2), (PyFacts.store_same _ _ _ Htotal2).
    now rewrite PyFacts.store_same by apply PyFacts.lookup_store_same.
  - now rewrite PyFacts.lookup_store_other.
Qed.

Lemma recompute_not_dict (today : datetime) (data out : json) :
  (forall d, data <> JObj d) -> recompute today data = Ok out -> out = data.
Proof.
  intros Hd. unfold recompute, recompute_ages, recompute_sum_insured.
  destruct data as [| | | |s|l|d]; try discriminate; cbn [Py.contains bind].
  - destruct (PyStr.contains "policy_holders" s); cbn [Py.getitem bind]; [discriminate|].
    cbn [Py.contains].
    destruct (PyStr.contains "sum_insured" s); cbn [Py.getitem bind];
      [discriminate | now intros [= <-]].
  - destruct (existsb _ l); cbn [Py.getitem bind]; [discriminate|].
    cbn [Py.contains].
    destruct (existsb _ l); cbn [Py.getitem bind];
      [discriminate | now intros [= <-]].
  - now destruct (Hd d).
Qed.

(** X6. The recomputation is idempotent: a document the stage returned is
    returned unchanged when the stage runs on it again on the same day. The
    ages it stored are found again from the same dates of birth, the amounts
    it displayed read back as the same amounts, and the total is the same. *)
Theorem recompute_idempotent (today : datetime) (data out : json) :
  recompute today data = Ok out -> recompute today out = Ok out.
Proof.
  intros Hrun.
  destruct data as [| | | | | |d].
  7:{ unfold recompute in Hrun.
      destruct (recompute_ages today (JObj d)) as [data1|] eqn:Hages; [|discriminate].
      cbn [bind] in Hrun.
      destruct (recompute_ages_settles _ _ _ Hages) as (d1 & -> & Hsettled).
      destruct (recompute_sum_insured_settles _ _ Hrun) as (d2 & -> & Hfixed & Hsame).
      unfold recompute.
      rewrite recompute_ages_of_settled; [exact Hfixed|].
      unfold ages_settled in *. now rewrite Hsame. }
  all: pose proof Hrun as Hsame;
    apply recompute_not_dict in Hsame; [|discriminate]; now subst out.
Qed.

(** *** What the salvage ladder recovers *)

(** The piece in front of the closing fence, for a text cut after a json
    fence: nothing when the text goes on with the json marker, and the
    closing fence itself with what follows up to the next json marker
    otherwise. *)
Lemma piece_after_body (post : string) :
  PyStr.startswith "`" post = false ->
  hd EmptyString (PyStr.split "```json" ("```" ++ post)%string) = EmptyString
  \/ exists rest,
       hd EmptyString (PyStr.split "```json" ("```" ++ post)%string)
       = ("```" ++ rest)%string.
Proof.
  intros Hpost. unfold PyStr.split.
  change ("```" ++ post)%string with (String "`" (String "`" (String "`" post))).
  rewrite PyStrFacts.split_aux_step.
  change (PyStr.startswith "```json" (String "`" (String "`" (String "`" post))))
    with (PyStr.startswith "json" post).
  destruct (PyStr.startswith "json" post) eqn:Hjson; [left; reflexivity|].
  right.
  assert (H2 : PyStr.startswith "```json" (String "`" (String "`" post)) = false).
  { destruct post as [|c post]; [reflexivity|].
    cbn [PyStr.startswith] in Hpost |- *.
    rewrite andb_true_r in Hpost. now rewrite Hpost. }
  assert (H3 : PyStr.startswith "```json" (String "`" post) = false).
  { destruct post as [|c post]; [reflexivity|].
    cbn [PyStr.startswith] in Hpost |- *.
    rewrite andb_true_r in Hpost. now rewrite Hpost, andb_false_r. }
  rewrite PyStrFacts.split_aux_step, H2, PyStrFacts.split_aux_step, H3.
  destruct (PyStr.split_aux "```json" post 0) as [|h t] eqn:E.
  - now apply PyStrFacts.split_aux_not_nil in E.
  - exists h. reflexivity.
Qed.

(** X7. A response whose payload stands in a json code fence: when neither
    the text in front of the fence nor the payload holds a backquote, and
    the text behind the closing fence does not begin with one, the text
    handed to the parser is the stripped payload. *)
Theorem json_fence_unwrapped (pre body post : string) :
  PyStrFacts.without "`" pre = true ->
  PyStrFacts.without "`" body = true ->
  PyStr.startswith "`" post = false ->
  clean_text (pre ++ "```json" ++ body ++ "```" ++ post)%string
  = PyStr.strip body.
Proof.
  intros Hpre Hbody Hpost. unfold clean_text.
  assert (Hstrip :
    PyStr.strip (pre ++ "```json" ++ body ++ "```" ++ post)%string
    = (PyStr.lstrip pre ++ "```json" ++ body ++ "```" ++ PyStr.rstrip post)%string).
  { replace (pre ++ "```json" ++ body ++ "```" ++ post)%string
      with (pre ++ String "`" (("``json" ++ body ++ "``") ++ String "`" post))%string.
    - rewrite PyStrFacts.strip_between by reflexivity.
      cbn [append]. now rewrite PyStrFacts.append_assoc.
    - cbn [append]. now rewrite PyStrFacts.append_assoc. }
  cbv zeta. rewrite Hstrip.
  rewrite PyStrFacts.contains_at.
  apply PyStrFacts.without_lstrip in Hpre.
  apply PyStrFacts.rstrip_keeps_first in Hpost.
  rewrite (PyStrFacts.split_after_prefix "`" "``json" _ _ Hpre).
  rewrite (PyStrFacts.split_at_separator "`" "``json").
  cbn [nth].
  rewrite (PyStrFacts.split_after_prefix "`" "``json" _ _ Hbody).
  assert (Hne : PyStr.split "```json" ("```" ++ PyStr.rstrip post)%string <> [])
    by apply PyStrFacts.split_aux_not_nil.
  destruct (piece_after_body _ Hpost) as [Hw | (rest & Hw)];
    destruct (PyStr.split "```json" ("```" ++ PyStr.rstrip post)%string)
      as [|w t]; try congruence; cbn [hd] in Hw; subst w.
  - rewrite PyStrFacts.append_nil_r. cbn [nth].
    now rewrite (PyStrFacts.split_without "`" "``" _ Hbody).
  - cbn [nth]. rewrite (PyStrFacts.split_after_prefix "`" "``" _ _ Hbody).
    rewrite (PyStrFacts.split_at_separator "`" "``").
    cbn [hd]. now rewrite PyStrFacts.append_nil_r.
Qed.

(** X8. A response whose payload stands in a plain code fence: when the
    response holds no json marker, and neither the text in front of the
    fence nor the payload holds a backquote, the text handed to the parser
    is the stripped payload, whatever follows the closing fence. *)
Theorem plain_fence_unwrapped (pre body post : string) :
  PyStr.contains "```json" (pre ++ "```" ++ body ++ "```" ++ post)%string = false ->
  PyStrFacts.without "`" pre = true ->
  PyStrFacts.without "`" body = true ->
  clean_text (pre ++ "```" ++ body ++ "```" ++ post)%string = PyStr.strip body.
Proof.
  intros Hjson Hpre Hbody. unfold clean_text. cbv zeta.
  rewrite (PyStrFacts.contains_strip_false _ _ Hjson).
  assert (Hlstrip :
    PyStr.lstrip (pre ++ "```" ++ body ++ "```" ++ post)%string
    = (PyStr.lstrip pre ++ "```" ++ body ++ "```" ++ post)%string).
  { cbn [append]. now rewrite PyStrFacts.lstrip_app. }
  destruct (PyStrFacts.rstrip_spec
              (PyStr.lstrip pre ++ "```" ++ body ++ "```" ++ post)%string)
    as (w & Hw & _).
  assert (Hshape : exists post',
    PyStr.strip (pre ++ "```" ++ body ++ "```" ++ post)%string
    = (PyStr.lstrip pre ++ "```" ++ body ++ "```" ++ post')%string).
  { unfold PyStr.strip. rewrite Hlstrip.
    replace (PyStr.lstrip pre ++ "```" ++ body ++ "```" ++ post)%string
      with ((PyStr.lstrip pre ++ "```" ++ body ++ "``") ++ String "`" post)%string.
    - rewrite PyStrFacts.rstrip_app by reflexivity.
      exists (PyStr.rstrip post).
      rewrite !PyStrFacts.append_assoc. reflexivity.
    - rewrite !PyStrFacts.append_assoc. reflexivity. }
  destruct Hshape as (post' & ->).
  rewrite PyStrFacts.contains_at.
  apply PyStrFacts.without_lstrip in Hpre.
  rewrite (PyStrFacts.split_after_prefix "`" "``" _ _ Hpre).
  rewrite (PyStrFacts.split_at_separator "`" "``").
  cbn [nth].
  rewrite (PyStrFacts.split_after_prefix "`" "``" _ _ Hbody).
  rewrite (PyStrFacts.split_at_separator "`" "``").
  cbn [nth]. rewrite PyStrFacts.append_nil_r.
  now rewrite (PyStrFacts.split_without "`" "``" _ Hbody).
Qed.

(** X9. A JSON object wrapped in prose: when the response holds no fence
    marker, the text in front of the object holds no opening brace and the
    text behind it no closing brace, the second parsing step reads exactly
    the object. The payload is then what the parser makes of the whole
    stripped text, or else of the object, or else the default. *)
Theorem prose_wrapped_object_recovered (prose mid trailer : string) :
  PyStr.contains "```" (prose ++ "{" ++ mid ++ "}" ++ trailer)%string = false ->
  PyStrFacts.without "{" prose = true ->
  PyStrFacts.without "}" trailer = true ->
  parse_payload (prose ++ "{" ++ mid ++ "}" ++ trailer)%string
  = match loads (PyStr.strip (prose ++ "{" ++ mid ++ "}" ++ trailer)%string) with
    | Some data => data
    | None =>
        match loads ("{" ++ mid ++ "}")%string with
        | Some data => data
        | None => default_document
        end
    end.
Proof.
  intros Hfence Hprose Htrailer. unfold parse_payload, clean_text. cbv zeta.
  assert (Hjson :
    PyStr.contains "```json" (prose ++ "{" ++ mid ++ "}" ++ trailer)%string = false).
  { destruct (PyStr.contains "```json" _) eqn:E; [|reflexivity].
    apply (PyStrFacts.contains_prefix "```" "```json") in E; [congruence | reflexivity]. }
  rewrite (PyStrFacts.contains_strip_false _ _ Hjson),
          (PyStrFacts.contains_strip_false _ _ Hfence).
  unfold salvage.
  destruct (loads (PyStr.strip _)) as [data|]; [reflexivity|].
  assert (Hstrip :
    PyStr.strip (prose ++ "{" ++ mid ++ "}" ++ trailer)%string
    = (PyStr.lstrip prose ++ ("{" ++ mid ++ "}") ++ PyStr.rstrip trailer)%string).
  { cbn [append]. rewrite PyStrFacts.strip_between by reflexivity.
    now rewrite PyStrFacts.append_assoc. }
  rewrite Hstrip.
  apply PyStrFacts.without_lstrip in Hprose.
  apply PyStrFacts.without_rstrip in Htrailer.
  assert (Hstart :
    PyStr.find "{" (PyStr.lstrip prose ++ ("{" ++ mid ++ "}") ++ PyStr.rstrip trailer)%string
    = PyStr.len (PyStr.lstrip prose)).
  { unfold PyStr.find. cbn [append].
    now rewrite (PyStrFacts.find_after_prefix "{" _ _ Hprose). }
  assert (Hend :
    PyStr.rfind "}" (PyStr.lstrip prose ++ ("{" ++ mid ++ "}") ++ PyStr.rstrip trailer)%string
    + 1
    = PyStr.len (PyStr.lstrip prose) + PyStr.len ("{" ++ mid ++ "}")%string).
  { unfold PyStr.rfind.
    replace (PyStr.lstrip prose ++ ("{" ++ mid ++ "}") ++ PyStr.rstrip trailer)%string
      with ((PyStr.lstrip prose ++ "{" ++ mid) ++ String "}" (PyStr.rstrip trailer))%string.
    - rewrite (PyStrFacts.rfind_before_suffix "}" _ _ Htrailer) by lia.
      unfold PyStr.len. rewrite !PyStrFacts.length_app. cbn [String.length]. lia.
    - rewrite !PyStrFacts.append_assoc. reflexivity. }
  rewrite Hstart, Hend.
  replace (PyStr.len (PyStr.lstrip prose) =? -1) with false
    by (symmetry; apply Z.eqb_neq; unfold PyStr.len; lia).
  replace (PyStr.len (PyStr.lstrip prose) + PyStr.len ("{" ++ mid ++ "}")%string =? -1)
    with false by (symmetry; apply Z.eqb_neq; unfold PyStr.len; lia).
  cbn [negb andb].
  now rewrite PyStrFacts.slice_middle.
Qed.

(** X10. The second parsing step is entered exactly when the text holds an
    opening brace: one more than the index of the last closing brace is
    never -1, so the test on it never fails. A text with an opening brace
    and no closing brace is cut to the empty text and handed to the
    parser. *)
Theorem brace_test_only_on_start (text : string) :
  (negb (PyStr.find "{" text =? -1) && negb (PyStr.rfind "}" text + 1 =? -1)
   = negb (PyStr.find "{" text =? -1))
  /\ (PyStrFacts.without "}" text = true ->
      PyStr.find "{" text <> -1 ->
      salvage text
      = match loads text with
        | Some data => data
        | None => match loads EmptyString with
                  | Some data => data
                  | None => default_document
                  end
        end).
Proof.
  assert (Hend : (PyStr.rfind "}" text + 1 =? -1) = false).
  { apply Z.eqb_neq. unfold PyStr.rfind.
    pose proof (PyStrFacts.rfind_from_range "}" text 0 ltac:(lia)). lia. }
  split.
  - rewrite Hend. apply andb_true_r.
  - intros Hno Hstart. unfold salvage.
    destruct (loads text) as [data|]; [reflexivity|].
    rewrite Hend. apply Z.eqb_neq in Hstart. rewrite Hstart. cbn [negb andb].
    unfold PyStr.rfind. rewrite (PyStrFacts.rfind_without "}" _ Hno).
    change (-1 + 1) with 0. now rewrite PyStrFacts.slice_to_zero.
Qed.

(** *** The age as a count of birthdays *)

(** [a] comes before [b] in the order of (year, month, day) triples. *)
Definition date_lt (a b : datetime) : Prop :=
  year a < year b
  \/ (year a = year b
      /\ (month a < month b \/ (month a = month b /\ day a < day b))).

(** The [k]-th anniversary of [dob], as a triple. *)
Definition anniversary (dob : datetime) (k : Z) : datetime :=
  mkDate (year dob + k) (month dob) (day dob).

Lemma recompute_age_of_dob (today : datetime) (person : Py.dict) (s : string)
    (dob : datetime) :
  Py.lookup "dob" person = Some (JStr s) ->
  parse_date s = Some dob ->
  recompute_age today (JObj person)
  = Ok (JObj (Py.store "age"
                (JStr (PyStr.str_of_Z
                         (year today - year dob
                          - (if month_day_lt today dob then 1 else 0))))
                person)).
Proof.
  intros Hdob Hparse. unfold recompute_age. cbn [Py.get bind]. rewrite Hdob.
  destruct s as [|c s']; [rewrite parse_date_empty in Hparse; discriminate|].
  cbn [Py.truthy PyStr.is_empty negb]. now rewrite Hparse.
Qed.

(** X11. The stored age counts the birthdays reached: for a person whose
    date of birth parses, the anniversary of that number is not after today
    and the next one is, in the order of (year, month, day) triples. *)
Theorem age_counts_birthdays (today : datetime) (person : Py.dict) (s : string)
    (dob : datetime) :
  Py.lookup "dob" person = Some (JStr s) ->
  parse_date s = Some dob ->
  exists age out,
    recompute_age today (JObj person) = Ok out
    /\ Py.field out "age" = Some (JStr (PyStr.str_of_Z age))
    /\ ~ date_lt today (anniversary dob age)
    /\ date_lt today (anniversary dob (age + 1)).
Proof.
  intros Hdob Hparse.
  exists (year today - year dob - (if month_day_lt today dob then 1 else 0)).
  eexists. split; [exact (recompute_age_of_dob today person s dob Hdob Hparse)|].
  split; [cbn [Py.field]; apply PyFacts.lookup_store_same|].
  unfold date_lt, anniversary. cbn [year month day].
  destruct (month_day_lt today dob) eqn:E.
  - apply month_day_lt_spec in E. unfold birthday_ahead in E. lia.
  - assert (Hnot : ~ birthday_ahead today dob)
      by (intros H; apply month_day_lt_spec in H; congruence).
    unfold birthday_ahead in Hnot. lia.
Qed.

(** *** What the recomputation leaves alone *)

(** A person differs from what the loop makes of it at most in the age. *)
Definition same_but_age (person person' : json) : Prop :=
  forall k, String.eqb k "age" = false -> Py.field person' k = Py.field person k.

Lemma recompute_age_touches_age (today : datetime) (person person' : json) :
  recompute_age today person = Ok person' -> same_but_age person person'.
Proof.
  unfold recompute_age, same_but_age.
  destruct person as [| | | | | |pd]; try discriminate. cbn [Py.get bind].
  destruct (Py.truthy _); [|now intros [= <-]].
  destruct (match Py.lookup "dob" pd with Some x => x | None => JStr "" end);
    try discriminate.
  destruct (parse_date _); [|now intros [= <-]].
  cbn [Py.setitem]. intros [= <-] k Hk. cbn [Py.field].
  now apply PyFacts.lookup_store_other.
Qed.

(** X12. The recomputation changes the document only under the keys
    [policy_holders] and [sum_insured]: the result has the keys of the
    document in the same order, the same value under every other key, and
    as many persons, each equal to the person at its place under every key
    other than [age]. *)
Theorem recompute_leaves_the_rest (today : datetime) (d : Py.dict) (out : json) :
  recompute today (JObj d) = Ok out ->
  exists d',
    out = JObj d'
    /\ map fst d' = map fst d
    /\ (forall k, String.eqb k "policy_holders" = false ->
                  String.eqb k "sum_insured" = false ->
                  Py.lookup k d' = Py.lookup k d)
    /\ (forall persons,
          Py.lookup "policy_holders" d = Some (JArr persons) ->
          exists persons',
            Py.lookup "policy_holders" d' = Some (JArr persons')
            /\ Forall2 same_but_age persons persons').
Proof.
  unfold recompute. intros Hrun.
  destruct (recompute_ages today (JObj d)) as [data1|] eqn:Hages; [|discriminate].
  cbn [bind] in Hrun.
  assert (H1 : exists d1,
    data1 = JObj d1
    /\ map fst d1 = map fst d
    /\ (forall k, String.eqb k "policy_holders" = false ->
                  Py.lookup k d1 = Py.lookup k d)
    /\ (forall persons,
          Py.lookup "policy_holders" d = Some (JArr persons) ->
          exists persons',
            Py.lookup "policy_holders" d1 = Some (JArr persons')
            /\ Forall2 same_but_age persons persons')).
  { revert Hages. unfold recompute_ages. cbn [Py.contains Py.getitem bind].
    destruct (Py.lookup "policy_holders" d) as [holders|] eqn:Hh; cbn [bind].
    - destruct holders as [| | | | |persons|];
        try (intros [= <-]; exists d; repeat split; try reflexivity; discriminate).
      destruct (mapM (recompute_age today) persons) as [persons'|] eqn:Hmap;
        [|discriminate].
      cbn [bind Py.setitem]. intros [= <-]. eexists. split; [reflexivity|].
      split; [now apply PyFacts.store_keeps_keys with (y := JArr persons)|].
      split; [intros k Hk; now apply PyFacts.lookup_store_other|].
      intros persons0 [= <-]. exists persons'.
      split; [apply PyFacts.lookup_store_same|].
      apply mapM_pointwise in Hmap. clear Hh Hrun.
      induction Hmap as [|a b l l' Hab _ IH]; [constructor|].
      constructor; [|exact IH].
      now apply recompute_age_touches_age with (today := today).
    - intros [= <-]. exists d. repeat split; try reflexivity. discriminate. }
  destruct H1 as (d1 & -> & Hkeys1 & Hother1 & Hpersons1).
  assert (H2 : exists d2,
    out = JObj d2
    /\ map fst d2 = map fst d1
    /\ (forall k, String.eqb k "sum_insured" = false ->
                  Py.lookup k d2 = Py.lookup k d1)).
  { revert Hrun. unfold recompute_sum_insured. cbn [Py.contains Py.getitem bind].
    destruct (Py.lookup "sum_insured" d1) as [si|] eqn:Hsi; cbn [bind].
    2:{ intros [= <-]. exists d1. repeat split; reflexivity. }
    destruct (Py.contains "components" si) as [[|]|]; cbn [bind]; [| |discriminate].
    2:{ intros [= <-]. exists d1. repeat split; reflexivity. }
    destruct (Py.getitem si "components") as [components|]; [|discriminate].
    cbn [bind].
    destruct (Py.iter components) as [comps|]; [|discriminate]. cbn [bind].
    destruct (sum_components comps 0 []) as [tv|]; [|discriminate]. cbn [bind].
    destruct (Py.setitem si "components" (JArr (snd tv))) as [si1|]; [|discriminate].
    cbn [bind].
    destruct (Py.setitem si1 "total" _) as [si2|]; [|discriminate].
    cbn [bind Py.setitem]. intros [= <-]. eexists. split; [reflexivity|].
    split; [now apply PyFacts.store_keeps_keys with (y := si)|].
    intros k Hk. now apply PyFacts.lookup_store_other. }
  destruct H2 as (d2 & -> & Hkeys2 & Hother2).
  exists d2. split; [reflexivity|].
  split; [congruence|].
  split.
  - intros k Hph Hsi. now rewrite Hother2, Hother1.
  - intros persons Hp. destruct (Hpersons1 persons Hp) as (persons' & Hl & Hall).
    exists persons'. split; [|exact Hall].
    now rewrite Hother2.
Qed.

End Endpoint.

(** *** Examples on the reference parser *)

(** The examples give no float, list or dict where the loop expects the text
    of an amount, so that [repr_of] is never consulted in them. *)
Definition no_repr (v : json) : string := EmptyString.

Lemma default_on_total_failure_example :
  extract_policy JsonText.json_loads no_repr (mkDate 2024 1 10)
    "I could not find a policy in this file."
  = Ok default_document
  /\ placeholder_shape default_document.
Proof.
  apply (default_on_total_failure JsonText.json_loads no_repr).
  split; [reflexivity | left; reflexivity].
Defined.

(** On a response without any JSON the endpoint returns the default, whose
    company, plan, vintage and findings are placeholders, not empty
    strings. *)
Lemma default_is_not_typed_emptily :
  ladder_fails JsonText.json_loads
    (clean_text "I could not find a policy in this file.")
  /\ extract_policy JsonText.json_loads no_repr (mkDate 2024 1 10)
       "I could not find a policy in this file."
     = Ok default_document
  /\ ~ typed_emptily default_document.
Proof.
  split; [split; [reflexivity | left; reflexivity]|].
  split; [reflexivity|].
  intros (Hcompany & _). discriminate Hcompany.
Qed.

Definition plain_payload : string :=
  PyStr.with_quotes "  {'company': 'Acme', 'premium': 1200}
".

Lemma payload_roundtrip_example :
  parse_payload JsonText.json_loads plain_payload
  = JObj [("company", JStr "Acme"); ("premium", JInt 1200)].
Proof.
  apply (payload_roundtrip_without_fence JsonText.json_loads
           JsonText.json_loads_strip); reflexivity.
Defined.

Definition payload_with_backquotes : string :=
  PyStr.with_quotes "{'note': '```'}".

(** A well-formed JSON text with nothing around it, one of whose strings
    holds three backquotes: the fence removal cuts the text inside that
    string, both parsing steps fail on what is left, and the salvage parser
    returns the default instead of the parsed value. *)
Lemma fence_in_string_breaks_roundtrip :
  PyStr.strip payload_with_backquotes = payload_with_backquotes
  /\ PyStr.startswith "{" payload_with_backquotes = true
  /\ JsonText.json_loads payload_with_backquotes
     = Some (JObj [("note", JStr "```")])
  /\ clean_text payload_with_backquotes = PyStr.with_quotes "'}"
  /\ parse_payload JsonText.json_loads payload_with_backquotes = default_document
  /\ parse_payload JsonText.json_loads payload_with_backquotes
     <> JObj [("note", JStr "```")].
Proof.
  repeat split; try reflexivity.
  vm_compute. discriminate.
Qed.

Definition holders_payload : string :=
  PyStr.with_quotes
    "{'policy_holders': [
        {'name': 'Asha', 'dob': '15/06/1990', 'age': '40'},
        {'name': 'Ravi', 'dob': 'not stated', 'age': '51'}]}".

Definition holders_parsed : list json :=
  [ JObj [("name", JStr "Asha"); ("dob", JStr "15/06/1990"); ("age", JStr "40")];
    JObj [("name", JStr "Ravi"); ("dob", JStr "not stated"); ("age", JStr "51")] ].

Definition holders_returned : json :=
  JObj [("policy_holders",
         JArr [ JObj [("name", JStr "Asha"); ("dob", JStr "15/06/1990");
                      ("age", JStr "33")];
                JObj [("name", JStr "Ravi"); ("dob", JStr "not stated");
                      ("age", JStr "51")] ])].

Lemma age_recomputed_example :
  extract_policy JsonText.json_loads no_repr (mkDate 2024 1 10) holders_payload
  = Ok holders_returned
  /\ exists persons',
       Py.field holders_returned "policy_holders" = Some (JArr persons')
       /\ Forall2 (fun person person' =>
                     recompute_age (mkDate 2024 1 10) person = Ok person')
            holders_parsed persons'.
Proof.
  split; [reflexivity|].
  destruct (age_recomputed_from_dob JsonText.json_loads no_repr (mkDate 2024 1 10))
    as (_ & Hdocument & _).
  apply (Hdocument holders_payload [("policy_holders", JArr holders_parsed)]
           holders_parsed holders_returned); reflexivity.
Defined.

Definition components_payload : string :=
  PyStr.with_quotes
    "{'sum_insured': {'total': '0', 'components': [
        {'label': 'Base Sum Insured', 'value': '10,00,000.50'},
        {'label': 'Bonus %', 'value': '10%'},
        {'label': 'Deductible', 'value': '50,000'}]}}".

Definition components_parsed : list json :=
  [ JObj [("label", JStr "Base Sum Insured"); ("value", JStr "10,00,000.50")];
    JObj [("label", JStr "Bonus %"); ("value", JStr "10%")];
    JObj [("label", JStr "Deductible"); ("value", JStr "50,000")] ].

Definition components_returned : json :=
  JObj [("sum_insured",
         JObj [("total", JStr "9,50,000");
               ("components",
                JArr [ JObj [("label", JStr "Base Sum Insured");
                             ("value", JStr "10,00,000")];
                       JObj [("label", JStr "Deductible");
                             ("value", JStr "50,000")] ])])].

Lemma percent_component_example :
  extract_policy JsonText.json_loads no_repr (mkDate 2024 1 10) components_payload
  = Ok components_returned
  /\ exists total kept,
       sum_components no_repr components_parsed 0 [] = Ok (total, kept)
       /\ Py.sub_field components_returned "sum_insured" "total"
          = Some (JStr (format_indian_currency total))
       /\ Py.sub_field components_returned "sum_insured" "components"
          = Some (JArr kept)
       /\ Forall (fun c => has_percent_label c = false) kept.
Proof.
  split; [reflexivity|].
  destruct (monetary_normalization JsonText.json_loads no_repr)
    as (_ & _ & _ & _ & _ & Hdocument).
  apply (Hdocument (mkDate 2024 1 10) components_payload
           [("sum_insured",
             JObj [("total", JStr "0"); ("components", JArr components_parsed)])]
           [("total", JStr "0"); ("components", JArr components_parsed)]
           components_parsed components_returned); reflexivity.
Defined.

(** *** Examples for the amounts, the recomputation and the salvage ladder *)

Lemma extract_number_not_negative_example :
  extract_number no_repr (JStr "-5,000.75") = Ok 5000 /\ 0 <= 5000.
Proof.
  split; [reflexivity|].
  apply (extract_number_not_negative no_repr (JStr "-5,000.75") 5000).
  reflexivity.
Defined.

Lemma display_reads_back_example :
  format_indian_currency 1234567 = "12,34,567"
  /\ extract_number no_repr (JStr (format_indian_currency 1234567)) = Ok 1234567
  /\ PyStr.replace "," EmptyString (format_indian_currency 1234567)
     = PyStr.str_of_Z 1234567.
Proof.
  split; [reflexivity|].
  apply (display_reads_back no_repr 1234567). lia.
Defined.

Definition sample_sum_insured : json :=
  JObj [("total", JStr "0");
        ("components",
         JArr [JObj [("label", JStr "Base Sum Insured"); ("value", JStr "500000")];
               JObj [("label", JStr "NCB Percent"); ("value", JStr "50")];
               JObj [("label", JStr "Deductible"); ("value", JStr "50,000")]])].

Definition sample_sum_insured_result : json :=
  JObj [("total", JStr "4,50,000");
        ("components",
         JArr [JObj [("label", JStr "Base Sum Insured"); ("value", JStr "5,00,000")];
               JObj [("label", JStr "Deductible"); ("value", JStr "50,000")]])].

Lemma total_matches_components_example :
  exists kept,
    Py.sub_field (JObj [("sum_insured", sample_sum_insured_result)])
      "sum_insured" "components" = Some (JArr kept)
    /\ Py.sub_field (JObj [("sum_insured", sample_sum_insured_result)])
         "sum_insured" "total"
       = Some (JStr (format_indian_currency (signed_sum no_repr kept)))
    /\ Forall (fun c =>
                 0 < amount_of no_repr c
                 /\ Py.field c "value"
                    = Some (JStr (format_indian_currency (amount_of no_repr c))))
         kept.
Proof.
  apply (total_matches_components no_repr
           [("sum_insured", sample_sum_insured)] sample_sum_insured
           (JObj [("sum_insured", sample_sum_insured_result)]));
    reflexivity.
Defined.

Definition sample_document : Py.dict :=
  [("company", JStr "Acme");
   ("policy_holders",
    JArr [JObj [("name", JStr "Asha"); ("dob", JStr "15/06/1990");
                ("age", JStr "40")]]);
   ("sum_insured", sample_sum_insured)].

Definition sample_result : Py.dict :=
  [("company", JStr "Acme");
   ("policy_holders",
    JArr [JObj [("name", JStr "Asha"); ("dob", JStr "15/06/1990");
                ("age", JStr "33")]]);
   ("sum_insured", sample_sum_insured_result)].

Lemma recompute_idempotent_example :
  recompute no_repr (mkDate 2024 1 10) (JObj sample_result)
  = Ok (JObj sample_result).
Proof.
  apply (recompute_idempotent no_repr (mkDate 2024 1 10)
           (JObj sample_document) (JObj sample_result)).
  reflexivity.
Defined.

Lemma recompute_leaves_the_rest_example :
  exists d',
    JObj sample_result = JObj d'
    /\ map fst d' = map fst sample_document
    /\ (forall k, String.eqb k "policy_holders" = false ->
                  String.eqb k "sum_insured" = false ->
                  Py.lookup k d' = Py.lookup k sample_document)
    /\ (forall persons,
          Py.lookup "policy_holders" sample_document = Some (JArr persons) ->
          exists persons',
            Py.lookup "policy_holders" d' = Some (JArr persons')
            /\ Forall2 same_but_age persons persons').
Proof.
  apply (recompute_leaves_the_rest no_repr (mkDate 2024 1 10)
           sample_document (JObj sample_result)).
  reflexivity.
Defined.

Lemma age_counts_birthdays_example :
  exists age out,
    recompute_age (mkDate 2024 1 10) (JObj [("dob", JStr "15/06/1990")]) = Ok out
    /\ Py.field out "age" = Some (JStr (PyStr.str_of_Z age))
    /\ ~ date_lt (mkDate 2024 1 10) (anniversary (mkDate 1990 6 15) age)
    /\ date_lt (mkDate 2024 1 10) (anniversary (mkDate 1990 6 15) (age + 1)).
Proof.
  apply (age_counts_birthdays (mkDate 2024 1 10) [("dob", JStr "15/06/1990")]
           "15/06/1990" (mkDate 1990 6 15)); reflexivity.
Defined.

Definition fenced_body : string := PyStr.with_quotes " {'company': 'Acme'} ".

Lemma json_fence_unwrapped_example :
  clean_text ("Here is the policy: " ++ "```json" ++ fenced_body ++ "```"
              ++ " Let me know.")%string
  = PyStr.strip fenced_body.
Proof.
  apply (json_fence_unwrapped "Here is the policy: " fenced_body " Let me know.");
    reflexivity.
Defined.

Lemma plain_fence_unwrapped_example :
  clean_text ("Here is the policy: " ++ "```" ++ fenced_body ++ "```"
              ++ " See ```the notes```.")%string
  = PyStr.strip fenced_body.
Proof.
  apply (plain_fence_unwrapped "Here is the policy: " fenced_body
           " See ```the notes```."); reflexivity.
Defined.

Definition wrapped_members : string := PyStr.with_quotes "'company': 'Acme'".

Lemma prose_wrapped_object_example :
  parse_payload JsonText.json_loads
    ("Sure, here it is: " ++ "{" ++ wrapped_members ++ "}" ++ " Anything else?")%string
  = match JsonText.json_loads
            (PyStr.strip ("Sure, here it is: " ++ "{" ++ wrapped_members ++ "}"
                          ++ " Anything else?")%string) with
    | Some data => data
    | None =>
        match JsonText.json_loads ("{" ++ wrapped_members ++ "}")%string with
        | Some data => data
        | None => default_document
        end
    end.
Proof.
  apply (prose_wrapped_object_recovered JsonText.json_loads
           "Sure, here it is: " wrapped_members " Anything else?");
    reflexivity.
Defined.

End Extract.

(** ** The fuzzy reference matcher ([match_policy_in_csv]) *)

Module Matcher.

(** A row of [csv.DictReader]: a value per column name, [None] for a column
    a short line does not reach. *)
Definition row : Type := list (string * option string).

Fixpoint row_lookup (k : string) (r : row) : option (option string) :=
  match r with
  | [] => None
  | (k', v) :: r' => if String.eqb k k' then Some v else row_lookup k r'
  end.

(** [row.get(k, "").lower()]: [None] has no [lower]. *)
Definition lowered_field (k : string) (r : row) : result string :=
  match row_lookup k r with
  | None => Ok EmptyString
  | Some (Some v) => Ok (PyStr.lower v)
  | Some None => Http500
  end.

Section Match.

(** [difflib.SequenceMatcher(None, a, b).ratio()], a binary64 float. *)
Variable ratio : string -> string -> float.

(** [csv.DictReader(io.StringIO(csv_content))]. *)
Variable DictReader : string -> list row.

(** What the loop body makes of one row: [None] when the company filter
    skips it, its score otherwise. The bonus is the double of the literal
    [0.1], added with the rounding of binary64. *)
Definition evaluate (norm_company norm_plan : string) (r : row)
    : result (option float) :=
  csv_company <- lowered_field "Insurance Company" r ;;
  if negb (PyStr.contains norm_company csv_company)
     && negb (PyStr.contains csv_company norm_company)
  then Ok None
  else
    csv_plan <- lowered_field "Base Plan Name" r ;;
    let similarity := ratio norm_plan csv_plan in
    Ok (Some (if PyStr.contains norm_plan csv_plan
              then (similarity + 0x1.999999999999ap-4)%float else similarity)).

(** The loop, with its [best_match] and [highest_ratio]. *)
Fixpoint scan (norm_company norm_plan : string) (rows : list row)
    (best_match : option row) (highest_ratio : float)
    : result (option row * float) :=
  match rows with
  | [] => Ok (best_match, highest_ratio)
  | r :: rest =>
      e <- evaluate norm_company norm_plan r ;;
      match e with
      | None => scan norm_company norm_plan rest best_match highest_ratio
      | Some ratio =>
          if PrimFloat.ltb highest_ratio ratio
          then scan norm_company norm_plan rest (Some r) ratio
          else scan norm_company norm_plan rest best_match highest_ratio
      end
  end.

(** [match_policy_in_csv]. The debug line before the return reads
    [best_match['Base Plan Name']] and raises when the row has no such
    column. *)
Definition match_policy_in_csv (company_name plan_name csv_content : string)
    : result (option row) :=
  if PyStr.is_empty plan_name || PyStr.is_empty csv_content then Ok None
  else
    let norm_company := PyStr.strip (PyStr.lower company_name) in
    let norm_plan := PyStr.strip (PyStr.lower plan_name) in
    bh <- scan norm_company norm_plan (DictReader csv_content) None 0%float ;;
    if PrimFloat.ltb 0.5 (snd bh)
    then match fst bh with
         | Some r =>
             match row_lookup "Base Plan Name" r with
             | Some _ => Ok (Some r)
             | None => Http500
             end
         | None => Http500
         end
    else Ok None.

(** *** The score of a row, as the claim words it *)

(** The text the loop reads in a column: the cell, or the empty text for a
    column the row does not have. *)
Definition cell (k : string) (r : row) (v : string) : Prop :=
  row_lookup k r = Some (Some v) \/ (row_lookup k r = None /\ v = EmptyString).

(** The row survives the company filter and scores [sc]: the similarity of
    the plan names in lower case, plus 0.1 when the query's plan name is
    contained in the row's. *)
Definition scored_by (norm_company norm_plan : string) (r : row) (sc : float)
    : Prop :=
  exists company plan,
    cell "Insurance Company" r company
    /\ cell "Base Plan Name" r plan
    /\ (PyStr.contains norm_company (PyStr.lower company) = true
        \/ PyStr.contains (PyStr.lower company) norm_company = true)
    /\ sc = if PyStr.contains norm_plan (PyStr.lower plan)
            then (ratio norm_plan (PyStr.lower plan) + 0x1.999999999999ap-4)%float
            else ratio norm_plan (PyStr.lower plan).

Definition scored (company_name plan_name : string) (r : row) (sc : float) : Prop :=
  scored_by (PyStr.strip (PyStr.lower company_name))
            (PyStr.strip (PyStr.lower plan_name)) r sc.

Lemma lowered_field_cell (k : string) (r : row) (low : string) :
  lowered_field k r = Ok low <-> exists v, cell k r v /\ low = PyStr.lower v.
Proof.
  unfold lowered_field, cell.
  destruct (row_lookup k r) as [[v|]|]; split.
  - intros [= <-]. exists v. split; [now left | reflexivity].
  - intros (v' & [[= <-] | [Hnone _]] & ->); [reflexivity | discriminate].
  - discriminate.
  - intros (v' & [H | [H _]] & _); discriminate.
  - intros [= <-]. exists EmptyString. split; [now right | reflexivity].
  - intros (v' & [H | [_ ->]] & ->); [discriminate | reflexivity].
Qed.

Lemma evaluate_scored (nc np : string) (r : row) (sc : float) :
  evaluate nc np r = Ok (Some sc) <-> scored_by nc np r sc.
Proof.
  unfold evaluate, scored_by. split.
  - destruct (lowered_field "Insurance Company" r) as [c|] eqn:Hc; [|discriminate].
    cbn [bind].
    destruct (negb (PyStr.contains nc c) && negb (PyStr.contains c nc)) eqn:Hf;
      [discriminate|].
    destruct (lowered_field "Base Plan Name" r) as [p|] eqn:Hp; [|discriminate].
    cbn [bind]. cbv zeta. intros [= <-].
    apply lowered_field_cell in Hc as (company & Hcell & ->).
    apply lowered_field_cell in Hp as (plan & Hpcell & ->).
    exists company, plan. repeat split; try assumption.
    destruct (PyStr.contains nc (PyStr.lower company)); [now left|].
    destruct (PyStr.contains (PyStr.lower company) nc); [now right | discriminate].
  - intros (company & plan & Hcell & Hpcell & Hpass & ->).
    assert (Hc : lowered_field "Insurance Company" r = Ok (PyStr.lower company))
      by (apply lowered_field_cell; eauto).
    assert (Hp : lowered_field "Base Plan Name" r = Ok (PyStr.lower plan))
      by (apply lowered_field_cell; eauto).
    rewrite Hc. cbn [bind].
    replace (negb (PyStr.contains nc (PyStr.lower company))
             && negb (PyStr.contains (PyStr.lower company) nc)) with false
      by (destruct Hpass as [-> | ->]; [reflexivity | symmetry; apply andb_false_r]).
    rewrite Hp. reflexivity.
Qed.

(** What the loop has established after the rows [seen]. *)
Definition scan_invariant (nc np : string) (seen : list row)
    (best : option row) (highest : float) : Prop :=
  (forall r sc, In r seen -> evaluate nc np r = Ok (Some sc) ->
     PrimFloat.ltb highest sc = false)
  /\ match best with
     | None => highest = 0%float
     | Some r =>
         exists before after,
           seen = before ++ r :: after
           /\ evaluate nc np r = Ok (Some highest)
           /\ (forall r' sc, In r' before ->
                 evaluate nc np r' = Ok (Some sc) ->
                 PyFloat.is_number sc = true -> PrimFloat.ltb sc highest = true)
     end.

Lemma scan_keeps_invariant (nc np : string) (rows : list row) :
  forall seen best highest best' highest',
    scan_invariant nc np seen best highest ->
    scan nc np rows best highest = Ok (best', highest') ->
    scan_invariant nc np (seen ++ rows) best' highest'.
Proof.
  induction rows as [|x rows IH]; intros seen best highest best' highest' Hinv.
  - cbn [scan]. intros [= <- <-]. now rewrite app_nil_r.
  - cbn [scan].
    destruct (evaluate nc np x) as [[sc|]|] eqn:Hx; cbn [bind]; [| |discriminate].
    + destruct (PrimFloat.ltb highest sc) eqn:Hlt; intros Hscan.
      * replace (seen ++ x :: rows) with ((seen ++ [x]) ++ rows)
          by now rewrite <- app_assoc.
        eapply IH; [|exact Hscan].
        destruct Hinv as [Hall _]. split.
        -- intros r s Hin Hr. apply in_app_or in Hin as [Hin|[<-|[]]].
           ++ destruct (PrimFloat.ltb sc s) eqn:Hs; [|reflexivity].
              pose proof (PyFloatFacts.ltb_trans _ _ _ Hlt Hs) as Habove.
              rewrite (Hall r s Hin Hr) in Habove. discriminate.
           ++ rewrite Hx in Hr. injection Hr as <-. apply PyFloatFacts.ltb_irrefl.
        -- exists seen, []. repeat split; [exact Hx|].
           intros r' s Hin Hr Hnum.
           apply (PyFloatFacts.not_above_below highest); auto.
           now apply (Hall r').
      * replace (seen ++ x :: rows) with ((seen ++ [x]) ++ rows)
          by now rewrite <- app_assoc.
        eapply IH; [|exact Hscan].
        destruct Hinv as [Hall Hbest]. split.
        -- intros r s Hin Hr. apply in_app_or in Hin as [Hin|[<-|[]]].
           ++ now apply (Hall r).
           ++ rewrite Hx in Hr. now injection Hr as <-.
        -- destruct best as [b|]; [|exact Hbest].
           destruct Hbest as (before & after & -> & Hb & Hfirst).
           exists before, (after ++ [x]). repeat split; [|exact Hb|exact Hfirst].
           now rewrite <- app_assoc.
    + intros Hscan.
      replace (seen ++ x :: rows) with ((seen ++ [x]) ++ rows)
        by now rewrite <- app_assoc.
      eapply IH; [|exact Hscan].
      destruct Hinv as [Hall Hbest]. split.
      * intros r s Hin Hr. apply in_app_or in Hin as [Hin|[<-|[]]].
        -- now apply (Hall r).
        -- rewrite Hx in Hr. discriminate.
      * destruct best as [b|]; [|exact Hbest].
        destruct Hbest as (before & after & -> & Hb & Hfirst).
        exists before, (after ++ [x]). repeat split; [|exact Hb|exact Hfirst].
        now rewrite <- app_assoc.
Qed.

Lemma scan_result (company_name plan_name csv_content : string)
    (best : option row) (highest : float) :
  scan (PyStr.strip (PyStr.lower company_name)) (PyStr.strip (PyStr.lower plan_name))
       (DictReader csv_content) None 0%float = Ok (best, highest) ->
  scan_invariant (PyStr.strip (PyStr.lower company_name))
                 (PyStr.strip (PyStr.lower plan_name))
                 (DictReader csv_content) best highest.
Proof.
  intros Hscan.
  apply (scan_keeps_invariant _ _ _ [] None 0%float best highest); [|exact Hscan].
  split; [intros r sc []|reflexivity].
Qed.

(** Every column of the row has a value. *)
Definition complete (r : row) : Prop :=
  forall k, row_lookup k r <> Some None.

Lemma lowered_field_complete (k : string) (r : row) :
  complete r -> exists v, lowered_field k r = Ok v.
Proof.
  intros Hr. unfold lowered_field. specialize (Hr k).
  destruct (row_lookup k r) as [[v|]|]; eauto. contradiction.
Qed.

Lemma scan_complete (nc np : string) (rows : list row) :
  Forall complete rows ->
  forall best highest, exists bh, scan nc np rows best highest = Ok bh.
Proof.
  induction 1 as [|r rows Hr Hrows IH]; intros best highest; cbn [scan].
  - eauto.
  - unfold evaluate.
    destruct (lowered_field_complete "Insurance Company" r Hr) as [c ->].
    destruct (lowered_field_complete "Base Plan Name" r Hr) as [p ->].
    cbn [bind].
    destruct (negb _ && negb _); cbn [bind]; [apply IH|].
    destruct (PrimFloat.ltb highest _); apply IH.
Qed.

(** C8. A row is returned only when its score exceeds 0.5 in the order of
    the floats, where the score of a row that survives the company filter
    is the similarity ratio of the plan names in lower case, plus the double
    0.1 with the rounding of binary64 when the query's plan name is
    contained in the row's. The row returned is the first of the
    best-scoring rows: every scored row before it whose score is a number
    scores strictly less, and no scored row after it scores more. When no
    scored row exceeds 0.5 no row is returned: the result is [None], and it
    is returned whenever every row of the table is complete. *)
Theorem match_threshold_and_first_best
    (company_name plan_name csv_content : string) :
  (forall r,
      match_policy_in_csv company_name plan_name csv_content = Ok (Some r) ->
      exists before after sc,
        DictReader csv_content = before ++ r :: after
        /\ scored company_name plan_name r sc
        /\ PrimFloat.ltb 0.5 sc = true
        /\ (forall r' sc', In r' before ->
              scored company_name plan_name r' sc' ->
              PyFloat.is_number sc' = true -> PrimFloat.ltb sc' sc = true)
        /\ (forall r' sc', In r' after ->
              scored company_name plan_name r' sc' ->
              PrimFloat.ltb sc sc' = false))
  /\ ((forall r sc, In r (DictReader csv_content) ->
         scored company_name plan_name r sc -> PrimFloat.ltb 0.5 sc = false) ->
      (forall found,
          match_policy_in_csv company_name plan_name csv_content = Ok found ->
          found = None)
      /\ (Forall complete (DictReader csv_content) ->
          match_policy_in_csv company_name plan_name csv_content = Ok None)).
Proof.
  unfold match_policy_in_csv, scored.
  destruct (PyStr.is_empty plan_name || PyStr.is_empty csv_content).
  { split; [discriminate|]. intros _. split; [now intros found [= <-] | reflexivity]. }
  destruct (scan _ _ _ None 0%float) as [[best highest]|] eqn:Hscan; cbn [bind fst snd].
  2:{ split; [discriminate|]. intros _. split; [discriminate|].
      intros Hcomplete.
      destruct (scan_complete (PyStr.strip (PyStr.lower company_name))
                  (PyStr.strip (PyStr.lower plan_name)) _ Hcomplete None 0%float)
        as [bh Hbh].
      congruence. }
  apply scan_result in Hscan. destruct Hscan as [Hall Hbest].
  destruct (PrimFloat.ltb 0.5 highest) eqn:Hhigh.
  - destruct best as [b|].
    + destruct Hbest as (before & after & Hrows & Hb & Hfirst).
      split.
      * intros r Hr.
        destruct (row_lookup "Base Plan Name" b); [|discriminate].
        injection Hr as <-. exists before, after, highest.
        split; [exact Hrows|]. split; [now apply evaluate_scored|].
        split; [exact Hhigh|]. split.
        -- intros r' sc' Hin Hsc. apply (Hfirst r' sc' Hin).
           now apply evaluate_scored.
        -- intros r' sc' Hin Hsc. apply (Hall r').
           ++ rewrite Hrows. apply in_or_app. right. now right.
           ++ now apply evaluate_scored.
      * intros Hnone. exfalso.
        assert (Hlow : PrimFloat.ltb 0.5 highest = false).
        { apply (Hnone b); [|now apply evaluate_scored].
          rewrite Hrows. apply in_or_app. right. now left. }
        congruence.
    + subst highest. discriminate Hhigh.
  - split; [discriminate|]. intros _. split; [now intros found [= <-] | reflexivity].
Qed.

(** *** The query and the rows the filter passes *)

(** X13. The match does not depend on the letter case of the company and
    plan names of the query: the query in lower case gets the answer of the
    query itself. *)
Theorem match_ignores_query_case (company_name plan_name csv_content : string) :
  match_policy_in_csv (PyStr.lower company_name) (PyStr.lower plan_name) csv_content
  = match_policy_in_csv company_name plan_name csv_content.
Proof.
  unfold match_policy_in_csv.
  now rewrite !PyStrFacts.lower_idem, PyStrFacts.is_empty_lower.
Qed.

(** X14. The company filter is off for an empty name: a row is scored, not
    skipped, when the company of the query is empty once lower-cased and
    stripped, and also when the row has an empty company or no company
    column, provided the row's plan column is not left without a value. *)
Theorem empty_company_is_not_filtered
    (company_name plan_name : string) (r : row) :
  PyStr.strip (PyStr.lower company_name) = EmptyString
  \/ lowered_field "Insurance Company" r = Ok EmptyString ->
  row_lookup "Insurance Company" r <> Some None ->
  row_lookup "Base Plan Name" r <> Some None ->
  exists sc, scored company_name plan_name r sc.
Proof.
  intros Hempty Hcompany Hplan.
  assert (Hc : exists c, lowered_field "Insurance Company" r = Ok c).
  { unfold lowered_field.
    destruct (row_lookup "Insurance Company" r) as [[v|]|]; eauto. contradiction. }
  assert (Hp : exists p, lowered_field "Base Plan Name" r = Ok p).
  { unfold lowered_field.
    destruct (row_lookup "Base Plan Name" r) as [[v|]|]; eauto. contradiction. }
  destruct Hc as [c Hc], Hp as [p Hp].
  assert (Hpass : negb (PyStr.contains (PyStr.strip (PyStr.lower company_name)) c)
                  && negb (PyStr.contains c (PyStr.strip (PyStr.lower company_name)))
                  = false).
  { destruct Hempty as [-> | Hrow].
    - now rewrite PyStrFacts.contains_empty.
    - rewrite Hc in Hrow. injection Hrow as ->.
      rewrite (PyStrFacts.contains_empty (PyStr.strip _)). apply andb_false_r. }
  eexists. unfold scored. apply evaluate_scored.
  unfold evaluate. rewrite Hc. cbn [bind]. rewrite Hpass, Hp. reflexivity.
Qed.

(** The loop body skips the row. *)
Definition skipped (norm_company norm_plan : string) (r : row) : bool :=
  match evaluate norm_company norm_plan r with
  | Ok None => true
  | _ => false
  end.

(** X15. The rows the company filter skips have no part in the outcome of
    the loop: the loop over the table without them ends with the same best
    row and the same score, or fails the same way. *)
Theorem scan_ignores_skipped_rows (norm_company norm_plan : string)
    (rows : list row) (best_match : option row) (highest_ratio : float) :
  scan norm_company norm_plan
       (filter (fun r => negb (skipped norm_company norm_plan r)) rows)
       best_match highest_ratio
  = scan norm_company norm_plan rows best_match highest_ratio.
Proof.
  revert best_match highest_ratio.
  induction rows as [|r rows IH]; intros best_match highest_ratio; [reflexivity|].
  cbn [filter]. unfold skipped at 1.
  destruct (evaluate norm_company norm_plan r) as [[sc|]|] eqn:Hr; cbn [negb].
  - cbn [scan]. rewrite Hr. cbn [bind].
    destruct (PrimFloat.ltb highest_ratio sc); apply IH.
  - cbn [scan]. rewrite Hr. cbn [bind]. apply IH.
  - cbn [scan]. rewrite Hr. reflexivity.
Qed.

End Match.

(** *** Examples *)

Fixpoint common_prefix (a b : string) : nat :=
  match a, b with
  | String x a', String y b' =>
      if Ascii.eqb x y then S (common_prefix a' b') else O
  | _, _ => O
  end.

(** A similarity for the examples, computed as [ratio] computes its own from
    the number of matches: twice the common prefix over the two lengths,
    divided as floats, and 1.0 for two empty strings. *)
Definition prefix_ratio (a b : string) : float :=
  match (String.length a + String.length b)%nat with
  | O => 1%float
  | S n => PyFloat.true_div (Z.of_nat (2 * common_prefix a b)) (Z.of_nat (S n))
  end.

Fixpoint zip_row (cols cells : list string) : row :=
  match cols with
  | [] => []
  | c :: cols' =>
      match cells with
      | [] => (c, None) :: zip_row cols' []
      | x :: cells' => (c, Some x) :: zip_row cols' cells'
      end
  end.

(** A reader for the example: one record per line, cells separated by
    commas, no quoting. *)
Definition plain_reader (csv_content : string) : list row :=
  match PyStr.split (String (ascii_of_nat 10) EmptyString) csv_content with
  | [] => []
  | header :: lines =>
      map (fun line => zip_row (PyStr.split "," header) (PyStr.split "," line))
          (filter (fun line => negb (PyStr.is_empty line)) lines)
  end.

Definition example_csv : string :=
  "Insurance Company,Base Plan Name
Star Health Insurance,Optima Secure
HDFC ERGO General Insurance,Optima Restore
HDFC ERGO General Insurance,Optima Secure
HDFC ERGO General Insurance,optima secure
".

Lemma match_example :
  exists before after sc,
    plain_reader example_csv
    = before
      ++ [("Insurance Company", Some "HDFC ERGO General Insurance");
          ("Base Plan Name", Some "Optima Secure")] :: after
    /\ scored prefix_ratio "HDFC ERGO" "Optima Secure"
         [("Insurance Company", Some "HDFC ERGO General Insurance");
          ("Base Plan Name", Some "Optima Secure")] sc
    /\ PrimFloat.ltb 0.5 sc = true
    /\ (forall r' sc', In r' before ->
          scored prefix_ratio "HDFC ERGO" "Optima Secure" r' sc' ->
          PyFloat.is_number sc' = true -> PrimFloat.ltb sc' sc = true)
    /\ (forall r' sc', In r' after ->
          scored prefix_ratio "HDFC ERGO" "Optima Secure" r' sc' ->
          PrimFloat.ltb sc sc' = false).
Proof.
  destruct (match_threshold_and_first_best prefix_ratio plain_reader
              "HDFC ERGO" "Optima Secure" example_csv) as [Hfound _].
  apply Hfound. reflexivity.
Defined.

(** The sum at the threshold: the similarity of "ab" and "abcdefgh" is the
    double 0.4, the plan name is contained, and the sum of 0.4 and 0.1 in
    binary64 is 0.5 exactly, which does not exceed the threshold; no row is
    returned. *)
Lemma sum_at_the_threshold :
  prefix_ratio "ab" "abcdefgh" = 0x1.999999999999ap-2%float
  /\ evaluate prefix_ratio "acme" "ab"
       [("Insurance Company", Some "Acme"); ("Base Plan Name", Some "abcdefgh")]
     = Ok (Some 0.5%float)
  /\ match_policy_in_csv prefix_ratio plain_reader "Acme" "ab"
       "Insurance Company,Base Plan Name
Acme,abcdefgh
" = Ok None.
Proof. repeat split; reflexivity. Qed.

(** A tie of two floats: 0.5 + 0.1 and 6 / 10 are the same double, the
    second row does not exceed the first, and the first is returned. *)
Lemma float_tie_keeps_first :
  evaluate prefix_ratio "hdfc" "abcd"
    [("Insurance Company", Some "HDFC"); ("Base Plan Name", Some "abcdefghijkl")]
  = Ok (Some 0x1.3333333333333p-1%float)
  /\ evaluate prefix_ratio "hdfc" "abcd"
       [("Insurance Company", Some "HDFC"); ("Base Plan Name", Some "abcxyz")]
     = Ok (Some 0x1.3333333333333p-1%float)
  /\ match_policy_in_csv prefix_ratio plain_reader "HDFC" "abcd"
       "Insurance Company,Base Plan Name
HDFC,abcdefghijkl
HDFC,abcxyz
"
     = Ok (Some [("Insurance Company", Some "HDFC");
                 ("Base Plan Name", Some "abcdefghijkl")]).
Proof. repeat split; reflexivity. Qed.

Lemma empty_company_is_not_filtered_example :
  exists sc,
    scored prefix_ratio "  " "Optima Secure"
      [("Insurance Company", Some "Star Health Insurance");
       ("Base Plan Name", Some "Optima Secure")] sc.
Proof.
  apply (empty_company_is_not_filtered prefix_ratio "  " "Optima Secure"
           [("Insurance Company", Some "Star Health Insurance");
            ("Base Plan Name", Some "Optima Secure")]).
  - left. reflexivity.
  - discriminate.
  - discriminate.
Defined.

End Matcher.

(** ** A stable sort by descending key

    [list.sort(key=..., reverse=True)] computes the key of every element
    once, then sorts in descending key order and keeps elements of equal key
    in their original order. Such a result is unique; it is built here by
    insertion. *)

Module StableSort.

Section Sort.

Variable A : Type.

(** [x] goes before the first element whose key is at most its own. *)
Fixpoint insert_desc (x : Q * A) (l : list (Q * A)) : list (Q * A) :=
  match l with
  | [] => [x]
  | y :: l' =>
      if Qle_bool (fst y) (fst x) then x :: l else y :: insert_desc x l'
  end.

Definition sort_desc (l : list (Q * A)) : list (Q * A) :=
  fold_right insert_desc [] l.

Definition descending (l : list (Q * A)) : Prop :=
  StronglySorted (fun a b => (fst b <= fst a)%Q) l.

Definition with_key (q : Q) (l : list (Q * A)) : list (Q * A) :=
  filter (fun p => Qeq_bool (fst p) q) l.

Lemma insert_desc_perm (x : Q * A) (l : list (Q * A)) :
  Permutation (x :: l) (insert_desc x l).
Proof.
  induction l as [|y l IH]; simpl.
  - apply Permutation_refl.
  - destruct (Qle_bool (fst y) (fst x)).
    + apply Permutation_refl.
    + apply perm_trans with (y :: x :: l); [apply perm_swap|].
      now apply perm_skip.
Qed.

Lemma sort_desc_perm (l : list (Q * A)) : Permutation l (sort_desc l).
Proof.
  induction l as [|x l IH]; simpl.
  - apply perm_nil.
  - apply perm_trans with (x :: sort_desc l).
    + now apply perm_skip.
    + apply insert_desc_perm.
Qed.

Lemma insert_desc_sorted (x : Q * A) (l : list (Q * A)) :
  descending l -> descending (insert_desc x l).
Proof.
  unfold descending. induction l as [|y l IH]; simpl; intros Hl.
  - constructor; constructor.
  - inversion Hl as [|? ? Hl' Hy]; subst.
    destruct (Qle_bool (fst y) (fst x)) eqn:E.
    + apply Qle_bool_iff in E. constructor; [exact Hl|].
      constructor; [exact E|].
      apply Forall_forall. intros z Hz.
      rewrite Forall_forall in Hy. apply Qle_trans with (fst y); auto.
    + assert (Hxy : (fst x <= fst y)%Q).
      { apply Qlt_le_weak, Qnot_le_lt. intros H.
        apply Qle_bool_iff in H. congruence. }
      constructor; [now apply IH|].
      apply Forall_forall. intros z Hz.
      apply (Permutation_in _ (Permutation_sym (insert_desc_perm x l))) in Hz.
      destruct Hz as [<-|Hz]; [exact Hxy|].
      rewrite Forall_forall in Hy. auto.
Qed.

Lemma sort_desc_sorted (l : list (Q * A)) : descending (sort_desc l).
Proof.
  induction l as [|x l IH]; simpl.
  - constructor.
  - now apply insert_desc_sorted.
Qed.

Lemma insert_desc_with_key (q : Q) (x : Q * A) (l : list (Q * A)) :
  with_key q (insert_desc x l) = with_key q (x :: l).
Proof.
  unfold with_key. induction l as [|y l IH]; [reflexivity|].
  cbn [insert_desc]. destruct (Qle_bool (fst y) (fst x)) eqn:E; [reflexivity|].
  cbn [filter] in *. rewrite IH.
  destruct (Qeq_bool (fst x) q) eqn:Ex; [|reflexivity].
  destruct (Qeq_bool (fst y) q) eqn:Ey; [|reflexivity].
  apply Qeq_bool_iff in Ex, Ey.
  assert (H : Qle_bool (fst y) (fst x) = true).
  { apply Qle_bool_iff. rewrite Ex, Ey. apply Qle_refl. }
  congruence.
Qed.

(** Elements of equal key keep their order. *)
Lemma sort_desc_stable (q : Q) (l : list (Q * A)) :
  with_key q (sort_desc l) = with_key q l.
Proof.
  induction l as [|x l IH]; [reflexivity|].
  cbn [sort_desc fold_right]. rewrite insert_desc_with_key.
  unfold with_key in *. cbn [filter]. fold (sort_desc l). now rewrite IH.
Qed.

(** Sorting a descending list changes nothing. *)
Lemma sort_desc_of_descending (l : list (Q * A)) :
  descending l -> sort_desc l = l.
Proof.
  unfold descending. induction 1 as [|x l Hl IH Hx]; [reflexivity|].
  cbn [sort_desc fold_right]. fold (sort_desc l). rewrite IH.
  destruct l as [|y l']; [reflexivity|].
  cbn [insert_desc].
  inversion Hx as [|? ? Hy _]; subst.
  apply Qle_bool_iff in Hy. now rewrite Hy.
Qed.

End Sort.

Arguments insert_desc {A} x l.
Arguments sort_desc {A} l.
Arguments descending {A} l.
Arguments with_key {A} q l.

End StableSort.

(** ** The comparison endpoint ([compare_policy]) *)

Module Compare.

Import Dates.

Fixpoint filterM {A : Type} (p : A -> result bool) (l : list A) : result (list A) :=
  match l with
  | [] => Ok []
  | a :: l' =>
      keep <- p a ;;
      rest <- filterM p l' ;;
      Ok (if keep then a :: rest else rest)
  end.

(** *** Tenure *)

(** [f"{years} Years {months} Months"]. *)
Definition tenure_text (years months : Z) : string :=
  (PyStr.str_of_Z years ++ " Years " ++ PyStr.str_of_Z months ++ " Months")%string.

(** [calculated_tenure], from the request body [data]; [today] is
    [datetime.now()]. *)
Definition calculated_tenure (today : datetime) (data : json) : result string :=
  details <- Py.get data "policy_details" (JObj []) ;;
  inception_date_str <- Py.get details "start_date" (JStr "") ;;
  if Py.truthy inception_date_str
  then match inception_date_str with
       | JStr s =>
           match parse_date s with
           | Some inception_date =>
               let years := year today - year inception_date in
               let months := month today - month inception_date in
               if months <? 0
               then Ok (tenure_text (years - 1) (months + 12))
               else Ok (tenure_text years months)
           | None => Ok "Unknown"
           end
       | _ => Http500
       end
  else Ok "Unknown".

(** *** The product score *)

(** [f.get('category') == category]. *)
Definition in_category (category : string) (f : json) : result bool :=
  v <- Py.get f "category" JNull ;; Ok (Py.eq_str v category).

(** [f.get('status') == 'Positive']. *)
Definition is_positive (f : json) : result bool :=
  v <- Py.get f "status" JNull ;; Ok (Py.eq_str v "Positive").

(** [round((total_positive / total_relevant) * 10, 1)], or [0.0]. *)
Definition calc_score (total_positive total_relevant : Z) : float :=
  if 0 <? total_relevant
  then PyFloat.round1
         (PrimFloat.mul (PyFloat.true_div total_positive total_relevant) 10)
  else 0%float.

(** The body of the [try] that computes the score. *)
Definition computed_score (features : json) : result float :=
  fs <- Py.iter features ;;
  non_negotiable <- filterM (in_category "Non-Negotiable Benefits") fs ;;
  must_have <- filterM (in_category "Must Have") fs ;;
  pos_nn <- filterM is_positive non_negotiable ;;
  pos_mh <- filterM is_positive must_have ;;
  let total_relevant :=
    Z.of_nat (List.length non_negotiable) + Z.of_nat (List.length must_have) in
  let total_positive :=
    Z.of_nat (List.length pos_nn) + Z.of_nat (List.length pos_mh) in
  Ok (calc_score total_positive total_relevant).

(** The [try] and its handler: the computed score replaces the reported
    one; when the computation raises, a reported score stays and a missing
    one becomes [0.0]. *)
Definition with_score (result_ : Py.dict) (features : json) : Py.dict :=
  match computed_score features with
  | Ok score => Py.store "product_score" (JFloat score) result_
  | Http500 =>
      match Py.lookup "product_score" result_ with
      | Some _ => result_
      | None => Py.store "product_score" (JFloat 0) result_
      end
  end.

(** What follows a successful strict parse: the debug lines need a dict and
    sized values, and the score is recomputed. *)
Definition after_strict_parse (parsed : json) : result json :=
  match parsed with
  | JObj d =>
      scored <-
        match Py.lookup "feature_analysis" d with
        | Some features =>
            _ <- Py.length features ;; Ok (with_score d features)
        | None => Ok d
        end ;;
      match Py.lookup "recommendations" scored with
      | Some recs => _ <- Py.length recs ;; Ok (JObj scored)
      | None => Ok (JObj scored)
      end
  | _ => Http500
  end.

(** The safe default of the comparison. *)
Definition default_result (company : json) : json :=
  JObj
    [ ("pros", JArr [JStr "Could not analyze policy details."]);
      ("cons", JArr [JStr "AI response was not in expected format."]);
      ("current_policy_stats",
        JObj [ ("company", company);
               ("csr", JStr "N/A"); ("csr_rank", JStr "N/A");
               ("solvency", JStr "N/A"); ("solvency_rank", JStr "N/A");
               ("complaints", JStr "N/A"); ("complaints_rank", JStr "N/A") ]);
      ("recommendations", JArr []) ].

(** The text handed to the parser: the fence markers removed. *)
Definition strip_fences (response_text : string) : string :=
  PyStr.strip
    (PyStr.replace "```" "" (PyStr.replace "```json" "" response_text)).

(** *** Pros and cons *)

Definition limit_pros_cons (result_ : json) : result json :=
  has_pros <- Py.contains "pros" result_ ;;
  if negb has_pros then Ok result_
  else
    has_cons <- Py.contains "cons" result_ ;;
    if negb has_cons then Ok result_
    else
      pros <- Py.getitem result_ "pros" ;;
      pros7 <- Py.slice_to pros 7 ;;
      r1 <- Py.setitem result_ "pros" pros7 ;;
      cons <- Py.getitem r1 "cons" ;;
      cons7 <- Py.slice_to cons 7 ;;
      r2 <- Py.setitem r1 "cons" cons7 ;;
      n_pros <- Py.length pros7 ;;
      n_cons <- Py.length cons7 ;;
      if n_cons <? n_pros
      then
        pros' <- Py.slice_to pros7 (Z.to_nat n_cons) ;;
        Py.setitem r2 "pros" pros'
      else Ok r2.

(** *** Ranking *)

(** The name cleaning shared by the table keys and the candidates, after
    the lower-casing. *)
Definition drop_insurance (s : string) : string :=
  PyStr.strip
    (PyStr.replace "insurance" "" (PyStr.replace "general insurance" "" s)).

(** The key of a table row, from its first cell. *)
Definition name_key (cell : string) : string :=
  drop_insurance (PyStr.lower (PyStr.strip cell)).

(** The name a candidate is looked up by. *)
Definition candidate_key (company : string) : string :=
  drop_insurance (PyStr.lower company).

Definition csr_table : Type := list (string * Q).

(** [k in c_name or c_name in k]. *)
Definition contains_either (c_name : string) (kv : string * Q) : bool :=
  PyStr.contains (fst kv) c_name || PyStr.contains c_name (fst kv).

(** [get_csr_score]. *)
Definition get_csr_score (csr_map : csr_table) (rec : json) : result Q :=
  company <- Py.get rec "company" (JStr "") ;;
  match company with
  | JStr name =>
      let c_name := candidate_key name in
      match Py.lookup c_name csr_map with
      | Some v => Ok v
      | None =>
          match find (contains_either c_name) csr_map with
          | Some kv => Ok (snd kv)
          | None => Ok 0%Q
          end
      end
  | _ => Http500
  end.

(** [result["recommendations"].sort(key=get_csr_score, reverse=True)] under
    its guard; an exception leaves the list as it was. *)
Definition sort_recommendations (csr_map : csr_table) (result_ : json) : json :=
  match Py.contains "recommendations" result_ with
  | Ok true =>
      match Py.getitem result_ "recommendations" with
      | Ok (JArr recs) =>
          match mapM (get_csr_score csr_map) recs with
          | Ok keys =>
              match Py.setitem result_ "recommendations"
                      (JArr (map snd (StableSort.sort_desc (combine keys recs)))) with
              | Ok sorted => sorted
              | Http500 => result_
              end
          | Http500 => result_
          end
      | _ => result_
      end
  | _ => result_
  end.

Section Endpoint.

(** [json.loads]: the parsed value, or [None] for [JSONDecodeError]. *)
Variable loads : string -> option json.

(** [float(s)] as the rational the float denotes; [None] when it raises. *)
Variable to_float : string -> option Q.

(** One more row of the ratio file in [csr_map]. *)
Definition add_ratio_row (csr_map : csr_table) (row : list string) : csr_table :=
  match row with
  | name :: ratio_cell :: _ =>
      match to_float (PyStr.strip (PyStr.replace "%" "" ratio_cell)) with
      | Some ratio => Py.store (name_key name) ratio csr_map
      | None => csr_map
      end
  | _ => csr_map
  end.

(** [csr_map] from the rows of [csv.reader]; the two header rows are
    skipped, and a file without them ends the [try]. *)
Definition read_csr_map (rows : list (list string)) : option csr_table :=
  match rows with
  | _ :: _ :: body => Some (fold_left add_ratio_row body [])
  | _ => None
  end.

(** The forced sort; [csr_file] is [None] when the file cannot be read. *)
Definition force_sort (csr_file : option (list (list string))) (result_ : json)
    : json :=
  match csr_file with
  | Some rows =>
      match read_csr_map rows with
      | Some csr_map => sort_recommendations csr_map result_
      | None => result_
      end
  | None => result_
  end.

(** The parsing of the response: the strict parse and what follows it, or
    the substring between the braces, or the default. *)
Definition parse_response (data : json) (text : string) : result json :=
  match loads text with
  | Some parsed => after_strict_parse parsed
  | None =>
      let start := PyStr.find "{" text in
      let end_ := PyStr.rfind "}" text + 1 in
      let salvaged :=
        if negb (start =? -1) && negb (end_ =? -1)
        then loads (PyStr.slice text start end_) else None in
      match salvaged with
      | Some parsed => Ok parsed
      | None =>
          company <- Py.get data "company" (JStr "Unknown") ;;
          Ok (default_result company)
      end
  end.

(** The endpoint from [response.text] on; [data] is the request body. What
    the endpoint computes from the request before it calls the backend is
    [prepare_request] below, and the two together are [compare_endpoint]. *)
Definition compare_policy (data : json) (csr_file : option (list (list string)))
    (response_text : string) : result json :=
  if PyStr.is_empty response_text then Http500
  else
    parsed <- parse_response data (strip_fences response_text) ;;
    limited <- limit_pros_cons parsed ;;
    Ok (force_sort csr_file limited).

(** *** What the last two stages leave alone *)

Lemma limit_pros_cons_not_dict (v out : json) :
  (forall d, v <> JObj d) -> limit_pros_cons v = Ok out -> out = v.
Proof.
  intros Hv. unfold limit_pros_cons.
  destruct v as [| | | |s|l|d]; try discriminate; cbn [Py.contains bind].
  - destruct (PyStr.contains "pros" s); cbn [negb]; [|now intros [= <-]].
    destruct (PyStr.contains "cons" s); cbn [negb]; [discriminate|now intros [= <-]].
  - destruct (existsb _ l); cbn [negb]; [|now intros [= <-]].
    destruct (existsb _ l); cbn [negb]; [discriminate|now intros [= <-]].
  - now destruct (Hv d).
Qed.

Lemma slice_to_list (v : json) (n : nat) (l : list json) :
  Py.slice_to v n = Ok (JArr l) -> (List.length l <= n)%nat.
Proof.
  destruct v; try discriminate; cbn [Py.slice_to]; intros [= <-].
  apply firstn_le_length.
Qed.

Lemma limit_pros_cons_dict (d : Py.dict) (out : json) :
  limit_pros_cons (JObj d) = Ok out ->
  exists d',
    out = JObj d'
    /\ (forall k, String.eqb k "pros" = false -> String.eqb k "cons" = false ->
          Py.lookup k d' = Py.lookup k d)
    /\ (forall pros cons,
          Py.lookup "pros" d' = Some (JArr pros) ->
          Py.lookup "cons" d' = Some (JArr cons) ->
          (List.length pros <= 7 /\ List.length cons <= 7
           /\ List.length pros <= List.length cons)%nat).
Proof.
  unfold limit_pros_cons. cbn [Py.contains bind].
  destruct (Py.lookup "pros" d) as [pv|] eqn:Hp; cbn [negb].
  2:{ intros [= <-]. exists d. repeat split; congruence. }
  destruct (Py.lookup "cons" d) as [cv|] eqn:Hc; cbn [negb].
  2:{ intros [= <-]. exists d. repeat split; congruence. }
  cbn [Py.getitem bind]. rewrite Hp. cbn [bind].
  destruct (Py.slice_to pv 7) as [pros7|] eqn:Hp7; [|discriminate].
  cbn [bind Py.setitem Py.getitem].
  rewrite PyFacts.lookup_store_other by reflexivity. rewrite Hc. cbn [bind].
  destruct (Py.slice_to cv 7) as [cons7|] eqn:Hc7; [|discriminate].
  cbn [bind].
  destruct (Py.length pros7) as [n_pros|] eqn:Hnp; [|discriminate]. cbn [bind].
  destruct (Py.length cons7) as [n_cons|] eqn:Hnc; [|discriminate]. cbn [bind].
  destruct (n_cons <? n_pros) eqn:Hlt.
  - destruct (Py.slice_to pros7 (Z.to_nat n_cons)) as [pros'|] eqn:Hp'; [|discriminate].
    cbn [bind]. intros [= <-]. eexists. split; [reflexivity|]. split.
    + intros k Hk1 Hk2. now rewrite !PyFacts.lookup_store_other.
    + intros pros cons.
      rewrite PyFacts.lookup_store_same.
      rewrite PyFacts.lookup_store_other by reflexivity.
      rewrite PyFacts.lookup_store_same.
      intros [= ->] [= ->].
      apply slice_to_list in Hp', Hc7.
      cbn [Py.length] in Hnc. injection Hnc as <-.
      rewrite Nat2Z.id in Hp'. lia.
  - intros [= <-]. eexists. split; [reflexivity|]. split.
    + intros k Hk1 Hk2. now rewrite !PyFacts.lookup_store_other.
    + intros pros cons.
      rewrite PyFacts.lookup_store_same.
      rewrite PyFacts.lookup_store_other by reflexivity.
      rewrite PyFacts.lookup_store_same.
      intros [= ->] [= ->].
      apply slice_to_list in Hp7, Hc7.
      cbn [Py.length] in Hnp, Hnc. injection Hnp as <-. injection Hnc as <-.
      apply Z.ltb_ge in Hlt. lia.
Qed.

Lemma sort_recommendations_field (csr_map : csr_table) (v : json) (k : string) :
  String.eqb k "recommendations" = false ->
  Py.field (sort_recommendations csr_map v) k = Py.field v k.
Proof.
  intros Hk. unfold sort_recommendations.
  destruct (Py.contains "recommendations" v) as [[|]|]; try reflexivity.
  destruct (Py.getitem v "recommendations") as [[| | | | |recs|]|]; try reflexivity.
  destruct (mapM (get_csr_score csr_map) recs) as [keys|]; try reflexivity.
  destruct v; try reflexivity. cbn [Py.setitem Py.field].
  now apply PyFacts.lookup_store_other.
Qed.

Lemma force_sort_field (csr_file : option (list (list string))) (v : json) (k : string) :
  String.eqb k "recommendations" = false ->
  Py.field (force_sort csr_file v) k = Py.field v k.
Proof.
  intros Hk. unfold force_sort.
  destruct csr_file as [rows|]; [|reflexivity].
  destruct (read_csr_map rows); [|reflexivity].
  now apply sort_recommendations_field.
Qed.

Lemma field_some_dict (v : json) (k : string) (x : json) :
  Py.field v k = Some x -> exists d, v = JObj d /\ Py.lookup k d = Some x.
Proof.
  destruct v; try discriminate. simpl. eauto.
Qed.

(** C10. In a returned result that holds a list of pros and a list of cons,
    each list has at most seven entries and the pros are at most as many as
    the cons. *)
Theorem pros_cons_limited
    (data : json) (csr_file : option (list (list string)))
    (response_text : string) (out : json) (pros cons : list json) :
  compare_policy data csr_file response_text = Ok out ->
  Py.field out "pros" = Some (JArr pros) ->
  Py.field out "cons" = Some (JArr cons) ->
  (List.length pros <= 7 /\ List.length cons <= 7
   /\ List.length pros <= List.length cons)%nat.
Proof.
  unfold compare_policy.
  destruct (PyStr.is_empty response_text); [discriminate|].
  destruct (parse_response data (strip_fences response_text)) as [parsed|];
    [|discriminate]. cbn [bind].
  destruct (limit_pros_cons parsed) as [limited|] eqn:Hlim; [|discriminate].
  cbn [bind]. intros [= <-].
  rewrite !force_sort_field by reflexivity.
  intros Hpros Hcons.
  destruct parsed as [| | | | | |d].
  7:{ destruct (limit_pros_cons_dict d limited Hlim) as (d' & -> & _ & Hlen).
      now apply Hlen. }
  all: apply limit_pros_cons_not_dict in Hlim; [|discriminate];
    subst limited; discriminate.
Qed.

(** *** The product score *)

Definition is_object (f : json) : bool :=
  match f with JObj _ => true | _ => false end.

Definition has_category (category : string) (f : json) : bool :=
  match Py.field f "category" with
  | Some v => Py.eq_str v category
  | None => false
  end.

(** The record is in one of the two categories that count. *)
Definition relevant (f : json) : bool :=
  has_category "Non-Negotiable Benefits" f || has_category "Must Have" f.

Definition positive (f : json) : bool :=
  match Py.field f "status" with
  | Some v => Py.eq_str v "Positive"
  | None => false
  end.

Definition count (p : json -> bool) (l : list json) : Z :=
  Z.of_nat (List.length (filter p l)).

(** The score as the specification words it: the positive records of the
    two categories over all records of the two categories, times ten,
    rounded to one decimal; zero without such records. *)
Definition local_score (records : list json) : float :=
  calc_score (count (fun f => relevant f && positive f) records)
             (count relevant records).

Lemma filterM_pure {A : Type} (p : A -> result bool) (q : A -> bool) (l : list A) :
  (forall x, In x l -> p x = Ok (q x)) -> filterM p l = Ok (filter q l).
Proof.
  induction l as [|a l IH]; intros H; [reflexivity|].
  cbn [filterM filter]. rewrite (H a (or_introl eq_refl)). cbn [bind].
  rewrite IH by (intros x Hx; apply H; now right). reflexivity.
Qed.

Lemma filterM_fails {A : Type} (p : A -> result bool) (l : list A) (x : A) :
  In x l -> p x = Http500 -> filterM p l = Http500.
Proof.
  induction l as [|a l IH]; intros Hin Hx; [contradiction|].
  cbn [filterM]. destruct Hin as [->|Hin].
  - now rewrite Hx.
  - destruct (p a); [|reflexivity]. cbn [bind]. now rewrite IH.
Qed.

Lemma in_category_object (category : string) (f : json) :
  is_object f = true -> in_category category f = Ok (has_category category f).
Proof.
  destruct f; try discriminate. intros _.
  unfold in_category, has_category. cbn [Py.get Py.field bind].
  now destruct (Py.lookup "category" fields).
Qed.

Lemma is_positive_object (f : json) :
  is_object f = true -> is_positive f = Ok (positive f).
Proof.
  destruct f; try discriminate. intros _.
  unfold is_positive, positive. cbn [Py.get Py.field bind].
  now destruct (Py.lookup "status" fields).
Qed.

Lemma categories_disjoint (f : json) :
  has_category "Non-Negotiable Benefits" f && has_category "Must Have" f = false.
Proof.
  unfold has_category. destruct (Py.field f "category") as [v|]; [|reflexivity].
  destruct v; try reflexivity. cbn [Py.eq_str].
  destruct (String.eqb s "Non-Negotiable Benefits") eqn:E; [|reflexivity].
  apply String.eqb_eq in E. now subst s.
Qed.

Lemma length_filter_disjoint {A : Type} (p q : A -> bool) (l : list A) :
  (forall x, p x && q x = false) ->
  (List.length (filter p l) + List.length (filter q l)
   = List.length (filter (fun x => p x || q x) l))%nat.
Proof.
  intros Hpq. induction l as [|a l IH]; [reflexivity|].
  cbn [filter]. specialize (Hpq a).
  destruct (p a), (q a); try discriminate; cbn [orb List.length]; lia.
Qed.

Lemma filter_filter_and {A : Type} (p q : A -> bool) (l : list A) :
  filter q (filter p l) = filter (fun x => p x && q x) l.
Proof.
  induction l as [|a l IH]; [reflexivity|].
  cbn [filter]. destruct (p a); cbn [filter andb]; now rewrite IH.
Qed.

Lemma computed_score_of_objects (records : list json) :
  forallb is_object records = true ->
  computed_score (JArr records) = Ok (local_score records).
Proof.
  intros Hobj. rewrite forallb_forall in Hobj.
  unfold computed_score. cbn [Py.iter bind].
  rewrite (filterM_pure _ (has_category "Non-Negotiable Benefits"))
    by (intros; apply in_category_object; auto).
  cbn [bind].
  rewrite (filterM_pure _ (has_category "Must Have"))
    by (intros; apply in_category_object; auto).
  cbn [bind].
  rewrite (filterM_pure _ positive)
    by (intros x Hx; apply is_positive_object, Hobj;
        now apply filter_In in Hx).
  cbn [bind].
  rewrite (filterM_pure _ positive)
    by (intros x Hx; apply is_positive_object, Hobj;
        now apply filter_In in Hx).
  cbn [bind]. unfold local_score, count. f_equal. f_equal.
  - rewrite !filter_filter_and, <- Nat2Z.inj_add. f_equal.
    rewrite length_filter_disjoint.
    + f_equal. apply filter_ext. intros x. unfold relevant.
      now destruct (has_category _ x), (has_category _ x), (positive x).
    + intros x. pose proof (categories_disjoint x) as H.
      destruct (has_category _ x), (has_category _ x), (positive x);
        try reflexivity; discriminate.
  - rewrite <- Nat2Z.inj_add. f_equal.
    apply length_filter_disjoint, categories_disjoint.
Qed.

Lemma computed_score_of_stray (records : list json) :
  forallb is_object records = false ->
  computed_score (JArr records) = Http500.
Proof.
  intros Hobj.
  assert (Hx : exists x, In x records /\ is_object x = false).
  { induction records as [|a l IH]; [discriminate|].
    cbn [forallb] in Hobj. apply andb_false_iff in Hobj as [Ha|Hl].
    - exists a. split; [now left | exact Ha].
    - destruct (IH Hl) as (x & Hin & Hxo). exists x. split; [now right | exact Hxo]. }
  destruct Hx as (x & Hin & Hxo).
  unfold computed_score. cbn [Py.iter bind].
  rewrite (filterM_fails _ _ x Hin); [reflexivity|].
  now destruct x.
Qed.

(** C5 (as the code has it). When the cleaned response parses strictly to a
    dict whose [feature_analysis] is a list, the returned [product_score] is
    the locally computed one whenever every element of the list is a dict:
    the positive records of the two categories over the records of the two
    categories, times ten, rounded to one decimal, and 0.0 without such
    records. When some element is not a dict the computation raises and the
    handler keeps the reported score, or sets 0.0 when none was reported. *)
Theorem product_score_recomputed
    (data : json) (csr_file : option (list (list string)))
    (response_text : string) (d : Py.dict) (records : list json) (out : json) :
  loads (strip_fences response_text) = Some (JObj d) ->
  Py.lookup "feature_analysis" d = Some (JArr records) ->
  compare_policy data csr_file response_text = Ok out ->
  (forallb is_object records = true ->
     Py.field out "product_score" = Some (JFloat (local_score records)))
  /\ (forallb is_object records = false ->
     Py.field out "product_score"
     = Some (match Py.lookup "product_score" d with
             | Some reported => reported
             | None => JFloat 0
             end))
  /\ (count relevant records = 0 -> local_score records = 0%float).
Proof.
  intros Hparse Hfeatures. unfold compare_policy.
  destruct (PyStr.is_empty response_text); [discriminate|].
  unfold parse_response. rewrite Hparse.
  unfold after_strict_parse. rewrite Hfeatures. cbn [Py.length bind].
  set (scored := with_score d (JArr records)).
  assert (Hout : forall parsed,
             parsed = Ok (JObj scored) \/ parsed = Http500 ->
             (limited <- (p <- parsed ;; limit_pros_cons p) ;;
              Ok (force_sort csr_file limited)) = Ok out ->
             Py.field out "product_score" = Py.lookup "product_score" scored).
  { intros parsed [-> | ->]; [|discriminate]. cbn [bind].
    destruct (limit_pros_cons (JObj scored)) as [limited|] eqn:Hlim; [|discriminate].
    cbn [bind]. intros [= <-]. rewrite force_sort_field by reflexivity.
    destruct (limit_pros_cons_dict _ _ Hlim) as (d' & -> & Hsame & _).
    cbn [Py.field]. now apply Hsame. }
  intros Hrun.
  assert (Hscore : Py.field out "product_score" = Py.lookup "product_score" scored).
  { apply (Hout (match Py.lookup "recommendations" scored with
                 | Some recs => _ <- Py.length recs ;; Ok (JObj scored)
                 | None => Ok (JObj scored)
                 end)).
    - destruct (Py.lookup "recommendations" scored) as [recs|]; [|now left].
      destruct (Py.length recs); [now left | now right].
    - rewrite <- Hrun. now destruct (Py.lookup "recommendations" scored) as [recs|];
        [destruct (Py.length recs)|]. }
  rewrite Hscore. unfold scored, with_score. repeat split.
  - intros Hobj. rewrite (computed_score_of_objects _ Hobj).
    apply PyFacts.lookup_store_same.
  - intros Hobj. rewrite (computed_score_of_stray _ Hobj).
    destruct (Py.lookup "product_score" d) as [reported|] eqn:Hrep.
    + exact Hrep.
    + apply PyFacts.lookup_store_same.
  - intros Hnone. unfold local_score. now rewrite Hnone.
Qed.

End Endpoint.

(** *** Tenure *)

(** The tenure as the specification words it: the calendar-month
    difference, and a year borrowed when the day-of-month difference is
    negative. *)
Definition tenure_as_specified (today inception : datetime) : string :=
  let borrow := if day today - day inception <? 0 then 1 else 0 in
  tenure_text (year today - year inception - borrow)
              (month today - month inception).

(** C6 (as the code has it). From an inception date that parses, the tenure
    is the year difference and the calendar-month difference; exactly when
    the month difference is negative one year is borrowed and twelve months
    are added; the day of the month plays no part. When the inception date
    does not parse the tenure is "Unknown". *)
Theorem tenure_borrows_on_month_difference
    (today : datetime) (data details : Py.dict) (s : string) :
  Py.lookup "policy_details" data = Some (JObj details) ->
  Py.lookup "start_date" details = Some (JStr s) ->
  (forall inception, parse_date s = Some inception ->
     exists years months,
       calculated_tenure today (JObj data) = Ok (tenure_text years months)
       /\ (month today < month inception ->
             years = year today - year inception - 1
             /\ months = month today - month inception + 12)
       /\ (month inception <= month today ->
             years = year today - year inception
             /\ months = month today - month inception))
  /\ (parse_date s = None -> calculated_tenure today (JObj data) = Ok "Unknown").
Proof.
  intros Hdetails Hstart.
  assert (Hget : calculated_tenure today (JObj data) =
                 match s with
                 | EmptyString => Ok "Unknown"
                 | String _ _ =>
                     match parse_date s with
                     | Some inception =>
                         if month today - month inception <? 0
                         then Ok (tenure_text (year today - year inception - 1)
                                    (month today - month inception + 12))
                         else Ok (tenure_text (year today - year inception)
                                    (month today - month inception))
                     | None => Ok "Unknown"
                     end
                 end).
  { unfold calculated_tenure. cbn [Py.get bind]. rewrite Hdetails.
    cbn [Py.get bind]. rewrite Hstart. now destruct s. }
  rewrite Hget. split.
  - intros inception Hparse.
    destruct s as [|c s']; [discriminate Hparse|]. rewrite Hparse.
    destruct (month today - month inception <? 0) eqn:E.
    + apply Z.ltb_lt in E.
      exists (year today - year inception - 1), (month today - month inception + 12).
      split; [reflexivity|]. split; [tauto | lia].
    + apply Z.ltb_ge in E.
      exists (year today - year inception), (month today - month inception).
      split; [reflexivity|]. split; [lia | tauto].
  - intros Hnone. destruct s; [reflexivity|]. now rewrite Hnone.
Qed.

Lemma tenure_example :
  (forall inception, parse_date "2020-03-01" = Some inception ->
     exists years months,
       calculated_tenure (mkDate 2024 1 10)
         (JObj [("company", JStr "Acme");
                ("policy_details", JObj [("start_date", JStr "2020-03-01")])])
       = Ok (tenure_text years months)
       /\ (1 < month inception ->
             years = 2024 - year inception - 1
             /\ months = 1 - month inception + 12)
       /\ (month inception <= 1 ->
             years = 2024 - year inception
             /\ months = 1 - month inception))
  /\ (parse_date "2020-03-01" = None ->
      calculated_tenure (mkDate 2024 1 10)
        (JObj [("company", JStr "Acme");
               ("policy_details", JObj [("start_date", JStr "2020-03-01")])])
      = Ok "Unknown").
Proof.
  apply (tenure_borrows_on_month_difference (mkDate 2024 1 10)
           [("company", JStr "Acme");
            ("policy_details", JObj [("start_date", JStr "2020-03-01")])]
           [("start_date", JStr "2020-03-01")] "2020-03-01");
    reflexivity.
Defined.

(** A policy begun on 20/01/2020 and read on 10 January 2024: the day
    difference is negative and the month difference is zero; the code reports
    four years where the borrowing on the day of the month gives three. *)
Lemma tenure_ignores_day_of_month :
  parse_date "20/01/2020" = Some (mkDate 2020 1 20)
  /\ day (mkDate 2024 1 10) - day (mkDate 2020 1 20) < 0
  /\ calculated_tenure (mkDate 2024 1 10)
       (JObj [("policy_details", JObj [("start_date", JStr "20/01/2020")])])
     = Ok "4 Years 0 Months"
  /\ tenure_as_specified (mkDate 2024 1 10) (mkDate 2020 1 20) = "3 Years 0 Months"
  /\ calculated_tenure (mkDate 2024 1 10)
       (JObj [("policy_details", JObj [("start_date", JStr "20/01/2020")])])
     <> Ok (tenure_as_specified (mkDate 2024 1 10) (mkDate 2020 1 20)).
Proof.
  repeat split; try reflexivity.
  vm_compute. discriminate.
Qed.

(** *** Ranking *)

(** The metric a candidate is sorted by. *)
Definition metric (csr_map : csr_table) (rec : json) : Q :=
  match get_csr_score csr_map rec with
  | Ok q => q
  | Http500 => 0%Q
  end.

Definition decorate (csr_map : csr_table) (rec : json) : Q * json :=
  (metric csr_map rec, rec).

Lemma mapM_keys (csr_map : csr_table) (recs : list json) :
  forall keys,
    mapM (get_csr_score csr_map) recs = Ok keys ->
    combine keys recs = map (decorate csr_map) recs.
Proof.
  induction recs as [|r recs IH]; intros keys.
  - cbn [mapM]. now intros [= <-].
  - cbn [mapM]. destruct (get_csr_score csr_map r) as [q|] eqn:Hr; [|discriminate].
    cbn [bind]. destruct (mapM (get_csr_score csr_map) recs) as [qs|]; [|discriminate].
    cbn [bind]. intros [= <-]. cbn [combine map]. rewrite (IH qs eq_refl).
    f_equal. unfold decorate, metric. now rewrite Hr.
Qed.

Lemma map_snd_decorate (csr_map : csr_table) (recs : list json) :
  map snd (map (decorate csr_map) recs) = recs.
Proof.
  rewrite map_map. cbn [decorate snd]. apply map_id.
Qed.

Lemma sorted_map_snd (csr_map : csr_table) (l : list (Q * json)) :
  StableSort.descending l ->
  Forall (fun p => fst p = metric csr_map (snd p)) l ->
  StronglySorted (fun a b => (metric csr_map b <= metric csr_map a)%Q) (map snd l).
Proof.
  unfold StableSort.descending.
  induction 1 as [|p l Hl IH Hp]; intros Hkeys; cbn [map].
  - constructor.
  - inversion Hkeys as [|? ? Hpk Hlk]; subst.
    constructor; [now apply IH|].
    rewrite Forall_forall in *. intros r Hr.
    apply in_map_iff in Hr as (p' & <- & Hin).
    rewrite <- Hpk, <- (Hlk p' Hin). now apply Hp.
Qed.

Lemma filter_map_snd (csr_map : csr_table) (q : Q) (l : list (Q * json)) :
  Forall (fun p => fst p = metric csr_map (snd p)) l ->
  filter (fun r => Qeq_bool (metric csr_map r) q) (map snd l)
  = map snd (StableSort.with_key q l).
Proof.
  unfold StableSort.with_key.
  induction 1 as [|p l Hp Hl IH]; [reflexivity|].
  cbn [map filter]. rewrite <- Hp, IH. now destruct (Qeq_bool (fst p) q).
Qed.

Lemma decorated_keys (csr_map : csr_table) (recs : list json) :
  Forall (fun p => fst p = metric csr_map (snd p)) (map (decorate csr_map) recs).
Proof.
  apply Forall_forall. intros p Hp.
  apply in_map_iff in Hp as (r & <- & _). reflexivity.
Qed.

Lemma find_first {A : Type} (f : A -> bool) (before after : list A) (x : A) :
  forallb (fun e => negb (f e)) before = true -> f x = true ->
  find f (before ++ x :: after) = Some x.
Proof.
  induction before as [|a before IH]; cbn [forallb app find]; intros Hb Hx.
  - now rewrite Hx.
  - apply andb_prop in Hb as [Ha Hb].
    apply negb_true_iff in Ha. rewrite Ha. now apply IH.
Qed.

Lemma find_none {A : Type} (f : A -> bool) (l : list A) :
  forallb (fun e => negb (f e)) l = true -> find f l = None.
Proof.
  induction l as [|a l IH]; cbn [forallb find]; intros Hl; [reflexivity|].
  apply andb_prop in Hl as [Ha Hl].
  apply negb_true_iff in Ha. rewrite Ha. now apply IH.
Qed.


(** *** The months of the tenure *)

(** X16. The months of a tenure are a number from 0 to 11, and the years
    and months together are the distance in calendar months between the
    month of the inception date and the current month; the years are
    negative for an inception date in a later year. *)
Theorem tenure_months_in_range
    (today : datetime) (data details : Py.dict) (s : string)
    (inception : datetime) :
  1 <= month today <= 12 ->
  Py.lookup "policy_details" data = Some (JObj details) ->
  Py.lookup "start_date" details = Some (JStr s) ->
  parse_date s = Some inception ->
  exists years months,
    calculated_tenure today (JObj data) = Ok (tenure_text years months)
    /\ 0 <= months <= 11
    /\ 12 * years + months
       = 12 * (year today - year inception) + (month today - month inception).
Proof.
  intros Htoday Hdetails Hstart Hparse.
  pose proof (parse_date_calendar _ _ Hparse) as (_ & Hmonth & _).
  unfold calculated_tenure. cbn [Py.get bind]. rewrite Hdetails.
  cbn [Py.get bind]. rewrite Hstart.
  destruct s as [|c s']; [discriminate Hparse|].
  cbn [Py.truthy PyStr.is_empty negb]. rewrite Hparse.
  destruct (month today - month inception <? 0) eqn:E.
  - apply Z.ltb_lt in E.
    exists (year today - year inception - 1), (month today - month inception + 12).
    split; [reflexivity | lia].
  - apply Z.ltb_ge in E.
    exists (year today - year inception), (month today - month inception).
    split; [reflexivity | lia].
Qed.

(** *** Which pros and cons are kept *)

(** X17. On a result with a list of pros and a list of cons the limiting
    step always succeeds and keeps the leading entries: the cons become
    their first seven, the pros their first n, where n is the smaller of
    seven and the number of cons. Every other field and the order of the
    keys stay as they were. *)
Theorem pros_cons_are_prefixes (d : Py.dict) (pros cons : list json) :
  Py.lookup "pros" d = Some (JArr pros) ->
  Py.lookup "cons" d = Some (JArr cons) ->
  exists d',
    limit_pros_cons (JObj d) = Ok (JObj d')
    /\ Py.lookup "pros" d'
       = Some (JArr (firstn (Nat.min 7 (List.length cons)) pros))
    /\ Py.lookup "cons" d' = Some (JArr (firstn 7 cons))
    /\ (forall k, String.eqb k "pros" = false -> String.eqb k "cons" = false ->
          Py.lookup k d' = Py.lookup k d)
    /\ map fst d' = map fst d.
Proof.
  intros Hp Hc. unfold limit_pros_cons. cbn [Py.contains bind].
  rewrite Hp, Hc. cbn [negb Py.getitem bind]. rewrite Hp.
  cbn [bind Py.slice_to Py.setitem Py.getitem].
  rewrite PyFacts.lookup_store_other by reflexivity. rewrite Hc.
  cbn [bind Py.slice_to Py.setitem Py.length].
  assert (Hkeys1 : map fst (Py.store "pros" (JArr (firstn 7 pros)) d) = map fst d)
    by (now apply PyFacts.store_keeps_keys with (y := JArr pros)).
  assert (Hc1 : Py.lookup "cons" (Py.store "pros" (JArr (firstn 7 pros)) d)
                = Some (JArr cons))
    by (now rewrite PyFacts.lookup_store_other).
  assert (Hkeys2 :
    map fst (Py.store "cons" (JArr (firstn 7 cons))
               (Py.store "pros" (JArr (firstn 7 pros)) d)) = map fst d)
    by (now rewrite (PyFacts.store_keeps_keys _ _ _ _ Hc1)).
  assert (Hp2 :
    Py.lookup "pros" (Py.store "cons" (JArr (firstn 7 cons))
                        (Py.store "pros" (JArr (firstn 7 pros)) d))
    = Some (JArr (firstn 7 pros)))
    by (rewrite PyFacts.lookup_store_other by reflexivity;
        apply PyFacts.lookup_store_same).
  rewrite !length_firstn.
  destruct (Z.of_nat (Nat.min 7 (List.length cons))
            <? Z.of_nat (Nat.min 7 (List.length pros))) eqn:E.
  - cbn [bind Py.slice_to Py.setitem]. eexists. split; [reflexivity|].
    split; [|split; [|split]].
    + rewrite PyFacts.lookup_store_same, Nat2Z.id, firstn_firstn.
      do 3 f_equal. lia.
    + rewrite PyFacts.lookup_store_other by reflexivity.
      apply PyFacts.lookup_store_same.
    + intros k Hk1 Hk2. now rewrite !PyFacts.lookup_store_other.
    + now rewrite (PyFacts.store_keeps_keys _ _ _ _ Hp2).
  - apply Z.ltb_ge in E. eexists. split; [reflexivity|].
    split; [|split; [|split]].
    + rewrite Hp2. do 2 f_equal.
      destruct (Nat.le_gt_cases 7 (List.length cons)) as [Hlong | Hshort].
      * f_equal. lia.
      * rewrite !firstn_all2 by lia. reflexivity.
    + apply PyFacts.lookup_store_same.
    + intros k Hk1 Hk2. now rewrite !PyFacts.lookup_store_other.
    + exact Hkeys2.
Qed.

(** *** A candidate without a name *)

(** X22. A candidate whose cleaned company name is empty, as when the
    record has no company at all, is not given the metric 0: the empty name
    is contained in every key, so the candidate gets the value of the first
    entry of the table, unless the table is empty or has the empty key. *)
Theorem nameless_candidate_gets_first_entry
    (kv : string * Q) (rest : csr_table) (rec : json) (name : string) :
  Py.get rec "company" (JStr "") = Ok (JStr name) ->
  candidate_key name = EmptyString ->
  Py.lookup EmptyString (kv :: rest) = None ->
  get_csr_score (kv :: rest) rec = Ok (snd kv).
Proof.
  intros Hname Hkey Hnone. unfold get_csr_score.
  rewrite Hname. cbn [bind]. cbv zeta. rewrite Hkey, Hnone.
  cbn [find]. unfold contains_either.
  now rewrite PyStrFacts.contains_empty, orb_true_r.
Qed.

(** *** Ranking twice *)

Lemma combine_fst_snd {A B : Type} (l : list (A * B)) :
  combine (map fst l) (map snd l) = l.
Proof.
  induction l as [|[a b] l IH]; [reflexivity|]. cbn [map combine fst snd].
  now rewrite IH.
Qed.

Lemma mapM_of_decorated (csr_map : csr_table) (l : list (Q * json)) :
  Forall (fun p => get_csr_score csr_map (snd p) = Ok (fst p)) l ->
  mapM (get_csr_score csr_map) (map snd l) = Ok (map fst l).
Proof.
  induction 1 as [|p l Hp Hl IH]; [reflexivity|].
  cbn [map mapM]. now rewrite Hp, IH.
Qed.

Lemma mapM_decorates (csr_map : csr_table) (recs : list json) :
  forall keys,
    mapM (get_csr_score csr_map) recs = Ok keys ->
    Forall (fun p => get_csr_score csr_map (snd p) = Ok (fst p)) (combine keys recs).
Proof.
  induction recs as [|r recs IH]; intros keys.
  - cbn [mapM]. intros [= <-]. constructor.
  - cbn [mapM]. destruct (get_csr_score csr_map r) as [q|] eqn:Hr; [|discriminate].
    cbn [bind]. destruct (mapM (get_csr_score csr_map) recs) as [qs|]; [|discriminate].
    cbn [bind]. intros [= <-]. cbn [combine]. constructor; [exact Hr | now apply IH].
Qed.

(** X18. Ranking is idempotent: a result whose recommendations have been
    ranked is left as it is by a second ranking with the same table. *)
Theorem sort_recommendations_idempotent (csr_map : csr_table) (result_ : json) :
  sort_recommendations csr_map (sort_recommendations csr_map result_)
  = sort_recommendations csr_map result_.
Proof.
  unfold sort_recommendations at 2.
  destruct (Py.contains "recommendations" result_) as [[|]|] eqn:Hhas;
    try (unfold sort_recommendations; now rewrite Hhas).
  destruct (Py.getitem result_ "recommendations") as [[| | | | |recs|]|] eqn:Hget;
    try (unfold sort_recommendations; now rewrite Hhas, Hget).
  destruct (mapM (get_csr_score csr_map) recs) as [keys|] eqn:Hkeys;
    [|unfold sort_recommendations; now rewrite Hhas, Hget, Hkeys].
  destruct result_ as [| | | | | |d]; try discriminate Hget.
  cbn [Py.setitem]. unfold sort_recommendations.
  cbn [Py.contains Py.getitem]. rewrite PyFacts.lookup_store_same.
  set (ranked := StableSort.sort_desc (combine keys recs)).
  assert (Hdec : Forall (fun p => get_csr_score csr_map (snd p) = Ok (fst p)) ranked).
  { apply Forall_forall. intros p Hin.
    apply (Permutation_in _ (Permutation_sym (StableSort.sort_desc_perm _ _))) in Hin.
    pose proof (mapM_decorates _ _ _ Hkeys) as Hall.
    rewrite Forall_forall in Hall. now apply Hall. }
  rewrite (mapM_of_decorated _ _ Hdec). cbn [Py.setitem].
  rewrite combine_fst_snd.
  rewrite (StableSort.sort_desc_of_descending _ ranked)
    by apply StableSort.sort_desc_sorted.
  rewrite PyFacts.store_same by apply PyFacts.lookup_store_same.
  cbn [Py.getitem] in Hget.
  destruct (Py.lookup "recommendations" d) as [x|]; [|discriminate].
  injection Hget as ->. now rewrite Hkeys.
Qed.

(** *** The fence markers of the comparison response *)

Lemma replace_fence_step (c : ascii) (s : string) :
  PyStr.replace_aux "```" EmptyString (String c s) 0
  = if PyStr.startswith "```" (String c s)
    then PyStr.replace_aux "```" EmptyString s 2
    else String c (PyStr.replace_aux "```" EmptyString s 0).
Proof. reflexivity. Qed.

Lemma fence_needs_backquote (c : ascii) (s : string) :
  Ascii.eqb "`" c = false -> PyStr.startswith "```" (String c s) = false.
Proof. intros H. cbn [PyStr.startswith]. now rewrite H. Qed.

Lemma replace_keeps_other_start (s : string) :
  PyStr.startswith "`" s = false ->
  PyStr.startswith "`" (PyStr.replace_aux "```" EmptyString s 0) = false.
Proof.
  destruct s as [|c s]; [reflexivity|]. cbn [PyStr.startswith].
  rewrite andb_true_r. intros Hc.
  rewrite replace_fence_step, (fence_needs_backquote _ _ Hc).
  cbn [PyStr.startswith]. now rewrite Hc.
Qed.

Lemma replace_keeps_short_run (s : string) :
  PyStr.startswith "``" s = false ->
  PyStr.startswith "``" (PyStr.replace_aux "```" EmptyString s 0) = false.
Proof.
  destruct s as [|c s]; [reflexivity|].
  change (PyStr.startswith "``" (String c s))
    with (Ascii.eqb "`" c && PyStr.startswith "`" s).
  intros Hrun.
  assert (Hno : PyStr.startswith "```" (String c s) = false).
  { change (PyStr.startswith "```" (String c s))
      with (Ascii.eqb "`" c && PyStr.startswith "``" s).
    destruct (Ascii.eqb "`" c); [|reflexivity]. cbn [andb] in *.
    destruct s as [|x s]; [reflexivity|].
    change (PyStr.startswith "``" (String x s))
      with (Ascii.eqb "`" x && PyStr.startswith "`" s).
    cbn [PyStr.startswith] in Hrun. rewrite andb_true_r in Hrun.
    now rewrite Hrun. }
  rewrite replace_fence_step, Hno.
  change (PyStr.startswith "``" (String c (PyStr.replace_aux "```" EmptyString s 0)))
    with (Ascii.eqb "`" c
          && PyStr.startswith "`" (PyStr.replace_aux "```" EmptyString s 0)).
  destruct (Ascii.eqb "`" c); [|reflexivity]. cbn [andb] in *.
  now apply replace_keeps_other_start.
Qed.

Lemma replace_leaves_no_fence (s : string) :
  forall skip,
    PyStr.contains "```" (PyStr.replace_aux "```" EmptyString s skip) = false.
Proof.
  induction s as [|c s IH]; intros skip; [reflexivity|].
  destruct skip as [|k]; [|apply IH].
  rewrite replace_fence_step.
  destruct (PyStr.startswith "```" (String c s)) eqn:Hstart; [apply IH|].
  cbn [PyStr.contains]. rewrite IH, orb_false_r.
  change (PyStr.startswith "```" (String c (PyStr.replace_aux "```" EmptyString s 0)))
    with (Ascii.eqb "`" c
          && PyStr.startswith "``" (PyStr.replace_aux "```" EmptyString s 0)).
  change (PyStr.startswith "```" (String c s))
    with (Ascii.eqb "`" c && PyStr.startswith "``" s) in Hstart.
  destruct (Ascii.eqb "`" c); [|reflexivity]. cbn [andb] in *.
  now apply replace_keeps_short_run.
Qed.

(** X19. The text the comparison hands to the parser holds no fence marker,
    whatever the response: removing the markers from the left leaves no run
    of three backquotes behind. *)
Theorem strip_fences_leaves_no_fence (response_text : string) :
  PyStr.contains "```" (strip_fences response_text) = false
  /\ PyStr.contains "```json" (strip_fences response_text) = false.
Proof.
  assert (H : PyStr.contains "```" (strip_fences response_text) = false).
  { unfold strip_fences. apply PyStrFacts.contains_strip_false.
    apply replace_leaves_no_fence. }
  split; [exact H|].
  destruct (PyStr.contains "```json" _) eqn:E; [|reflexivity].
  apply (PyStrFacts.contains_prefix "```" "```json") in E; [congruence | reflexivity].
Qed.

(** *** The default and the fields the endpoint leaves alone *)

Section Responses.

Variable loads : string -> option json.
Variable to_float : string -> option Q.
Variable ratio : string -> string -> float.
Variable DictReader : string -> list Matcher.row.

(** **** The request, before the backend is called *)

(** [data.get("company", "").lower().strip()]: only a string has
    [lower]. *)
Definition company_name (data : json) : result string :=
  company <- Py.get data "company" (JStr "") ;;
  match company with
  | JStr s => Ok (PyStr.strip (PyStr.lower s))
  | _ => Http500
  end.

(** [company_name and (company_name in company_data_csv.lower())], as a
    truth value. *)
Definition is_company_known (name company_data_csv : string) : bool :=
  negb (PyStr.is_empty name)
  && PyStr.contains name (PyStr.lower company_data_csv).

(** [verified_row]: the call of [match_policy_in_csv] on the company and
    the plan of the request. A plan that is falsy, or an empty database,
    ends the call before the names are lower-cased; a truthy plan that is
    not a string has no [lower]. *)
Definition verified_row (data : json) (plans_database_csv : string)
    : result (option Matcher.row) :=
  details <- Py.get data "policy_details" (JObj []) ;;
  input_plan_name <- Py.get details "plan" (JStr "") ;;
  company <- Py.get data "company" (JStr "") ;;
  if negb (Py.truthy input_plan_name) || PyStr.is_empty plans_database_csv
  then Ok None
  else
    match company, input_plan_name with
    | JStr c, JStr p =>
        Matcher.match_policy_in_csv ratio DictReader c p plans_database_csv
    | _, _ => Http500
    end.

(** The age the prompt quotes:
    [data.get('policy_holders', [{'age': 30}])[0].get('age', 30)]. *)
Definition quoted_age (data : json) : result json :=
  holders <- Py.get data "policy_holders" (JArr [JObj [("age", JInt 30)]]) ;;
  first <- Py.getitem0 holders ;;
  Py.get first "age" (JInt 30).

(** What the endpoint computes from the request before it calls the
    backend, in the order of the source: the tenure, the company name and
    whether the ratio file knows it, the verified row, and the age quoted in
    the prompt. The other expressions of the prompt read fields of [data]
    and of [policy_details] with [get] and do not raise once these have
    passed. An exception here reaches the outer handler. *)
Definition prepare_request (today : datetime)
    (company_data_csv plans_database_csv : string) (data : json)
    : result (string * bool * option Matcher.row * json) :=
  tenure <- calculated_tenure today data ;;
  name <- company_name data ;;
  let known := is_company_known name company_data_csv in
  row <- verified_row data plans_database_csv ;;
  age <- quoted_age data ;;
  Ok (tenure, known, row, age).

(** The whole endpoint: the request is prepared, and the text of the
    response the backend returned goes through [compare_policy]. *)
Definition compare_endpoint (today : datetime)
    (company_data_csv plans_database_csv : string) (data : json)
    (csr_file : option (list (list string))) (response_text : string)
    : result json :=
  _ <- prepare_request today company_data_csv plans_database_csv data ;;
  compare_policy loads to_float data csr_file response_text.

(** What the whole endpoint returns, the part from the response on
    returns. *)
Lemma compare_endpoint_returns (today : datetime)
    (company_data_csv plans_database_csv : string) (data : json)
    (csr_file : option (list (list string))) (response_text : string)
    (out : json) :
  compare_endpoint today company_data_csv plans_database_csv data csr_file
    response_text = Ok out ->
  compare_policy loads to_float data csr_file response_text = Ok out.
Proof.
  unfold compare_endpoint.
  now destruct (prepare_request today company_data_csv plans_database_csv data).
Qed.

(** A request without persons, or with a null company, does not reach the
    backend. *)
Lemma request_without_persons_fails (today : datetime)
    (company_data_csv plans_database_csv : string) (d : Py.dict)
    (csr_file : option (list (list string))) (response_text : string) :
  Py.lookup "policy_holders" d = Some (JArr [])
  \/ Py.lookup "company" d = Some JNull ->
  compare_endpoint today company_data_csv plans_database_csv (JObj d) csr_file
    response_text = Http500.
Proof.
  intros Hbad. unfold compare_endpoint, prepare_request.
  destruct (calculated_tenure today (JObj d)) as [tenure|]; [|reflexivity].
  cbn [bind]. unfold company_name. cbn [Py.get bind].
  destruct Hbad as [Hholders | Hcompany].
  - destruct (match Py.lookup "company" d with Some x => x | None => JStr "" end);
      try reflexivity.
    cbn [bind]. destruct (verified_row (JObj d) plans_database_csv); [|reflexivity].
    cbn [bind]. unfold quoted_age. cbn [Py.get bind]. now rewrite Hholders.
  - now rewrite Hcompany.
Qed.

(** X20. For a request that passes the preparation: when neither the
    cleaned response nor the text between its braces parses, the endpoint
    returns the default result with the company of the request, or
    "Unknown" when the request names none; the limiting of pros and cons
    and the ranking leave the default as it is. *)
Theorem default_result_returned
    (today : datetime) (company_data_csv plans_database_csv : string)
    (data : Py.dict) (csr_file : option (list (list string)))
    (response_text : string)
    (prepared : string * bool * option Matcher.row * json) :
  prepare_request today company_data_csv plans_database_csv (JObj data)
  = Ok prepared ->
  PyStr.is_empty response_text = false ->
  loads (strip_fences response_text) = None ->
  PyStr.find "{" (strip_fences response_text) = -1
  \/ loads (PyStr.slice (strip_fences response_text)
              (PyStr.find "{" (strip_fences response_text))
              (PyStr.rfind "}" (strip_fences response_text) + 1)) = None ->
  compare_endpoint today company_data_csv plans_database_csv (JObj data)
    csr_file response_text
  = Ok (default_result (match Py.lookup "company" data with
                        | Some company => company
                        | None => JStr "Unknown"
                        end)).
Proof.
  intros Hprepared Hne Hstrict Hbraces.
  unfold compare_endpoint. rewrite Hprepared. cbn [bind].
  unfold compare_policy. rewrite Hne.
  unfold parse_response. rewrite Hstrict.
  assert (Hsalvage :
    (if negb (PyStr.find "{" (strip_fences response_text) =? -1)
        && negb (PyStr.rfind "}" (strip_fences response_text) + 1 =? -1)
     then loads (PyStr.slice (strip_fences response_text)
                   (PyStr.find "{" (strip_fences response_text))
                   (PyStr.rfind "}" (strip_fences response_text) + 1))
     else None) = None).
  { destruct Hbraces as [-> | ->]; [reflexivity|]. now destruct (_ && _). }
  cbv zeta. rewrite Hsalvage. cbn [Py.get bind].
  set (company := match Py.lookup "company" data with
                  | Some x => x
                  | None => JStr "Unknown"
                  end).
  assert (Hlimit : limit_pros_cons (default_result company)
                   = Ok (default_result company)) by reflexivity.
  rewrite Hlimit. cbn [bind]. f_equal.
  unfold force_sort. destruct csr_file as [rows|]; [|reflexivity].
  destruct (read_csr_map to_float rows); reflexivity.
Qed.

Lemma with_score_field (d : Py.dict) (features : json) (k : string) :
  String.eqb k "product_score" = false ->
  Py.lookup k (with_score d features) = Py.lookup k d.
Proof.
  intros Hk. unfold with_score.
  destruct (computed_score features).
  - now apply PyFacts.lookup_store_other.
  - destruct (Py.lookup "product_score" d); [reflexivity|].
    now apply PyFacts.lookup_store_other.
Qed.

Lemma after_strict_parse_field (d : Py.dict) (parsed : json) (k : string) :
  String.eqb k "product_score" = false ->
  after_strict_parse (JObj d) = Ok parsed ->
  exists d1, parsed = JObj d1 /\ Py.lookup k d1 = Py.lookup k d.
Proof.
  intros Hk. unfold after_strict_parse.
  destruct (Py.lookup "feature_analysis" d) as [features|].
  - destruct (Py.length features); [|discriminate]. cbn [bind].
    destruct (Py.lookup "recommendations" (with_score d features)) as [recs|].
    + destruct (Py.length recs); [|discriminate]. cbn [bind].
      intros [= <-]. eexists. split; [reflexivity|]. now apply with_score_field.
    + intros [= <-]. eexists. split; [reflexivity|]. now apply with_score_field.
  - cbn [bind]. destruct (Py.lookup "recommendations" d) as [recs|].
    + destruct (Py.length recs); [|discriminate]. cbn [bind].
      intros [= <-]. eexists. split; reflexivity.
    + intros [= <-]. eexists. split; reflexivity.
Qed.

(** X21. Of a response that parses strictly to an object the endpoint
    changes only the product score, the pros, the cons and the
    recommendations: every other field of the returned result is the
    parsed one. *)
Theorem compare_leaves_the_rest
    (data : json) (csr_file : option (list (list string)))
    (response_text : string) (d : Py.dict) (out : json) (k : string) :
  loads (strip_fences response_text) = Some (JObj d) ->
  compare_policy loads to_float data csr_file response_text = Ok out ->
  String.eqb k "product_score" = false ->
  String.eqb k "pros" = false ->
  String.eqb k "cons" = false ->
  String.eqb k "recommendations" = false ->
  Py.field out k = Py.lookup k d.
Proof.
  intros Hparse Hrun Hscore Hpros Hcons Hrecs. revert Hrun.
  unfold compare_policy.
  destruct (PyStr.is_empty response_text); [discriminate|].
  unfold parse_response. rewrite Hparse.
  destruct (after_strict_parse (JObj d)) as [parsed|] eqn:Hafter; [|discriminate].
  cbn [bind].
  destruct (after_strict_parse_field d parsed k Hscore Hafter) as (d1 & -> & Hd1).
  destruct (limit_pros_cons (JObj d1)) as [limited|] eqn:Hlim; [|discriminate].
  cbn [bind]. intros [= <-].
  rewrite (force_sort_field to_float) by exact Hrecs.
  destruct (limit_pros_cons_dict _ _ Hlim) as (d' & -> & Hsame & _).
  cbn [Py.field]. now rewrite Hsame.
Qed.

End Responses.

(** *** Examples on the reference parser *)

(** The rational a finite float denotes. *)
Definition exact_of_float (f : float) : option Q :=
  match Prim2SF f with
  | SpecFloat.S754_zero _ => Some 0%Q
  | SpecFloat.S754_finite s m e =>
      let magnitude :=
        if 0 <=? e then inject_Z (Zpos m * 2 ^ e)
        else (Zpos m # Z.to_pos (2 ^ (- e)))%Q in
      Some (if s then (- magnitude)%Q else magnitude)
  | _ => None
  end.

(** [float] for the examples, on the decimal literals of the number
    grammar. *)
Definition decimal_to_float (s : string) : option Q :=
  match JsonText.number_of s with
  | Some (JInt n) => Some (inject_Z n)
  | Some (JFloat f) => exact_of_float f
  | _ => None
  end.

Definition example_request : json := JObj [("company", JStr "Acme Health")].

Definition example_ratio_file : option (list (list string)) :=
  Some [ ["Insurer Performance"]; ["Company"; "Claims Paid Ratio"];
         ["Bajaj Allianz General Insurance"; "90%"];
         ["HDFC Ergo"; "86"] ].

Definition example_records : list json :=
  [ JObj [("category", JStr "Non-Negotiable Benefits"); ("status", JStr "Positive")];
    JObj [("category", JStr "Must Have"); ("status", JStr "Negative")];
    JObj [("category", JStr "Must Have"); ("status", JStr "Positive")];
    JObj [("category", JStr "Good to Have"); ("status", JStr "Positive")] ].

Definition example_response : string :=
  (PyStr.with_quotes "```json
{'feature_analysis': [
   {'category': 'Non-Negotiable Benefits', 'status': 'Positive'},
   {'category': 'Must Have', 'status': 'Negative'},
   {'category': 'Must Have', 'status': 'Positive'},
   {'category': 'Good to Have', 'status': 'Positive'}],
 'product_score': 9,
 'pros': ['a', 'b', 'c', 'd', 'e', 'f', 'g', 'h', 'i'],
 'cons': ['x', 'y', 'z'],
 'recommendations': [{'company': 'HDFC Ergo'}, {'company': 'Bajaj Allianz'}]}
```").

Definition example_parsed : Py.dict :=
  [ ("feature_analysis", JArr example_records);
    ("product_score", JInt 9);
    ("pros", JArr [JStr "a"; JStr "b"; JStr "c"; JStr "d"; JStr "e";
                   JStr "f"; JStr "g"; JStr "h"; JStr "i"]);
    ("cons", JArr [JStr "x"; JStr "y"; JStr "z"]);
    ("recommendations",
      JArr [JObj [("company", JStr "HDFC Ergo")];
            JObj [("company", JStr "Bajaj Allianz")]]) ].

Definition example_result : json :=
  JObj
    [ ("feature_analysis", JArr example_records);
      ("product_score", JFloat (local_score example_records));
      ("pros", JArr [JStr "a"; JStr "b"; JStr "c"]);
      ("cons", JArr [JStr "x"; JStr "y"; JStr "z"]);
      ("recommendations",
        JArr [JObj [("company", JStr "Bajaj Allianz")];
              JObj [("company", JStr "HDFC Ergo")]]) ].

Lemma example_result_returned :
  compare_policy JsonText.json_loads decimal_to_float
    example_request example_ratio_file example_response
  = Ok example_result.
Proof. reflexivity. Qed.

Lemma product_score_example :
  (forallb is_object example_records = true ->
     Py.field example_result "product_score"
     = Some (JFloat (local_score example_records)))
  /\ (forallb is_object example_records = false ->
     Py.field example_result "product_score"
     = Some (match Py.lookup "product_score" example_parsed with
             | Some reported => reported
             | None => JFloat 0
             end))
  /\ (count relevant example_records = 0 ->
      local_score example_records = 0%float).
Proof.
  apply (product_score_recomputed JsonText.json_loads decimal_to_float
           example_request example_ratio_file example_response
           example_parsed example_records example_result);
    reflexivity.
Defined.

(** A response whose feature list holds a record and a stray string, and
    which reports the score 9: no record of the two categories is positive,
    so the local score is 0.0, yet the score returned is the reported 9. *)
Lemma reported_score_survives :
  compare_policy JsonText.json_loads decimal_to_float example_request None
    (PyStr.with_quotes
       "{'feature_analysis': [{'category': 'Must Have', 'status': 'Negative'}, 'n/a'],
         'product_score': 9}")
  = Ok (JObj [ ("feature_analysis",
                 JArr [JObj [("category", JStr "Must Have");
                             ("status", JStr "Negative")];
                       JStr "n/a"]);
               ("product_score", JInt 9) ])
  /\ local_score [JObj [("category", JStr "Must Have"); ("status", JStr "Negative")];
                  JStr "n/a"] = 0%float
  /\ JInt 9 <> JFloat (local_score
                         [JObj [("category", JStr "Must Have");
                                ("status", JStr "Negative")];
                          JStr "n/a"]).
Proof.
  repeat split; try reflexivity. discriminate.
Qed.

(** The same score reported in a response with prose around the JSON: the
    strict parse fails, the text between the braces parses, and on this path
    the score is not recomputed at all; the local score would be 10.0. *)
Lemma salvaged_response_keeps_reported_score :
  compare_policy JsonText.json_loads decimal_to_float example_request None
    (PyStr.with_quotes
       "Here is the analysis:
        {'feature_analysis': [{'category': 'Must Have', 'status': 'Positive'}],
         'product_score': 9}")
  = Ok (JObj [ ("feature_analysis",
                 JArr [JObj [("category", JStr "Must Have");
                             ("status", JStr "Positive")]]);
               ("product_score", JInt 9) ])
  /\ local_score [JObj [("category", JStr "Must Have"); ("status", JStr "Positive")]]
     = 10%float.
Proof.
  split; reflexivity.
Qed.

Lemma pros_cons_example :
  (List.length [JStr "a"; JStr "b"; JStr "c"] <= 7
   /\ List.length [JStr "x"; JStr "y"; JStr "z"] <= 7
   /\ List.length [JStr "a"; JStr "b"; JStr "c"]
      <= List.length [JStr "x"; JStr "y"; JStr "z"])%nat.
Proof.
  apply (pros_cons_limited JsonText.json_loads decimal_to_float
           example_request example_ratio_file example_response example_result);
    reflexivity.
Defined.


Lemma tenure_months_in_range_example :
  exists years months,
    calculated_tenure (mkDate 2024 1 10)
      (JObj [("policy_details", JObj [("start_date", JStr "2020-03-01")])])
    = Ok (tenure_text years months)
    /\ 0 <= months <= 11
    /\ 12 * years + months = 12 * (2024 - 2020) + (1 - 3).
Proof.
  apply (tenure_months_in_range (mkDate 2024 1 10)
           [("policy_details", JObj [("start_date", JStr "2020-03-01")])]
           [("start_date", JStr "2020-03-01")] "2020-03-01" (mkDate 2020 3 1));
    [cbn [month]; lia | reflexivity | reflexivity | reflexivity].
Defined.

Lemma pros_cons_are_prefixes_example :
  exists d',
    limit_pros_cons (JObj example_parsed) = Ok (JObj d')
    /\ Py.lookup "pros" d'
       = Some (JArr (firstn (Nat.min 7 (List.length [JStr "x"; JStr "y"; JStr "z"]))
                       [JStr "a"; JStr "b"; JStr "c"; JStr "d"; JStr "e";
                        JStr "f"; JStr "g"; JStr "h"; JStr "i"]))
    /\ Py.lookup "cons" d' = Some (JArr (firstn 7 [JStr "x"; JStr "y"; JStr "z"]))
    /\ (forall k, String.eqb k "pros" = false -> String.eqb k "cons" = false ->
          Py.lookup k d' = Py.lookup k example_parsed)
    /\ map fst d' = map fst example_parsed.
Proof.
  apply (pros_cons_are_prefixes example_parsed
           [JStr "a"; JStr "b"; JStr "c"; JStr "d"; JStr "e";
            JStr "f"; JStr "g"; JStr "h"; JStr "i"]
           [JStr "x"; JStr "y"; JStr "z"]); reflexivity.
Defined.

Definition example_full_request : Py.dict :=
  [ ("company", JStr "HDFC ERGO");
    ("policy_details",
      JObj [("start_date", JStr "2020-03-01"); ("plan", JStr "Optima Secure")]);
    ("policy_holders", JArr [JObj [("name", JStr "Asha"); ("age", JStr "33")]]) ].

Lemma default_result_returned_example :
  compare_endpoint JsonText.json_loads decimal_to_float
    Matcher.prefix_ratio Matcher.plain_reader (mkDate 2024 1 10)
    "Company,Claims Paid Ratio" Matcher.example_csv
    (JObj example_full_request) example_ratio_file
    "I cannot compare these policies."
  = Ok (default_result
          (match Py.lookup "company" example_full_request with
           | Some company => company
           | None => JStr "Unknown"
           end)).
Proof.
  apply (default_result_returned JsonText.json_loads decimal_to_float
           Matcher.prefix_ratio Matcher.plain_reader (mkDate 2024 1 10)
           "Company,Claims Paid Ratio" Matcher.example_csv
           example_full_request example_ratio_file
           "I cannot compare these policies."
           ("3 Years 10 Months", false,
            Some [("Insurance Company", Some "HDFC ERGO General Insurance");
                  ("Base Plan Name", Some "Optima Secure")],
            JStr "33"));
    [reflexivity | reflexivity | reflexivity | left; reflexivity].
Defined.

(** The default document of the extraction endpoint, sent as a request: its
    list of persons is empty, the prompt cannot quote an age, and the
    endpoint fails before the backend is called. *)
Lemma extraction_default_is_refused :
  Py.field Extract.default_document "policy_holders" = Some (JArr [])
  /\ compare_endpoint JsonText.json_loads decimal_to_float
       Matcher.prefix_ratio Matcher.plain_reader (mkDate 2024 1 10)
       "Company,Claims Paid Ratio" Matcher.example_csv
       Extract.default_document example_ratio_file
       "I cannot compare these policies."
     = Http500.
Proof. split; reflexivity. Qed.

Lemma compare_leaves_the_rest_example :
  Py.field example_result "feature_analysis"
  = Py.lookup "feature_analysis" example_parsed.
Proof.
  apply (compare_leaves_the_rest JsonText.json_loads decimal_to_float
           example_request example_ratio_file example_response
           example_parsed example_result "feature_analysis");
    reflexivity.
Defined.

Lemma nameless_candidate_example :
  get_csr_score [("bajaj allianz", 90%Q); ("hdfc ergo", 86%Q)]
    (JObj [("plan", JStr "Optima Secure")])
  = Ok (snd ("bajaj allianz", 90%Q)).
Proof.
  apply (nameless_candidate_gets_first_entry ("bajaj allianz", 90%Q)
           [("hdfc ergo", 86%Q)] (JObj [("plan", JStr "Optima Secure")])
           EmptyString); reflexivity.
Defined.

End Compare.
